(** * Gemini context-caching proxy: a shallow embedding of [main.go]

    The development follows the request-orchestration engine of the proxy:
    the cache eligibility decision of [handleChat], the three file tools,
    the tool-resolution loops of the native and of the OpenAI-compatible
    handler, the model mapping of the OpenAI adapter and the cost function.

    Go strings are byte strings ([string]); Go [int], [int32] and [int64]
    values are [Z] (sizes, lengths and token counts, far from the bounds);
    [float64] is the kernel's binary64 [float]; a Go [map] is a [gmap] and
    a [range] over it visits the entries in an order the runtime chooses. *)

From Stdlib Require Import ZArith String Ascii List Bool Lia.
From Stdlib Require Import Floats.PrimFloat Numbers.Cyclic.Int63.Uint63.
From stdpp Require Import base option gmap strings list fin_maps pretty.

Local Open Scope string_scope.
Local Open Scope Z_scope.

(** ** The pieces of Go's [strings] package that [main.go] calls *)

Module strings.

(** [strings.HasPrefix(s, prefix)] *)
Definition HasPrefix (s prefix : string) : bool := String.prefix prefix s.

(** [strings.HasSuffix(s, suffix)] *)
Definition HasSuffix (s suffix : string) : bool :=
  (String.length suffix <=? String.length s)%nat
  && String.eqb
       (String.substring (String.length s - String.length suffix)
                         (String.length suffix) s)
       suffix.

(** [strings.TrimSuffix(s, suffix)]: [s] without the trailing [suffix], or
    [s] itself when it does not end in [suffix]. *)
Definition TrimSuffix (s suffix : string) : string :=
  if HasSuffix s suffix
  then String.substring 0 (String.length s - String.length suffix) s
  else s.

(** [strings.Contains(s, substr)] *)
Fixpoint Contains (s substr : string) : bool :=
  String.prefix substr s
  || match s with
     | EmptyString => false
     | String _ s' => Contains s' substr
     end.

(** The one-byte white space of Go's [unicode.IsSpace]. *)
Definition isSpace (c : ascii) : bool :=
  let n := nat_of_ascii c in
  ((9 <=? n) && (n <=? 13) || (n =? 32))%nat.

Fixpoint TrimLeft (s : string) : string :=
  match s with
  | String c s' => if isSpace c then TrimLeft s' else s
  | EmptyString => EmptyString
  end.

Fixpoint TrimRight (s : string) : string :=
  match s with
  | String c s' =>
      match TrimRight s' with
      | EmptyString => if isSpace c then EmptyString else String c EmptyString
      | t => String c t
      end
  | EmptyString => EmptyString
  end.

(** [strings.TrimSpace(s)], on the one-byte white space characters (tab,
    line feed, vertical tab, form feed, carriage return, space).  Go also
    strips the white space code points that UTF-8 encodes in several
    bytes; no statement below depends on which characters are stripped. *)
Definition TrimSpace (s : string) : string := TrimRight (TrimLeft s).

(** [strings.Join(elems, sep)] *)
Fixpoint Join (elems : list string) (sep : string) : string :=
  match elems with
  | [] => ""
  | [e] => e
  | e :: rest => e ++ sep ++ Join rest sep
  end.

End strings.

(** ** Configuration and global state of the server *)

Definition DefaultModel : string := "gemini-2.0-flash".

(** The globals of [main.go] that the request handlers read: the active
    cache reference ([""] when there is none), the model it is bound to and
    the absolute path of the served directory. *)
Record Globals := {
  cacheName : string;
  cacheModel : string;
  projectRoot : string
}.

Record ChatRequest := {
  SessionID : string;
  Model : string;
  Message : string;
  CacheID : string;
  UseSearch : bool;
  UseAgentic : bool
}.

(** ** Cache eligibility ([handleChat], "Determine if we can use a cache") *)

(** The value of [activeCID] after the first [if]/[else if] of the
    handler: the request's override when it is set, else the server's cache
    when the requested model is not an image model and starts with the
    cache's model name (less a trailing ["-001"]), else [""]. *)
Definition activeCID (g : Globals) (req : ChatRequest) : string :=
  if negb (String.eqb (CacheID req) "") then CacheID req
  else if negb (String.eqb (cacheName g) "") then
    let isImageModel := strings.Contains (Model req) "image" in
    let isDifferentFamily :=
      negb (strings.HasPrefix (Model req)
                              (strings.TrimSuffix (cacheModel g) "-001")) in
    if negb isImageModel && negb isDifferentFamily then cacheName g else ""
  else "".

(** The value the handler leaves in [config.CachedContent]: [activeCID]
    when it is set and neither tool flag is, else the zero value [""]
    (the field is never assigned, and the upstream call carries no cache). *)
Definition CachedContent_of (g : Globals) (req : ChatRequest) : string :=
  let cid := activeCID g req in
  if negb (String.eqb cid "") && negb (UseAgentic req) && negb (UseSearch req)
  then cid else "".

(** The two outcomes of the policy for one upstream call. *)
Inductive CacheDecision := AttachCache (ref : string) | OmitCache.

Definition decide_cache (g : Globals) (req : ChatRequest) : CacheDecision :=
  let c := CachedContent_of g req in
  if String.eqb c "" then OmitCache else AttachCache c.

(** ** Model mapping of the OpenAI-compatible adapter *)

(** The test of both OpenAI handlers on a ["gemini-"] model id. *)
Definition isBlockedExperimental (model : string) : bool :=
  strings.Contains model "-exp"
  || strings.Contains model "experimental"
  || strings.Contains model "2.0-flash-exp"
  || strings.Contains model "2.0-pro-exp".

Inductive ModelMapping :=
  | UseModel (model : string)
  | RejectExperimental.

(** The block "Use model directly if it's a valid Gemini model ID,
    otherwise use cached/default", the same text in [handleOpenAIChat]
    and [handleOpenAIStream]. *)
Definition mapOpenAIModel (g : Globals) (reqModel : string) : ModelMapping :=
  if strings.HasPrefix reqModel "gemini-" then
    if isBlockedExperimental reqModel then RejectExperimental
    else UseModel reqModel
  else
    let model := cacheModel g in
    if String.eqb model "" then UseModel DefaultModel else UseModel model.

(** ** Go's [path/filepath] on a system whose separator is [/]

    The standard library is not part of the repository; these definitions
    follow its documented rules. *)

Module filepath.

(** The elements of a path: the text between consecutive separators. *)
Fixpoint split (s : string) : list string :=
  match s with
  | EmptyString => [EmptyString]
  | String c s' =>
      if Ascii.eqb c "/" then EmptyString :: split s'
      else match split s' with
           | e :: rest => String c e :: rest
           | [] => [String c EmptyString]
           end
  end.

(** One element of the input meets the output written so far ([out], last
    element first): an empty element or [.] is dropped; [..] removes the
    last element when that is a real one, is dropped at the top of a rooted
    path and is kept at the front of a relative one; any other element is
    appended. *)
Definition cleanStep (rooted : bool) (out : list string) (e : string)
  : list string :=
  if String.eqb e "" || String.eqb e "." then out
  else if String.eqb e ".." then
    match out with
    | top :: below =>
        if String.eqb top ".." then (if rooted then out else e :: out)
        else below
    | [] => if rooted then out else [e]
    end
  else e :: out.

Definition cleanElems (rooted : bool) (elems : list string) : list string :=
  rev (fold_left (cleanStep rooted) elems []).

(** [filepath.Clean(path)] *)
Definition Clean (path : string) : string :=
  if String.eqb path "" then "."
  else
    let rooted := strings.HasPrefix path "/" in
    let out := cleanElems rooted (split path) in
    if rooted then "/" ++ strings.Join out "/"
    else match out with
         | [] => "."
         | _ => strings.Join out "/"
         end.

(** [filepath.Join(elem...)]: the elements from the first non-empty one on,
    joined by separators and cleaned; [""] when every element is empty. *)
Fixpoint Join (elem : list string) : string :=
  match elem with
  | [] => ""
  | e :: rest =>
      if String.eqb e "" then Join rest else Clean (strings.Join elem "/")
  end.

Fixpoint hasSeparator (s : string) : bool :=
  match s with
  | EmptyString => false
  | String c s' => Ascii.eqb c "/" || hasSeparator s'
  end.

(** [path[:i+1]] for [i] the index of the last separator of [path]. *)
Fixpoint uptoLastSeparator (s : string) : string :=
  match s with
  | EmptyString => EmptyString
  | String c s' =>
      if Ascii.eqb c "/" || hasSeparator s'
      then String c (uptoLastSeparator s')
      else EmptyString
  end.

(** [filepath.Dir(path)] *)
Definition Dir (path : string) : string := Clean (uptoLastSeparator path).

End filepath.

(** ** The operating system, as the tools see it *)

(** A Go [(value, error)] result; the error is kept as its message. *)
Definition Result (A : Type) : Type := (A + string)%type.

Record DirEntry := { Name : string; IsDir : bool }.
Record FileInfo := { Size : Z }.

(** The five [os] calls of the tools over a file-system state [World].
    The three reading calls leave the state as it is. *)
Record OS (World : Type) := {
  os_ReadDir : string -> World -> Result (list DirEntry);
  os_Stat : string -> World -> Result FileInfo;
  os_ReadFile : string -> World -> Result string;
  os_MkdirAll : string -> World -> option string * World;
  os_WriteFile : string -> string -> World -> option string * World
}.
Arguments os_ReadDir {World}.
Arguments os_Stat {World}.
Arguments os_ReadFile {World}.
Arguments os_MkdirAll {World}.
Arguments os_WriteFile {World}.

(** What a tool did to the outside: each [os] call with the path it was
    given, and the line handed to [logMsg]. *)
Inductive Event :=
  | EvReadDir (name : string)
  | EvStat (name : string)
  | EvReadFile (name : string)
  | EvMkdirAll (path : string)
  | EvWriteFile (name data : string)
  | EvLog (line : string).

(** The path an event touches in the served file system, if any. *)
Definition event_path (e : Event) : option string :=
  match e with
  | EvReadDir p | EvStat p | EvReadFile p | EvMkdirAll p | EvWriteFile p _ =>
      Some p
  | EvLog _ => None
  end.

(** The result map of a tool: [{"error": msg}], [{"files": names}],
    [{"content": text}] or [{"status": "OK", "path": p, "bytes_written": n}]. *)
Inductive ToolResult :=
  | TRError (msg : string)
  | TRFiles (files : list string)
  | TRContent (content : string)
  | TRWritten (path : string) (bytes_written : Z).

Definition AccessDenied : ToolResult :=
  TRError "Access denied: outside project root".

(** State passing for the effects of the tools: the file system and the
    events so far, oldest first. *)
Definition Eff (World A : Type) : Type :=
  World * list Event -> A * (World * list Event).

Definition ret {World A} (a : A) : Eff World A := fun s => (a, s).

Definition bind {World A B} (m : Eff World A) (k : A -> Eff World B)
  : Eff World B :=
  fun s => let '(a, s') := m s in k a s'.

Notation "'do' x <- m ; k" := (bind m (fun x => k))
  (at level 10, x name, m at level 100, k at level 200).

Definition emit {World} (e : Event) : Eff World unit :=
  fun '(w, tr) => (tt, (w, (tr ++ [e])%list)).

Section Tools.

Context {World : Type}.
Variable os : OS World.
Variable g : Globals.

Definition ReadDir (name : string) : Eff World (Result (list DirEntry)) :=
  fun '(w, tr) => (os_ReadDir os name w, (w, (tr ++ [EvReadDir name])%list)).

Definition Stat (name : string) : Eff World (Result FileInfo) :=
  fun '(w, tr) => (os_Stat os name w, (w, (tr ++ [EvStat name])%list)).

Definition ReadFile (name : string) : Eff World (Result string) :=
  fun '(w, tr) => (os_ReadFile os name w, (w, (tr ++ [EvReadFile name])%list)).

Definition MkdirAll (path : string) : Eff World (option string) :=
  fun '(w, tr) =>
    let '(err, w') := os_MkdirAll os path w in
    (err, (w', (tr ++ [EvMkdirAll path])%list)).

Definition WriteFile (name data : string) : Eff World (option string) :=
  fun '(w, tr) =>
    let '(err, w') := os_WriteFile os name data w in
    (err, (w', (tr ++ [EvWriteFile name data])%list)).

(** [logMsg], less the time stamp it puts in front of the line. *)
Definition logMsg (line : string) : Eff World unit := emit (EvLog line).

(** The path all three tools compute first:
    [filepath.Join(projectRoot, filepath.Clean(relPath))]. *)
Definition resolve (relPath : string) : string :=
  filepath.Join [projectRoot g; filepath.Clean relPath].

Definition entryName (e : DirEntry) : string :=
  if IsDir e then Name e ++ "/" else Name e.

Definition toolListFiles (relPath : string) : Eff World ToolResult :=
  let relPath := if String.eqb relPath "" then "." else relPath in
  let cleanPath := filepath.Join [projectRoot g; filepath.Clean relPath] in
  if negb (strings.HasPrefix cleanPath (projectRoot g)) then ret AccessDenied
  else
    do r <- ReadDir cleanPath ;
    match r with
    | inr err => ret (TRError err)
    | inl entries => ret (TRFiles (map entryName entries))
    end.

Definition toolReadFile (relPath : string) : Eff World ToolResult :=
  let cleanPath := filepath.Join [projectRoot g; filepath.Clean relPath] in
  if negb (strings.HasPrefix cleanPath (projectRoot g)) then ret AccessDenied
  else
    do r <- Stat cleanPath ;
    match r with
    | inr err => ret (TRError err)
    | inl info =>
        if 1000000 <? Size info then ret (TRError "File too large")
        else
          do c <- ReadFile cleanPath ;
          match c with
          | inr err => ret (TRError err)
          | inl content => ret (TRContent content)
          end
    end.

Definition toolWriteFile (relPath content : string) : Eff World ToolResult :=
  let cleanPath := filepath.Join [projectRoot g; filepath.Clean relPath] in
  if negb (strings.HasPrefix cleanPath (projectRoot g)) then ret AccessDenied
  else
    let dir := filepath.Dir cleanPath in
    do e <- MkdirAll dir ;
    match e with
    | Some err => ret (TRError ("Failed to create directory: " ++ err))
    | None =>
        do e' <- WriteFile cleanPath content ;
        match e' with
        | Some err => ret (TRError err)
        | None =>
            let n := Z.of_nat (String.length content) in
            do _ <- logMsg ("[TOOL] write_file: " ++ relPath
                            ++ " (" ++ pretty n ++ " bytes)") ;
            ret (TRWritten relPath n)
        end
    end.

End Tools.

(** ** The parts of the [genai] SDK that the handlers use *)

Module genai.

(** A value of a function call's [Args map[string]any]: only whether it
    is a string matters to the handlers ([args["path"].(string)]). *)
Inductive Any := AnyString (s : string) | AnyOther.

Record FunctionCall := { Name : string; Args : gmap string Any }.

Record FunctionResponse := { ResponseName : string; Response : ToolResult }.

(** [Data] is a byte slice that may be [nil]. *)
Record Blob := { MIMEType : string; Data : option string }.

Record Part := {
  Text : string;
  Thought : bool;
  InlineData : option Blob;
  Part_FunctionCall : option FunctionCall;
  Part_FunctionResponse : option FunctionResponse
}.

Definition TextPart (s : string) : Part :=
  {| Text := s; Thought := false; InlineData := None;
     Part_FunctionCall := None; Part_FunctionResponse := None |}.

Definition FunctionResponsePart (name : string) (r : ToolResult) : Part :=
  {| Text := ""; Thought := false; InlineData := None;
     Part_FunctionCall := None;
     Part_FunctionResponse :=
       Some {| ResponseName := name; Response := r |} |}.

Record Content := { Parts : list Part; Role : string }.

Record Candidate := { Candidate_Content : option Content }.

Record UsageMetadata := {
  PromptTokenCount : Z;
  CandidatesTokenCount : Z;
  TotalTokenCount : Z
}.

Record GenerateContentResponse := {
  Candidates : list Candidate;
  Response_UsageMetadata : option UsageMetadata
}.

(** The parts both accessors read: those of the first candidate, none
    when there is no candidate or it has no content. *)
Definition firstParts (r : GenerateContentResponse) : list Part :=
  match Candidates r with
  | [] => []
  | c :: _ =>
      match Candidate_Content c with
      | None => []
      | Some content => Parts content
      end
  end.

(** The method [FunctionCalls()] of a response. *)
Definition FunctionCalls (r : GenerateContentResponse) : list FunctionCall :=
  omap Part_FunctionCall (firstParts r).

(** The method [Text()] of a response: the non-empty texts of the first
    candidate's parts that are not thoughts, concatenated. *)
Definition ResponseText (r : GenerateContentResponse) : string :=
  strings.Join
    (omap (fun p => if String.eqb (Text p) "" || Thought p then None
                    else Some (Text p))
          (firstParts r))
    "".

Inductive HarmCategory :=
  | HarmCategoryHarassment
  | HarmCategoryHateSpeech
  | HarmCategorySexuallyExplicit
  | HarmCategoryDangerousContent.

Inductive HarmBlockThreshold := HarmBlockThresholdBlockNone.

(** A tool of a configuration: search grounding, or function declarations
    (kept by name; their schemas are constants of the source). *)
Inductive Tool :=
  | GoogleSearch
  | FunctionDeclarations (names : list string).

Record GenerateContentConfig := {
  Temperature : option float;
  SafetySettings : list (HarmCategory * HarmBlockThreshold);
  Tools : list Tool;
  CachedContent : string
}.

(** A chat session: what it was created with and every message sent on
    it so far, oldest first. *)
Record Chat := {
  chat_model : string;
  chat_config : GenerateContentConfig;
  chat_history : list Content;
  chat_sent : list (list Part)
}.

(** The provider: whether creating a chat fails, what it answers to a
    message on a chat, and the history a chat reports. *)
Record Upstream := {
  up_Create : string -> GenerateContentConfig -> list Content -> option string;
  up_Generate : Chat -> list Part -> Result GenerateContentResponse;
  up_History : Chat -> list Content
}.

(** [client.Chats.Create(ctx, model, config, history)] *)
Definition Chats_Create (up : Upstream) (model : string)
    (config : GenerateContentConfig) (history : list Content) : Result Chat :=
  match up_Create up model config history with
  | Some err => inr err
  | None => inl {| chat_model := model; chat_config := config;
                   chat_history := history; chat_sent := [] |}
  end.

(** [chat.SendMessage(ctx, parts...)]: the answer, and the chat with the
    message on its record. *)
Definition SendMessage (up : Upstream) (chat : Chat) (parts : list Part)
  : Result GenerateContentResponse * Chat :=
  (up_Generate up chat parts,
   {| chat_model := chat_model chat; chat_config := chat_config chat;
      chat_history := chat_history chat;
      chat_sent := (chat_sent chat ++ [parts])%list |}).

End genai.

(** ** Cost *)

Record Rates := { RateIn : float; RateOut : float }.

#[local] Set Warnings "-inexact-float".

(** The entries of the literal of [modelCosts], as the source lists them. *)
Definition modelCostEntries : list (string * Rates) :=
  [ ("gemini-1.5-flash", {| RateIn := 0.075; RateOut := 0.30 |});
    ("gemini-1.5-flash-8b", {| RateIn := 0.0375; RateOut := 0.15 |});
    ("gemini-1.5-pro", {| RateIn := 1.25; RateOut := 5.00 |});
    ("gemini-2.0-flash", {| RateIn := 0.10; RateOut := 0.40 |});
    ("gemini-2.0-flash-exp", {| RateIn := 0.00; RateOut := 0.00 |});
    ("gemini-2.0-flash-lite-preview-02-05",
      {| RateIn := 0.075; RateOut := 0.30 |});
    ("gemini-exp-1206", {| RateIn := 0.00; RateOut := 0.00 |});
    ("gemini-2.0-pro-exp-02-05", {| RateIn := 0.00; RateOut := 0.00 |}) ].

Definition modelCosts : gmap string Rates := list_to_map modelCostEntries.

(** An order in which one [for modelKey, r := range modelCosts] may visit
    the table: each entry once, in any order. *)
Definition rangeOrder (order : list (string * Rates)) : Prop :=
  order ≡ₚ map_to_list modelCosts.

(** [float64(n)] for an [int32] [n]. *)
Definition float64 (n : Z) : float :=
  if n <? 0 then PrimFloat.opp (PrimFloat.of_uint63 (Uint63.of_Z (- n)))
  else PrimFloat.of_uint63 (Uint63.of_Z n).

(** The loop of [calculateCost]: the rates of the first visited key that
    the model name equals or starts with. *)
Fixpoint findRates (order : list (string * Rates)) (modelName : string)
  : option Rates :=
  match order with
  | [] => None
  | (modelKey, r) :: rest =>
      if String.eqb modelName modelKey || strings.HasPrefix modelName modelKey
      then Some r
      else findRates rest modelName
  end.

Definition calculateCost (order : list (string * Rates)) (modelName : string)
    (resp : genai.GenerateContentResponse) : float :=
  match findRates order modelName with
  | None => 0%float
  | Some rates =>
      if PrimFloat.eqb (RateIn rates) 0 && PrimFloat.eqb (RateOut rates) 0
      then 0%float
      else
        match genai.Response_UsageMetadata resp with
        | None => 0%float
        | Some u =>
            let inCost :=
              (float64 (genai.PromptTokenCount u) / 1000000.0 * RateIn rates)%float in
            let outCost :=
              (float64 (genai.CandidatesTokenCount u) / 1000000.0
               * RateOut rates)%float in
            (inCost + outCost)%float
        end
  end.

(** What the specification asks of the lookup: among the keys the model
    name starts with, the longest one. *)
Definition longestPrefixKey (modelName : string) : option (string * Rates) :=
  foldr
    (fun kr best =>
       if strings.HasPrefix modelName kr.1 then
         match best with
         | Some b =>
             if (String.length b.1 <? String.length kr.1)%nat
             then Some kr else best
         | None => Some kr
         end
       else best)
    None (map_to_list modelCosts).

(** ** [encoding/base64]: [StdEncoding.EncodeToString] *)

Module base64.

Definition alphabet : string :=
  "ABCDEFGHIJKLMNOPQRSTUVWXYZabcdefghijklmnopqrstuvwxyz0123456789+/".

Definition digit (n : N) : ascii :=
  match String.get (N.to_nat (n mod 64)%N) alphabet with
  | Some c => c
  | None => "="%char
  end.

Definition code (c : ascii) : N := N_of_ascii c.

Fixpoint EncodeToString (src : string) : string :=
  match src with
  | String a (String b (String c rest)) =>
      let n := (code a * 65536 + code b * 256 + code c)%N in
      String (digit (n / 262144)) (String (digit (n / 4096))
        (String (digit (n / 64)) (String (digit n) (EncodeToString rest))))
  | String a (String b EmptyString) =>
      let n := (code a * 65536 + code b * 256)%N in
      String (digit (n / 262144)) (String (digit (n / 4096))
        (String (digit (n / 64)) "="))
  | String a EmptyString =>
      let n := (code a * 65536)%N in
      String (digit (n / 262144)) (String (digit (n / 4096)) "==")
  | EmptyString => EmptyString
  end.

End base64.

(** ** Wire types of the two adapters *)

Record ImageData := { MimeType : string; Data : string }.

Record ChatResponse := {
  Text : string;
  Images : list ImageData;
  ToolCalls : list string;
  PromptTokens : Z;
  ResponseTokens : Z;
  TotalTokens : Z;
  Cost : float;
  TotalCost : float
}.

Record OpenAIMessage := { Role : string; Content : string }.

Record OpenAIChatRequest := {
  OpenAI_Model : string;
  Messages : list OpenAIMessage;
  Stream : bool
}.

Record OpenAIUsage := {
  Usage_PromptTokens : Z;
  CompletionTokens : Z;
  Usage_TotalTokens : Z
}.

Record OpenAIChoice := {
  Index : Z;
  Choice_Message : OpenAIMessage;
  FinishReason : string
}.

(** The completion object, less its [ID] and [Created] fields, which are
    readings of the clock. *)
Record OpenAIChatResponse := {
  Object : string;
  Response_Model : string;
  Choices : list OpenAIChoice;
  Usage : OpenAIUsage
}.

(** The process-wide session map and running cost. *)
Record ServerState := {
  sessions : gmap string (list genai.Content);
  totalCost : float
}.

(** What a handler leaves on the connection: [http.Error(w, msg, code)],
    an encoded body, nothing because the handler panicked, or nothing yet
    because the handler is still in its loop. *)
Inductive HttpResponse (Body : Type) :=
  | HttpError (msg : string) (code : Z)
  | HttpJSON (body : Body)
  | HttpPanic
  | HttpPending.
Arguments HttpError {Body}.
Arguments HttpJSON {Body}.
Arguments HttpPanic {Body}.
Arguments HttpPending {Body}.

(** One pass through the body of a [for { ... }]: [continue] or fall
    through to the next pass, or [break]. *)
Inductive Step (S : Type) := Continue (s : S) | Break (s : S).
Arguments Continue {S}.
Arguments Break {S}.

(** At most [fuel] passes of a loop body: [Break s] when the loop has
    left through a [break] with its variables at [s], [Continue s] when
    after [fuel] passes it is about to begin the next one. *)
Fixpoint iterate {S : Type} (body : S -> Step S) (fuel : nat) (s : S)
  : Step S :=
  match fuel with
  | O => Continue s
  | S fuel' =>
      match body s with
      | Break s' => Break s'
      | Continue s' => iterate body fuel' s'
      end
  end.

Definition safetySettings
  : list (genai.HarmCategory * genai.HarmBlockThreshold) :=
  [ (genai.HarmCategoryHarassment, genai.HarmBlockThresholdBlockNone);
    (genai.HarmCategoryHateSpeech, genai.HarmBlockThresholdBlockNone);
    (genai.HarmCategorySexuallyExplicit, genai.HarmBlockThresholdBlockNone);
    (genai.HarmCategoryDangerousContent, genai.HarmBlockThresholdBlockNone) ].

(** The fallbacks at the end of [handleChat]. *)
Definition finalText (finalResponse : string) (toolLogs : list string)
    (images : list ImageData) : string :=
  let finalResponse := strings.TrimSpace finalResponse in
  if String.eqb finalResponse "" && (length toolLogs =? 0)%nat
     && (length images =? 0)%nat
  then "[System Warning: Model returned empty content. This may be a safety block or API glitch.]"
  else if String.eqb finalResponse "" && (0 <? length toolLogs)%nat
  then "[Executed " ++ pretty (length toolLogs)
       ++ " tool(s) but model provided no summary.]"
  else if String.eqb finalResponse "" && (0 <? length images)%nat
  then "[Generated " ++ pretty (length images) ++ " image(s)]"
  else finalResponse.

(** The images of a terminal response: every part of the first candidate
    with inline data whose bytes are not [nil]. *)
Definition inlineImages (res : genai.GenerateContentResponse)
  : list ImageData :=
  omap (fun p =>
          match genai.InlineData p with
          | Some blob =>
              match genai.Data blob with
              | Some bytes =>
                  Some {| MimeType := genai.MIMEType blob;
                          Data := base64.EncodeToString bytes |}
              | None => None
              end
          | None => None
          end)
       (genai.firstParts res).

(** [s, _ := args[key].(string)] *)
Definition argString (args : gmap string genai.Any) (key : string) : string :=
  match args !! key with
  | Some (genai.AnyString s) => s
  | _ => ""
  end.

(** ** The handlers *)

Section Handlers.

Context {World : Type}.
Variable os : OS World.
Variable up : genai.Upstream.
Variable g : Globals.
(** [rangeModelCosts n]: the order in which the [n]-th call of
    [calculateCost] within a request visits the price table. *)
Variable rangeModelCosts : nat -> list (string * Rates).

(** The [if]/[else if] chain on the tool name, the same in every loop. *)
Definition dispatch (funcCall : genai.FunctionCall) : Eff World ToolResult :=
  let args := genai.Args funcCall in
  if String.eqb (genai.Name funcCall) "list_files" then
    toolListFiles os g (argString args "path")
  else if String.eqb (genai.Name funcCall) "read_file" then
    toolReadFile os g (argString args "path")
  else if String.eqb (genai.Name funcCall) "write_file" then
    toolWriteFile os g (argString args "path") (argString args "content")
  else ret (TRError "unknown tool").

(** [for _, funcCall := range funcCalls]: every call is executed, in
    order, and answered by one function-response part. *)
Fixpoint executeCalls (funcCalls : list genai.FunctionCall)
  : Eff World (list genai.Part) :=
  match funcCalls with
  | [] => ret []
  | funcCall :: rest =>
      do funcResult <- dispatch funcCall ;
      do funcResponses <- executeCalls rest ;
      ret (genai.FunctionResponsePart (genai.Name funcCall) funcResult
           :: funcResponses)
  end.

(** *** [handleChat] *)

(** [fmt.Sprintf("Executed: %s", toolName)] *)
Definition toolLog (toolName : string) : string := "Executed: " ++ toolName.

(** The variables of [handleChat] that its loop reads and writes, with
    the file system, and the number of passes begun. *)
Record ChatLoop := {
  cl_chat : genai.Chat;
  cl_res : genai.GenerateContentResponse;
  cl_finalResponse : string;
  cl_toolLogs : list string;
  cl_images : list ImageData;
  cl_requestCost : float;
  cl_respToks : Z;
  cl_totalToks : Z;
  cl_env : World * list Event;
  cl_passes : nat
}.

Definition chatLoopBody (model : string) (s : ChatLoop) : Step ChatLoop :=
  let res := cl_res s in
  let requestCost :=
    (cl_requestCost s
     + calculateCost (rangeModelCosts (cl_passes s)) model res)%float in
  let passes := S (cl_passes s) in
  let stop :=
    Break {| cl_chat := cl_chat s; cl_res := res;
             cl_finalResponse := cl_finalResponse s;
             cl_toolLogs := cl_toolLogs s; cl_images := cl_images s;
             cl_requestCost := requestCost; cl_respToks := cl_respToks s;
             cl_totalToks := cl_totalToks s; cl_env := cl_env s;
             cl_passes := passes |} in
  match genai.Candidates res with
  | [] => stop
  | c :: _ =>
      match genai.Candidate_Content c with
      | None => stop
      | Some _ =>
          match genai.FunctionCalls res with
          | (_ :: _) as funcCalls =>
              let toolLogs :=
                (cl_toolLogs s
                 ++ map (fun fc => toolLog (genai.Name fc)) funcCalls)%list in
              let '(funcResponses, env) := executeCalls funcCalls (cl_env s) in
              let '(r, chat) := genai.SendMessage up (cl_chat s) funcResponses in
              match r with
              | inr err =>
                  Break {| cl_chat := chat; cl_res := res;
                           cl_finalResponse :=
                             "Error after tool execution: " ++ err;
                           cl_toolLogs := toolLogs; cl_images := cl_images s;
                           cl_requestCost := requestCost;
                           cl_respToks := cl_respToks s;
                           cl_totalToks := cl_totalToks s; cl_env := env;
                           cl_passes := passes |}
              | inl res' =>
                  let '(respToks, totalToks) :=
                    match genai.Response_UsageMetadata res' with
                    | Some u =>
                        (cl_respToks s + genai.CandidatesTokenCount u,
                         genai.TotalTokenCount u)
                    | None => (cl_respToks s, cl_totalToks s)
                    end in
                  Continue {| cl_chat := chat; cl_res := res';
                              cl_finalResponse := cl_finalResponse s;
                              cl_toolLogs := toolLogs;
                              cl_images := cl_images s;
                              cl_requestCost := requestCost;
                              cl_respToks := respToks;
                              cl_totalToks := totalToks; cl_env := env;
                              cl_passes := passes |}
              end
          | [] =>
              Break {| cl_chat := cl_chat s; cl_res := res;
                       cl_finalResponse := genai.ResponseText res;
                       cl_toolLogs := cl_toolLogs s;
                       cl_images := (cl_images s ++ inlineImages res)%list;
                       cl_requestCost := requestCost;
                       cl_respToks := cl_respToks s;
                       cl_totalToks := cl_totalToks s; cl_env := cl_env s;
                       cl_passes := passes |}
          end
      end
  end.

(** What one request leaves behind: the reply, the globals, the file
    system with the events, and the chat it held with the provider (with
    every message sent on it), if it got to create one. *)
Record Served (Body : Type) := {
  reply : HttpResponse Body;
  served_state : ServerState;
  served_env : World * list Event;
  served_chat : option genai.Chat
}.
Arguments reply {Body}.
Arguments served_state {Body}.
Arguments served_env {Body}.
Arguments served_chat {Body}.

(** The request after the two defaults at the top of [handleChat]. *)
Definition withDefaults (req : ChatRequest) : ChatRequest :=
  {| SessionID := if String.eqb (SessionID req) "" then "default"
                  else SessionID req;
     Model := if String.eqb (Model req) "" then DefaultModel else Model req;
     Message := Message req; CacheID := CacheID req;
     UseSearch := UseSearch req; UseAgentic := UseAgentic req |}.

(** The configuration [handleChat] builds for the upstream call. *)
Definition chatConfig (req : ChatRequest) : genai.GenerateContentConfig :=
  let searchTools := if UseSearch req then [genai.GoogleSearch] else [] in
  let agenticTools :=
    if UseAgentic req then
      let fileTools :=
        "write_file"
        :: (if String.eqb (activeCID g req) ""
            then ["list_files"; "read_file"] else []) in
      [genai.FunctionDeclarations fileTools]
    else [] in
  {| genai.Temperature := Some 0x1.99999ap-3%float;
     genai.SafetySettings := safetySettings;
     genai.Tools := (searchTools ++ agenticTools)%list;
     genai.CachedContent := CachedContent_of g req |}.

(** The text of the first message: [req.Message], or ["Hello"] in place
    of an empty one. *)
Definition firstMessage (req : ChatRequest) : string :=
  if String.eqb (Message req) "" then "Hello" else Message req.

(** [handleChat] on a decoded request (the zero request when the method
    is not POST or the body does not decode), observed after at most
    [fuel] passes of its loop: the reply is [HttpPending] when the loop
    has not ended by then.  The log lines and the debug file are not
    modelled. *)
Definition handleChat (fuel : nat) (req : ChatRequest) (st : ServerState)
    (env : World * list Event) : Served ChatResponse :=
  let req := withDefaults req in
  let history := default [] (sessions st !! SessionID req) in
  let config := chatConfig req in
  match genai.Chats_Create up (Model req) config history with
  | inr err =>
      {| reply := HttpError ("Failed to create chat: " ++ err) 500;
         served_state := st; served_env := env; served_chat := None |}
  | inl chat =>
      let '(r, chat) :=
        genai.SendMessage up chat [genai.TextPart (firstMessage req)] in
      match r with
      | inr err =>
          {| reply := HttpError err 500; served_state := st;
             served_env := env; served_chat := Some chat |}
      | inl res =>
          let '(promptToks, respToks, totalToks) :=
            match genai.Response_UsageMetadata res with
            | Some u => (genai.PromptTokenCount u,
                         genai.CandidatesTokenCount u,
                         genai.TotalTokenCount u)
            | None => (0, 0, 0)
            end in
          match iterate (chatLoopBody (Model req)) fuel
                  {| cl_chat := chat; cl_res := res; cl_finalResponse := "";
                     cl_toolLogs := []; cl_images := [];
                     cl_requestCost := 0%float; cl_respToks := respToks;
                     cl_totalToks := totalToks; cl_env := env;
                     cl_passes := 0 |} with
          | Continue s =>
              {| reply := HttpPending; served_state := st;
                 served_env := cl_env s; served_chat := Some (cl_chat s) |}
          | Break s =>
              let finalResponse :=
                finalText (cl_finalResponse s) (cl_toolLogs s) (cl_images s) in
              let total := (totalCost st + cl_requestCost s)%float in
              {| reply :=
                   HttpJSON {| Text := finalResponse;
                               Images := cl_images s;
                               ToolCalls := cl_toolLogs s;
                               PromptTokens := promptToks;
                               ResponseTokens := cl_respToks s;
                               TotalTokens := cl_totalToks s;
                               Cost := cl_requestCost s;
                               TotalCost := total |};
                 served_state :=
                   {| sessions :=
                        <[SessionID req := genai.up_History up (cl_chat s)]>
                          (sessions st);
                      totalCost := total |};
                 served_env := cl_env s;
                 served_chat := Some (cl_chat s) |}
          end
      end
  end.

(** *** [handleOpenAIChat] *)

(** "Extract last user message" *)
Definition lastUserMessage (messages : list OpenAIMessage) : string :=
  fold_left
    (fun userMsg msg =>
       if String.eqb (Role msg) "user" then Content msg else userMsg)
    messages "".

(** The configuration of both OpenAI handlers: the three file tools,
    always, and no cache. *)
Definition openAIConfig : genai.GenerateContentConfig :=
  {| genai.Temperature := None;
     genai.SafetySettings := safetySettings;
     genai.Tools :=
       [genai.FunctionDeclarations ["write_file"; "list_files"; "read_file"]];
     genai.CachedContent := "" |}.

(** The variables of the loop of [handleOpenAIChat].  [ol_res] is [None]
    for the [nil] that a failed [SendMessage] assigns to [res]. *)
Record OpenAILoop := {
  ol_chat : genai.Chat;
  ol_res : option genai.GenerateContentResponse;
  ol_responseText : string;
  ol_env : World * list Event
}.

Definition openAILoopBody (s : OpenAILoop) : Step OpenAILoop :=
  match ol_res s with
  | None => Break s (* not reached: a failed send leaves the loop at once *)
  | Some res =>
      match genai.FunctionCalls res with
      | [] =>
          Break {| ol_chat := ol_chat s; ol_res := Some res;
                   ol_responseText := genai.ResponseText res;
                   ol_env := ol_env s |}
      | (_ :: _) as funcCalls =>
          let '(funcResponses, env) := executeCalls funcCalls (ol_env s) in
          let '(r, chat) := genai.SendMessage up (ol_chat s) funcResponses in
          match r with
          | inr err =>
              Break {| ol_chat := chat; ol_res := None;
                       ol_responseText :=
                         "Error after tool execution: " ++ err;
                       ol_env := env |}
          | inl res' =>
              Continue {| ol_chat := chat; ol_res := Some res';
                          ol_responseText := ol_responseText s;
                          ol_env := env |}
          end
      end
  end.

(** [handleOpenAIChat] after [if req.Stream { ... }], on the requested
    model and the extracted user message, observed after at most [fuel]
    passes of its loop. *)
Definition handleOpenAIBuffered (fuel : nat) (reqModel userMsg : string)
    (st : ServerState) (env : World * list Event)
  : Served OpenAIChatResponse :=
  match mapOpenAIModel g reqModel with
  | RejectExperimental =>
      {| reply := HttpError "Experimental models are not allowed" 400;
         served_state := st; served_env := env; served_chat := None |}
  | UseModel model =>
      let history := default [] (sessions st !! "openai-compat") in
      match genai.Chats_Create up model openAIConfig history with
      | inr err =>
          {| reply := HttpError err 500; served_state := st;
             served_env := env; served_chat := None |}
      | inl chat =>
          let '(r, chat) :=
            genai.SendMessage up chat [genai.TextPart userMsg] in
          match r with
          | inr err =>
              {| reply := HttpError err 500; served_state := st;
                 served_env := env; served_chat := Some chat |}
          | inl res =>
              match iterate openAILoopBody fuel
                      {| ol_chat := chat; ol_res := Some res;
                         ol_responseText := ""; ol_env := env |} with
              | Continue s =>
                  {| reply := HttpPending; served_state := st;
                     served_env := ol_env s;
                     served_chat := Some (ol_chat s) |}
              | Break s =>
                  let st' :=
                    {| sessions :=
                         <["openai-compat" :=
                             genai.up_History up (ol_chat s)]> (sessions st);
                       totalCost := totalCost st |} in
                  let choice :=
                    {| Index := 0;
                       Choice_Message :=
                         {| Role := "assistant";
                            Content := ol_responseText s |};
                       FinishReason := "stop" |} in
                  let answer (usage : OpenAIUsage) :=
                    HttpJSON {| Object := "chat.completion";
                                Response_Model := model;
                                Choices := [choice]; Usage := usage |} in
                  {| reply :=
                       match ol_res s with
                       | None => HttpPanic (* [res.UsageMetadata] on [nil] *)
                       | Some res =>
                           match genai.Response_UsageMetadata res with
                           | Some u =>
                               answer
                                 {| Usage_PromptTokens :=
                                      genai.PromptTokenCount u;
                                    CompletionTokens :=
                                      genai.CandidatesTokenCount u;
                                    Usage_TotalTokens :=
                                      genai.TotalTokenCount u |}
                           | None =>
                               answer
                                 {| Usage_PromptTokens := 0;
                                    CompletionTokens := 0;
                                    Usage_TotalTokens := 0 |}
                           end
                       end;
                     served_state := st'; served_env := ol_env s;
                     served_chat := Some (ol_chat s) |}
              end
          end
      end
  end.

(** The head of [handleOpenAIStream], up to its first log line: the
    error frame it writes for a blocked model, or the model it goes on
    with.  The rest of the streaming handler is not modelled. *)
Inductive StreamHead :=
  | StreamErrorFrame (error : string)
  | StreamWith (model : string).

Definition handleOpenAIStream_head (reqModel : string) : StreamHead :=
  match mapOpenAIModel g reqModel with
  | RejectExperimental =>
      StreamErrorFrame "Experimental models are not allowed"
  | UseModel model => StreamWith model
  end.

Inductive OpenAIOutcome :=
  | Streaming (head : StreamHead)
  | Buffered (served : Served OpenAIChatResponse).

Definition handleOpenAIChat (fuel : nat) (req : OpenAIChatRequest)
    (st : ServerState) (env : World * list Event) : OpenAIOutcome :=
  let userMsg := lastUserMessage (Messages req) in
  if Stream req then Streaming (handleOpenAIStream_head (OpenAI_Model req))
  else Buffered (handleOpenAIBuffered fuel (OpenAI_Model req) userMsg st env).

End Handlers.

Arguments reply {World Body}.
Arguments served_state {World Body}.
Arguments served_env {World Body}.
Arguments served_chat {World Body}.

(** ** More of the [strings] package *)

Module strings2.

(** [strings.TrimPrefix(s, prefix)] *)
Definition TrimPrefix (s prefix : string) : string :=
  if strings.HasPrefix s prefix
  then String.substring (String.length prefix)
         (String.length s - String.length prefix) s
  else s.

(** [strings.Repeat(s, count)] for a count that is not negative. *)
Fixpoint Repeat (s : string) (count : nat) : string :=
  match count with
  | O => ""
  | S count => s ++ Repeat s count
  end.

(** The pieces of [s] between the occurrences of [sep], from the first
    byte of [s] on when [skip] is 0, and from its byte number [skip]
    when the bytes before it are the rest of an occurrence. *)
Fixpoint splitFrom (s sep : string) (skip : nat) : list string :=
  match s with
  | EmptyString => [EmptyString]
  | String c s' =>
      match skip with
      | S skip => splitFrom s' sep skip
      | O =>
          if String.prefix sep s
          then EmptyString :: splitFrom s' sep (String.length sep - 1)
          else match splitFrom s' sep 0 with
               | piece :: pieces => String c piece :: pieces
               | [] => [String c EmptyString]
               end
      end
  end.

(** [strings.Split(s, sep)] for a separator that is not empty. *)
Definition Split (s sep : string) : list string := splitFrom s sep 0.

End strings2.

(** ** The other handlers of [main.go] *)

(** [handleReset]: a fresh session map; the running cost stays. *)
Definition handleReset (st : ServerState) : ServerState * string :=
  ({| sessions := ∅; totalCost := totalCost st |}, "All sessions cleared.").

(** The [skip] map of [handleFiles]. *)
Definition skipDirs : gmap string bool :=
  list_to_map
    [ ("node_modules", true); ("vendor", true); (".git", true);
      ("dist", true); ("build", true); (".next", true); ("target", true);
      ("__pycache__", true); ("venv", true); (".venv", true) ].

(** What the loop of [handleFiles] appends for one directory entry, if
    anything: hidden names and the skipped directories are passed over,
    a directory gets a trailing separator. *)
Definition listedName (e : DirEntry) : option string :=
  let name := Name e in
  if strings.HasPrefix name "." then None
  else if IsDir e then
    if default false (skipDirs !! name) then None else Some (name ++ "/")
  else Some name.

Section Files.

Context {World : Type}.
Variable os : OS World.
Variable g : Globals.

(** [handleFiles] on the value of the [path] query parameter. *)
Definition handleFiles (subPath : string)
  : Eff World (HttpResponse (list string)) :=
  let checked : option string :=
    if negb (String.eqb subPath "") then
      let cleanPath := filepath.Join [projectRoot g; filepath.Clean subPath] in
      if negb (strings.HasPrefix cleanPath (projectRoot g)) then None
      else Some cleanPath
    else Some (projectRoot g) in
  match checked with
  | None => ret (HttpError "Access denied" 403)
  | Some targetDir =>
      do r <- ReadDir os targetDir ;
      match r with
      | inr err => ret (HttpError err 500)
      | inl entries => ret (HttpJSON (omap listedName entries))
      end
  end.

End Files.

(** A model of the provider's catalogue. *)
Record ModelInfo := { ModelName : string; SupportedActions : list string }.

(** "Check if model supports generateContent" *)
Definition supportsGenerate (m : ModelInfo) : bool :=
  existsb (String.eqb "generateContent") (SupportedActions m).

(** The test of both model listings on an id. *)
Definition isBannedListing (id : string) : bool :=
  strings.Contains id "image-generation"
  || strings.Contains id "-exp"
  || strings.Contains id "experimental"
  || strings.Contains id "2.0-flash-exp"
  || strings.Contains id "2.0-pro-exp".

(** The loop over [client.Models.All(ctx)] of [handleModels] and
    [handleOpenAIModels]: the ids of the models that support
    [generateContent] and are not banned, up to the first error of the
    iterator. *)
Fixpoint listedModels (all : list (Result ModelInfo)) : list string :=
  match all with
  | [] => []
  | inr _ :: _ => []
  | inl m :: rest =>
      if supportsGenerate m then
        let id := strings2.TrimPrefix (ModelName m) "models/" in
        if isBannedListing id then listedModels rest
        else id :: listedModels rest
      else listedModels rest
  end.

(** [handleOpenAIModels]: the ids of the entries of its list (the other
    fields of an entry are constants and a reading of the clock). *)
Definition handleOpenAIModels (g : Globals) (all : list (Result ModelInfo))
  : list string :=
  match listedModels all with
  | [] => [if String.eqb (cacheModel g) "" then DefaultModel else cacheModel g]
  | modelList => modelList
  end.

(** [chat] was created for [model] with [config] and [history]. *)
Definition chatFor (model : string) (config : genai.GenerateContentConfig)
    (history : list genai.Content) (chat : genai.Chat) : Prop :=
  genai.chat_model chat = model
  /\ genai.chat_config chat = config
  /\ genai.chat_history chat = history.

(** The tool a function-response part answers ([""] for any other part). *)
Definition responseName (p : genai.Part) : string :=
  match genai.Part_FunctionResponse p with
  | Some r => genai.ResponseName r
  | None => ""
  end.

(** The parts of every message of a chat after the first one: in the
    native and the buffered OpenAI handler, the tool results. *)
Definition toolResultsSent (chat : genai.Chat) : list genai.Part :=
  concat (drop 1 (genai.chat_sent chat)).

(** An element of a cleaned rooted path: not empty, not [.], not [..],
    and free of separators. *)
Definition realElement (e : string) : Prop :=
  e <> "" /\ e <> "." /\ e <> ".." /\ filepath.hasSeparator e = false.

(** The condition of the lookup loops on one key of the price table. *)
Definition keyMatches (modelName modelKey : string) : bool :=
  String.eqb modelName modelKey || strings.HasPrefix modelName modelKey.

(** ** UTF-8, as a [range] over a string decodes it *)

Module utf8.

(** [string(utf8.RuneError)], the encoding of U+FFFD. *)
Definition replacement : string :=
  String (ascii_of_nat 239) (String (ascii_of_nat 191)
    (String (ascii_of_nat 189) EmptyString)).

Definition between (lo hi : nat) (b : ascii) : bool :=
  let n := nat_of_ascii b in ((lo <=? n) && (n <=? hi))%nat.

(** The table [first] of the decoder: for a leading byte, the length of
    its sequence and the range accepted for the second byte; length 0
    for a byte that cannot lead. *)
Definition lead (b : ascii) : nat * (nat * nat) :=
  let n := nat_of_ascii b in
  if (n <? 128)%nat then (1, (0, 0))%nat
  else if (n <? 194)%nat then (0, (0, 0))%nat
  else if (n <? 224)%nat then (2, (128, 191))%nat
  else if (n =? 224)%nat then (3, (160, 191))%nat
  else if (n =? 237)%nat then (3, (128, 159))%nat
  else if (n <? 240)%nat then (3, (128, 191))%nat
  else if (n =? 240)%nat then (4, (144, 191))%nat
  else if (n <? 244)%nat then (4, (128, 191))%nat
  else if (n =? 244)%nat then (4, (128, 143))%nat
  else (0, (0, 0))%nat.

(** [string(char)] for every [char] of [for _, char := range s]: a
    well-formed sequence as it stands, and the replacement character for
    every byte that does not begin one. *)
Fixpoint runes (s : string) : list string :=
  match s with
  | EmptyString => []
  | String b0 rest =>
      let invalid := replacement :: runes rest in
      match lead b0 with
      | (1, _)%nat => String b0 EmptyString :: runes rest
      | (2, (lo, hi))%nat =>
          match rest with
          | String b1 r1 =>
              if between lo hi b1
              then String b0 (String b1 EmptyString) :: runes r1
              else invalid
          | _ => invalid
          end
      | (3, (lo, hi))%nat =>
          match rest with
          | String b1 (String b2 r2) =>
              if between lo hi b1 && between 128 191 b2
              then String b0 (String b1 (String b2 EmptyString)) :: runes r2
              else invalid
          | _ => invalid
          end
      | (4, (lo, hi))%nat =>
          match rest with
          | String b1 (String b2 (String b3 r3)) =>
              if between lo hi b1 && between 128 191 b2
                 && between 128 191 b3
              then String b0 (String b1 (String b2 (String b3 EmptyString)))
                   :: runes r3
              else invalid
          | _ => invalid
          end
      | _ => invalid
      end
  end.

End utf8.

(** ** [handleOpenAIStream] *)

(** An event of the OpenAI stream, by what it carries: the error frame,
    the chunk that announces a tool call, the chunk with a piece of
    content, and the closing [data: [DONE]].  The ids and time stamps of
    the chunks are readings of the clock. *)
Inductive Frame :=
  | FrameError (error : string)
  | FrameToolCall (name : string) (args : gmap string genai.Any)
  | FrameContent (content : string)
  | FrameDone.

(** What the streaming handler leaves behind: the frames written, the
    text it hands to the log as the full response, the status of an
    [http.Error] if it called one, whether it is still in its loop, the
    globals, the file system and the chat. *)
Record Streamed (World : Type) := {
  st_frames : list Frame;
  st_fullResponse : string;
  st_status : option (string * Z);
  st_pending : bool;
  st_state : ServerState;
  st_env : World * list Event;
  st_chat : option genai.Chat
}.
Arguments st_frames {World}.
Arguments st_fullResponse {World}.
Arguments st_status {World}.
Arguments st_pending {World}.
Arguments st_state {World}.
Arguments st_env {World}.
Arguments st_chat {World}.

Section Stream.

Context {World : Type}.
Variable os : OS World.
Variable up : genai.Upstream.
Variable g : Globals.

(** The variables of the loop of [handleOpenAIStream], the frames
    written so far, and whether the handler has returned from inside the
    loop. *)
Record StreamLoop := {
  sl_chat : genai.Chat;
  sl_currentMsg : string;
  sl_fullResponse : string;
  sl_frames : list Frame;
  sl_env : World * list Event;
  sl_returned : bool
}.

Definition streamLoopBody (s : StreamLoop) : Step StreamLoop :=
  let '(r, chat) :=
    genai.SendMessage up (sl_chat s) [genai.TextPart (sl_currentMsg s)] in
  match r with
  | inr err =>
      Break {| sl_chat := chat; sl_currentMsg := sl_currentMsg s;
               sl_fullResponse := sl_fullResponse s;
               sl_frames := (sl_frames s ++ [FrameError err])%list;
               sl_env := sl_env s; sl_returned := true |}
  | inl res =>
      match genai.FunctionCalls res with
      | (_ :: _) as funcCalls =>
          let frames :=
            (sl_frames s
             ++ map (fun fc => FrameToolCall (genai.Name fc) (genai.Args fc))
                  funcCalls)%list in
          let '(funcResponses, env) := executeCalls os g funcCalls (sl_env s) in
          let '(r', chat') := genai.SendMessage up chat funcResponses in
          match r' with
          | inr err =>
              Break {| sl_chat := chat'; sl_currentMsg := "";
                       sl_fullResponse := sl_fullResponse s;
                       sl_frames := (frames ++ [FrameError err])%list;
                       sl_env := env; sl_returned := true |}
          | inl _ =>
              Continue {| sl_chat := chat'; sl_currentMsg := "";
                          sl_fullResponse := sl_fullResponse s;
                          sl_frames := frames; sl_env := env;
                          sl_returned := false |}
          end
      | [] =>
          let responseText := genai.ResponseText res in
          Break {| sl_chat := chat; sl_currentMsg := sl_currentMsg s;
                   sl_fullResponse := responseText;
                   sl_frames :=
                     (sl_frames s
                      ++ map FrameContent (utf8.runes responseText))%list;
                   sl_env := sl_env s; sl_returned := false |}
      end
  end.

(** [handleOpenAIStream] on the user message and the requested model,
    observed after at most [fuel] passes of its loop; [canFlush] tells
    whether the response writer is an [http.Flusher]. *)
Definition handleOpenAIStream (canFlush : bool) (fuel : nat)
    (userMsg reqModel : string) (st : ServerState)
    (env : World * list Event) : Streamed World :=
  let stop frames status chat :=
    {| st_frames := frames; st_fullResponse := ""; st_status := status;
       st_pending := false; st_state := st; st_env := env;
       st_chat := chat |} in
  match mapOpenAIModel g reqModel with
  | RejectExperimental =>
      stop [FrameError "Experimental models are not allowed"] None None
  | UseModel model =>
      if negb canFlush then stop [] (Some ("Streaming not supported", 500)) None
      else
        let history := default [] (sessions st !! "openai-stream") in
        match genai.Chats_Create up model openAIConfig history with
        | inr err => stop [FrameError err] None None
        | inl chat =>
            match iterate streamLoopBody fuel
                    {| sl_chat := chat; sl_currentMsg := userMsg;
                       sl_fullResponse := ""; sl_frames := [];
                       sl_env := env; sl_returned := false |} with
            | Continue s =>
                {| st_frames := sl_frames s;
                   st_fullResponse := sl_fullResponse s; st_status := None;
                   st_pending := true; st_state := st; st_env := sl_env s;
                   st_chat := Some (sl_chat s) |}
            | Break s =>
                if sl_returned s then
                  {| st_frames := sl_frames s;
                     st_fullResponse := sl_fullResponse s;
                     st_status := None; st_pending := false; st_state := st;
                     st_env := sl_env s; st_chat := Some (sl_chat s) |}
                else
                  {| st_frames := (sl_frames s ++ [FrameDone])%list;
                     st_fullResponse := sl_fullResponse s;
                     st_status := None; st_pending := false;
                     st_state :=
                       {| sessions :=
                            <["openai-stream" :=
                                genai.up_History up (sl_chat s)]>
                              (sessions st);
                          totalCost := totalCost st |};
                     st_env := sl_env s; st_chat := Some (sl_chat s) |}
            end
        end
  end.

End Stream.

(** A frame that is neither an error frame nor the closing one. *)
Definition isPayloadFrame (f : Frame) : Prop :=
  match f with
  | FrameToolCall _ _ | FrameContent _ => True
  | FrameError _ | FrameDone => False
  end.

Definition isToolCallFrame (f : Frame) : Prop :=
  match f with
  | FrameToolCall _ _ => True
  | _ => False
  end.

(** A message made of function-response parts only. *)
Definition isToolResults (parts : list genai.Part) : Prop :=
  Forall (fun p => genai.Part_FunctionResponse p <> None) parts.

(** The messages of a completed streaming turn with the given rounds of
    tool results: the user's message, and after every message of tool
    results a text message with no text. *)
Definition streamSent (userMsg : string) (rounds : list (list genai.Part))
  : list (list genai.Part) :=
  [genai.TextPart userMsg]
  :: flat_map (fun results => [results; [genai.TextPart ""]]) rounds.

(** ** [handleModels] *)

(** [costStr], by its three forms: ["Price: Variable"],
    ["Price: Free (Beta)"] and [Sprintf("$%.2f/1M tokens", rates.In)],
    kept with the argument of its format. *)
Inductive CostLabel :=
  | PriceVariable
  | PriceFree
  | PricePer1M (rateIn : float).

Record ModelData := {
  md_ID : string;
  md_Name : string;
  md_Cost : CostLabel
}.

(** "Try exact match or prefix match for pricing": the loop over
    [modelCosts] has the condition and the [break] of the loop of
    [calculateCost]. *)
Definition costLabel (order : list (string * Rates)) (id : string)
  : CostLabel :=
  match findRates order id with
  | None => PriceVariable
  | Some rates =>
      if PrimFloat.eqb (RateIn rates) 0 && PrimFloat.eqb (RateOut rates) 0
      then PriceFree
      else PricePer1M (RateIn rates)
  end.

(** The loop of [handleModels] from the [i]-th model of the catalogue on;
    [orders i] is the order in which the price table is visited for that
    model. *)
Fixpoint modelsLoop (orders : nat -> list (string * Rates)) (i : nat)
    (all : list (Result ModelInfo)) : list ModelData :=
  match all with
  | [] => []
  | inr _ :: _ => []
  | inl m :: rest =>
      if supportsGenerate m then
        let id := strings2.TrimPrefix (ModelName m) "models/" in
        if isBannedListing id then modelsLoop orders (S i) rest
        else {| md_ID := id; md_Name := id;
                md_Cost := costLabel (orders i) id |}
             :: modelsLoop orders (S i) rest
      else modelsLoop orders (S i) rest
  end.

(** [handleModels]: the value under ["models"] of its answer; the empty
    list is the [nil] slice, which is encoded as [null]. *)
Definition handleModels (orders : nat -> list (string * Rates))
    (all : list (Result ModelInfo)) : list ModelData :=
  modelsLoop orders 0 all.

(** ** [BuildAndGetCache] *)

Definition HistoryPath : string := ".history".
Definition MaxFileBytes : Z := 256 * 1024.
Definition MaxTotalChars : Z := 4000000.

Definition LF : string := String "010"%char EmptyString.

Module filepath2.

(** The loop of [filepath.Ext] over the bytes of the path from the last
    one back: [acc] is the text already passed. *)
Fixpoint extFrom (backwards : list ascii) (acc : string) : string :=
  match backwards with
  | [] => ""
  | c :: before =>
      if Ascii.eqb c "/" then ""
      else if Ascii.eqb c "." then String c acc
      else extFrom before (String c acc)
  end.

(** [filepath.Ext(path)]: the text from the last dot of the last element
    on, [""] when that element has no dot. *)
Definition Ext (path : string) : string :=
  extFrom (rev (list_ascii_of_string path)) "".

End filepath2.

Module fs.

(** What [filepath.WalkDir] meets below the root: a file, with the result
    of [d.Info()] on its entry, or a directory, with what [os.ReadDir]
    returns for it: the entries it could read, in its order, and its
    error, if any. *)
#[local] Set Warnings "-register-all".

Inductive Node :=
  | File (name : string) (info : Result FileInfo)
  | Dir (name : string) (entries : list Node) (err : option string).

Definition Name (d : Node) : string :=
  match d with
  | File name _ => name
  | Dir name _ _ => name
  end.

Definition IsDir (d : Node) : bool :=
  match d with
  | File _ _ => false
  | Dir _ _ _ => true
  end.

(** Induction on a node, with the entries of a directory. *)
Fixpoint Node_nested_ind (P : Node -> Prop)
    (HFile : forall name info, P (File name info))
    (HDir : forall name entries err,
        Forall P entries -> P (Dir name entries err))
    (d : Node) : P d :=
  match d with
  | File name info => HFile name info
  | Dir name entries err =>
      HDir name entries err
        ((fix all (l : list Node) : Forall P l :=
            match l with
            | [] => @List.Forall_nil Node P
            | d1 :: rest =>
                @List.Forall_cons Node P d1 rest
                  (Node_nested_ind P HFile HDir d1)
                  (all rest)
            end) entries)
  end.

End fs.

Module walk.

(** The non-[nil] results of a [fs.WalkDirFunc]. *)
Inductive Signal :=
  | SkipDir
  | SkipAll
  | Error (err : string).

(** The maps of the function literal that [BuildAndGetCache] walks with. *)
Definition skipDirs : gmap string bool :=
  list_to_map
    [ (".git", true); ("node_modules", true); ("venv", true);
      (".venv", true); ("dist", true); ("build", true); (".next", true);
      (".DS_Store", true); ("target", true); ("out", true);
      ("images", true); ("img", true); ("media", true); ("photos", true);
      ("videos", true) ].

Definition allowed : gmap string bool :=
  list_to_map
    [ (".md", true); (".txt", true); (".go", true); (".js", true);
      (".ts", true); (".json", true); (".lua", true); (".css", true);
      (".html", true) ].

End walk.

(** "Simple binary detection: check first 1KB for null bytes" *)
Definition isBinary (data : string) : bool :=
  existsb (Ascii.eqb "000"%char) (take 1024 (list_ascii_of_string data)).

(** [contentBuilder], as the sequence of what was written to it: the
    history log under its title, a file under its header, the padding. *)
Inductive Written :=
  | HistoryLog (hist : string)
  | FileSection (p data : string)
  | Padding (count : nat).

Definition paddingLine : string :=
  LF ++ "// CACHE_PADDING_TOKEN_REDUNDANCY_FOR_COST_SAVINGS_PROTOCOL" ++ LF.

Definition written (w : Written) : string :=
  match w with
  | HistoryLog hist => LF ++ "=== PROJECT HISTORY LOG ===" ++ LF ++ hist
  | FileSection p data =>
      LF ++ LF ++ "--- FILE: " ++ p ++ " ---" ++ LF ++ data
  | Padding count => strings2.Repeat paddingLine count
  end.

(** [contentBuilder.String()] and [contentBuilder.Len()] *)
Definition Builder_String (b : list Written) : string :=
  foldr (fun w rest => written w ++ rest) "" b.

Definition Builder_Len (b : list Written) : Z :=
  Z.of_nat (String.length (Builder_String b)).

Record Build := {
  contentBuilder : list Written;
  fileCount : Z
}.

Section BuildCache.

(** [strings.ToLower] and [os.ReadFile], as the run meets them. *)
Variable ToLower : string -> string.
Variable ReadFile : string -> Result string.

Definition isBackup (name : string) : bool :=
  let nameLower := ToLower name in
  strings.Contains nameLower "backup" || strings.Contains nameLower "bkup".

(** The function literal passed to [filepath.WalkDir]. *)
Definition walkFn (p : string) (d : fs.Node) (err : option string)
    (s : Build) : option walk.Signal * Build :=
  match err with
  | Some e => (Some (walk.Error e), s)
  | None =>
      match d with
      | fs.Dir name _ _ =>
          if default false (walk.skipDirs !! name) || isBackup name
          then (Some walk.SkipDir, s)
          else (None, s)
      | fs.File name info =>
          if isBackup name then (None, s)
          else if default false (walk.allowed !! filepath2.Ext p) then
            if MaxTotalChars <? Builder_Len (contentBuilder s)
            then (Some walk.SkipAll, s)
            else
              let tooLarge :=
                match info with
                | inl info => MaxFileBytes <? Size info
                | inr _ => false
                end in
              if tooLarge then (None, s)
              else
                match ReadFile p with
                | inl data =>
                    if isBinary data then (None, s)
                    else (None,
                          {| contentBuilder :=
                               (contentBuilder s ++ [FileSection p data])%list;
                             fileCount := fileCount s + 1 |})
                | inr _ => (None, s)
                end
          else (None, s)
      end
  end.

(** [walkDir] of [path/filepath]: the function is called on the node;
    a directory that it does not skip is read, a read error is reported
    to the function in a second call, and the entries are walked until
    one of them ends the walk. *)
Fixpoint walkDir (path : string) (d : fs.Node) (s : Build) {struct d}
  : option walk.Signal * Build :=
  let '(err, s1) := walkFn path d None s in
  match d with
  | fs.File _ _ => (err, s1)
  | fs.Dir _ dirs readErr =>
      match err with
      | Some walk.SkipDir => (None, s1)
      | Some e => (Some e, s1)
      | None =>
          let '(err2, s2) :=
            match readErr with
            | Some e => walkFn path d (Some e) s1
            | None => (None, s1)
            end in
          match err2 with
          | Some walk.SkipDir => (None, s2)
          | Some e => (Some e, s2)
          | None =>
              (fix entries (dirs : list fs.Node) (s : Build)
                 : option walk.Signal * Build :=
                 match dirs with
                 | [] => (None, s)
                 | d1 :: rest =>
                     let path1 := filepath.Join [path; fs.Name d1] in
                     match walkDir path1 d1 s with
                     | (Some walk.SkipDir, s') => (None, s')
                     | (Some e, s') => (Some e, s')
                     | (None, s') => entries rest s'
                     end
                 end) dirs s2
          end
      end
  end.

(** [filepath.WalkDir(root, fn)] with the function literal; [rootNode] is
    the result of [os.Lstat(root)], whose error goes to the function,
    which returns it. *)
Definition WalkDir (root : string) (rootNode : Result fs.Node) (s : Build)
  : option string * Build :=
  let '(err, s') :=
    match rootNode with
    | inr e => (Some (walk.Error e), s)
    | inl d => walkDir root d s
    end in
  match err with
  | Some (walk.Error e) => (Some e, s')
  | _ => (None, s')
  end.

(** The builder when the walk is over: the history log, if it could be
    read, and the files of the walk. *)
Definition compiled (g : Globals) (rootNode : Result fs.Node) : Build :=
  let historyPath := filepath.Join [projectRoot g; HistoryPath] in
  let contentBuilder :=
    match ReadFile historyPath with
    | inl hist => [HistoryLog hist]
    | inr _ => []
    end in
  (WalkDir (projectRoot g) rootNode
     {| contentBuilder := contentBuilder; fileCount := 0 |}).2.

(** The builder at the upload: padded when it is short. *)
Definition padded (contentBuilder : list Written) : list Written :=
  if Builder_Len contentBuilder <? 32768
  then (contentBuilder
        ++ [Padding (Z.to_nat ((33000 - Builder_Len contentBuilder) ÷ 60))])%list
  else contentBuilder.

(** [BuildAndGetCache]: the name it returns and the globals it leaves;
    [Caches_Create] is the provider on the model path and the text. *)
Definition BuildAndGetCache (Caches_Create : string -> string -> Result string)
    (g : Globals) (rootNode : Result fs.Node) (model : string)
  : string * Globals :=
  let contentBuilder := padded (contentBuilder (compiled g rootNode)) in
  match Caches_Create ("models/" ++ model) (Builder_String contentBuilder) with
  | inr _ => ("", g)
  | inl name =>
      (name, {| cacheName := cacheName g; cacheModel := model;
                projectRoot := projectRoot g |})
  end.

(** "Cache setup based on mode" of [main], from the flags [-cache-id],
    [-cache] and [-model]. *)
Definition cacheSetup (Caches_Create : string -> string -> Result string)
    (cacheIDFlag cachePath modelName : string) (g : Globals)
    (rootNode : Result fs.Node) : Globals :=
  if negb (String.eqb cacheIDFlag "") then
    {| cacheName := cacheIDFlag; cacheModel := modelName;
       projectRoot := projectRoot g |}
  else if negb (String.eqb cachePath "") then
    let '(name, g) := BuildAndGetCache Caches_Create g rootNode modelName in
    {| cacheName := name; cacheModel := cacheModel g;
       projectRoot := projectRoot g |}
  else
    {| cacheName := cacheName g; cacheModel := modelName;
       projectRoot := projectRoot g |}.

End BuildCache.

(** The loop of [walkDir] over the entries of the directory at [path]. *)
Fixpoint walkEntries (ToLower : string -> string)
    (ReadFile : string -> Result string) (path : string)
    (dirs : list fs.Node) (s : Build) : option walk.Signal * Build :=
  match dirs with
  | [] => (None, s)
  | d1 :: rest =>
      let path1 := filepath.Join [path; fs.Name d1] in
      match walkDir ToLower ReadFile path1 d1 s with
      | (Some walk.SkipDir, s') => (None, s')
      | (Some e, s') => (Some e, s')
      | (None, s') => walkEntries ToLower ReadFile path rest s'
      end
  end.

(** The test of the function literal on a directory. *)
Definition skipped (ToLower : string -> string) (name : string) : bool :=
  default false (walk.skipDirs !! name) || isBackup ToLower name.

(** The node [f] at the path [p] lies below the node [d] at [path], or is
    it, and every directory from [d] down to it is read without an error
    and is not skipped. *)
Inductive reaches (ToLower : string -> string)
  : string -> fs.Node -> string -> fs.Node -> Prop :=
  | reaches_here (path : string) (d : fs.Node) :
      reaches ToLower path d path d
  | reaches_entry (path name : string) (dirs : list fs.Node) (d1 : fs.Node)
      (p : string) (f : fs.Node) :
      d1 ∈ dirs ->
      skipped ToLower name = false ->
      reaches ToLower (filepath.Join [path; fs.Name d1]) d1 p f ->
      reaches ToLower path (fs.Dir name dirs None) p f.

(** A file of the walk that passes every test of the function literal,
    with its content. *)
Definition passes (ToLower : string -> string)
    (ReadFile : string -> Result string) (root : string) (d : fs.Node)
    (p data : string) : Prop :=
  exists name info,
    reaches ToLower root d p (fs.File name info)
    /\ isBackup ToLower name = false
    /\ walk.allowed !! filepath2.Ext p = Some true
    /\ (forall i, info = inl i -> Size i <= MaxFileBytes)
    /\ ReadFile p = inl data
    /\ isBinary data = false.

(** Every part of [added] was written to a builder that held at most
    [MaxTotalChars] bytes, [base] being the builder before the first. *)
Fixpoint capped (base added : list Written) : Prop :=
  match added with
  | [] => True
  | w :: rest =>
      Builder_Len base <= MaxTotalChars /\ capped (base ++ [w])%list rest
  end.

(** ** [handleStream] and [handleOfficialAPI] *)

Module json.

#[local] Set Warnings "-register-all".

(** A value decoded into [any]; a number is never looked into. *)
Inductive Value :=
  | Null
  | Bool (b : bool)
  | Number
  | Str (s : string)
  | Array (elems : list Value)
  | Object (fields : gmap string Value).

End json.

(** The text the loop "Extract user message from contents" takes from
    one element, if it takes one: the element has the role ["user"], its
    parts are a non-empty array, and the first part is an object with a
    string under ["text"]. *)
Definition userText (content : gmap string json.Value) : option string :=
  match content !! "role" with
  | Some (json.Str role) =>
      if String.eqb role "user" then
        match content !! "parts" with
        | Some (json.Array (json.Object part :: _)) =>
            match part !! "text" with
            | Some (json.Str text) => Some text
            | _ => None
            end
        | _ => None
        end
      else None
  | _ => None
  end.

Definition streamUserMsg (contents : list (gmap string json.Value))
  : string :=
  fold_left (fun userMsg content =>
               match userText content with
               | Some text => text
               | None => userMsg
               end)
            contents "".

(** "Extract model from URL" *)
Definition streamModel (path : string) : string :=
  if strings.Contains path "/models/" then
    let parts := strings2.Split path "/models/" in
    if (1 <? length parts)%nat then
      let modelPart := hd "" (strings2.Split (nth 1 parts "") ":") in
      if negb (String.eqb modelPart "") then modelPart else DefaultModel
    else DefaultModel
  else DefaultModel.

(** The configuration of [handleStream]: the safety settings, and the
    cache of the request or else of the server, whenever there is one. *)
Definition streamConfig (g : Globals) (cachedContent : string)
  : genai.GenerateContentConfig :=
  let activeCID :=
    if String.eqb cachedContent "" then cacheName g else cachedContent in
  {| genai.Temperature := None;
     genai.SafetySettings := safetySettings;
     genai.Tools := [];
     genai.CachedContent := activeCID |}.

(** An event of the Gemini stream: the error, or a chunk with its text. *)
Inductive GeminiFrame :=
  | GeminiError (error : string)
  | GeminiChunk (text : string).

(** The loop over [chat.SendMessageStream]: the frames written, and
    [fullResponse] when the loop is left. *)
Fixpoint streamChunks (items : list (Result genai.GenerateContentResponse))
    (fullResponse : string) : list GeminiFrame * string :=
  match items with
  | [] => ([], fullResponse)
  | inr err :: _ => ([GeminiError err], fullResponse)
  | inl resp :: rest =>
      let text := genai.ResponseText resp in
      let '(frames, fullResponse) := streamChunks rest (fullResponse ++ text) in
      (GeminiChunk text :: frames, fullResponse)
  end.

Record GeminiStreamed := {
  gs_status : option (string * Z);
  gs_frames : list GeminiFrame;
  gs_fullResponse : string;
  gs_chat : option genai.Chat
}.

Section GeminiStream.

Variable up : genai.Upstream.
(** What the iterator of [chat.SendMessageStream] yields. *)
Variable SendMessageStream :
  genai.Chat -> list genai.Part -> list (Result genai.GenerateContentResponse).
Variable g : Globals.

(** [handleStream] on the path of the URL and the decoded body. *)
Definition handleStream (canFlush : bool) (path : string)
    (contents : list (gmap string json.Value)) (cachedContent : string)
  : GeminiStreamed :=
  let userMsg := streamUserMsg contents in
  let model := streamModel path in
  if negb canFlush then
    {| gs_status := Some ("Streaming not supported", 500); gs_frames := [];
       gs_fullResponse := ""; gs_chat := None |}
  else
    match genai.Chats_Create up model (streamConfig g cachedContent) [] with
    | inr err =>
        {| gs_status := None; gs_frames := [GeminiError err];
           gs_fullResponse := ""; gs_chat := None |}
    | inl chat =>
        let '(frames, fullResponse) :=
          streamChunks (SendMessageStream chat [genai.TextPart userMsg]) "" in
        {| gs_status := None; gs_frames := frames;
           gs_fullResponse := fullResponse; gs_chat := Some chat |}
    end.

(** [handleOfficialAPI]: which handler takes the request. *)
Definition handleOfficialAPI (path : string) : bool :=
  strings.Contains path ":streamGenerateContent".

End GeminiStream.

(** ** Predicates of the statements *)

(** [chat] was created for [model] and its first message is [first]. *)
Definition sameChat (model : string) (first : list genai.Part)
    (chat : genai.Chat) : Prop :=
  genai.chat_model chat = model /\ head (genai.chat_sent chat) = Some first.

(** The provider answers every message, and every answer carries at
    least one function call. *)
Definition alwaysCalls (up : genai.Upstream) : Prop :=
  forall chat parts, exists res,
    genai.up_Generate up chat parts = inl res
    /\ genai.FunctionCalls res <> [].

(** The provider answers the first [K] messages of a chat with function
    calls and the next one without any. *)
Definition callsExactly (K : nat) (up : genai.Upstream) : Prop :=
  forall chat parts,
    (length (genai.chat_sent chat) <= K)%nat ->
    exists res,
      genai.up_Generate up chat parts = inl res
      /\ ((length (genai.chat_sent chat) < K)%nat ->
          genai.FunctionCalls res <> [])
      /\ (length (genai.chat_sent chat) = K ->
          genai.FunctionCalls res = []).

(** Creating a chat never fails. *)
Definition createsChats (up : genai.Upstream) : Prop :=
  forall model config history, genai.up_Create up model config history = None.

(** How many messages the handler has sent upstream: the user's message
    and one message of tool results for every round. *)
Definition sentCount {World Body : Type} (served : Served (World := World) Body)
  : option nat :=
  option_map (fun chat => length (genai.chat_sent chat)) (served_chat served).

(** ** Stubs for running the handlers: file systems and providers *)

Module Stub.

(** A file system in memory: the regular files, by absolute path. *)
Definition memOS : OS (gmap string string) :=
  {| os_ReadDir name w :=
       let pre := name ++ "/" in
       let entries :=
         omap (fun kv : string * string =>
                 let rest :=
                   String.substring (String.length pre)
                     (String.length kv.1 - String.length pre) kv.1 in
                 if strings.HasPrefix kv.1 pre
                    && negb (filepath.hasSeparator rest)
                 then Some {| Name := rest; IsDir := false |} else None)
              (map_to_list w) in
       match entries with
       | [] => inr ("open " ++ name ++ ": no such file or directory")
       | _ => inl entries
       end;
     os_Stat name w :=
       match w !! name with
       | Some content => inl {| Size := Z.of_nat (String.length content) |}
       | None => inr ("stat " ++ name ++ ": no such file or directory")
       end;
     os_ReadFile name w :=
       match w !! name with
       | Some content => inl content
       | None => inr ("open " ++ name ++ ": no such file or directory")
       end;
     os_MkdirAll path w := (None, w);
     os_WriteFile name data w := (None, <[name := data]> w) |}.

(** A read-only file system with one file, [size] bytes long. *)
Definition oneFileOS (path : string) (size : N) : OS unit :=
  {| os_ReadDir name _ := inr ("open " ++ name ++ ": not a directory");
     os_Stat name _ :=
       if String.eqb name path then inl {| Size := Z.of_N size |}
       else inr ("stat " ++ name ++ ": no such file or directory");
     os_ReadFile name _ :=
       if String.eqb name path
       then inl (N.iter size (String "x"%char) EmptyString)
       else inr ("open " ++ name ++ ": no such file or directory");
     os_MkdirAll path _ := (Some ("mkdir " ++ path ++ ": read-only file system"), tt);
     os_WriteFile name _ _ :=
       (Some ("open " ++ name ++ ": read-only file system"), tt) |}.

Definition globals : Globals :=
  {| cacheName := ""; cacheModel := "gemini-2.0-flash";
     projectRoot := "/srv/project" |}.

(** The server started with an explicit cache for its default model. *)
Definition cachedGlobals : Globals :=
  {| cacheName := "cachedContents/abc123"; cacheModel := "gemini-2.0-flash";
     projectRoot := "/srv/project" |}.

Definition projectFiles : gmap string string :=
  list_to_map [ ("/srv/project/notes.txt", "remember the milk");
                ("/srv/project/docs/guide.md", "# Guide");
                ("/srv/project-old/secret.txt", "hunter2") ].

Definition freshState : ServerState :=
  {| sessions := ∅; totalCost := 0%float |}.

Definition usage (prompt candidates : Z) : genai.UsageMetadata :=
  {| genai.PromptTokenCount := prompt;
     genai.CandidatesTokenCount := candidates;
     genai.TotalTokenCount := prompt + candidates |}.

(** A response with one candidate made of the given parts. *)
Definition answer (parts : list genai.Part) : genai.GenerateContentResponse :=
  {| genai.Candidates :=
       [ {| genai.Candidate_Content :=
              Some {| genai.Parts := parts; genai.Role := "model" |} |} ];
     genai.Response_UsageMetadata := Some (usage 12 7) |}.

Definition callPart (name path : string) : genai.Part :=
  {| genai.Text := ""; genai.Thought := false; genai.InlineData := None;
     genai.Part_FunctionCall :=
       Some {| genai.Name := name;
               genai.Args := {[ "path" := genai.AnyString path ]} |};
     genai.Part_FunctionResponse := None |}.

(** A provider that follows a script: its [n]-th answer on a chat is the
    [n]-th response of the script, and a transport error after the last. *)
Definition scripted (script : list genai.GenerateContentResponse)
  : genai.Upstream :=
  {| genai.up_Create _ _ _ := None;
     genai.up_Generate chat _ :=
       match script !! length (genai.chat_sent chat) with
       | Some r => inl r
       | None => inr "script exhausted"
       end;
     genai.up_History chat := genai.chat_history chat |}.

(** A provider that asks for [list_files] in every response. *)
Definition pingpong : genai.Upstream :=
  {| genai.up_Create _ _ _ := None;
     genai.up_Generate _ _ := inl (answer [callPart "list_files" "."]);
     genai.up_History chat := genai.chat_history chat |}.

(** A provider that asks for two tools, one after the other, and then
    answers in plain text. *)
Definition twoRounds : genai.Upstream :=
  scripted [ answer [callPart "read_file" "notes.txt"];
             answer [callPart "list_files" "docs"];
             answer [genai.TextPart "All done."] ].

(** An OpenAI-style request that says hi to a model of another vendor. *)
Definition openAIHi : OpenAIChatRequest :=
  {| OpenAI_Model := "gpt-4";
     Messages := [ {| Role := "system"; Content := "be brief" |};
                   {| Role := "user"; Content := "hi" |} ];
     Stream := false |}.

(** A native request that says hi. *)
Definition nativeHi : ChatRequest :=
  {| SessionID := "s1"; Model := "gemini-2.0-flash"; Message := "hi";
     CacheID := ""; UseSearch := false; UseAgentic := false |}.

(** A provider whose answer is a candidate with no text in it. *)
Definition silent : genai.Upstream :=
  scripted [answer [genai.TextPart ""]].

(** A request that names its own cache and asks for search grounding. *)
Definition overrideWithSearch : ChatRequest :=
  {| SessionID := "s1"; Model := "gemini-2.0-flash"; Message := "hi";
     CacheID := "cachedContents/mine"; UseSearch := true;
     UseAgentic := false |}.

(** A request that names its own cache and asks for nothing else. *)
Definition overrideOnly : ChatRequest :=
  {| SessionID := "s1"; Model := "gemini-2.0-flash"; Message := "hi";
     CacheID := "cachedContents/mine"; UseSearch := false;
     UseAgentic := false |}.

(** A request with no message, in agentic mode. *)
Definition emptyMessage : ChatRequest :=
  {| SessionID := ""; Model := ""; Message := ""; CacheID := "";
     UseSearch := false; UseAgentic := true |}.

(** Two orders of a [range] over the price table: the entries as the
    source lists them, and the other way round. *)
Definition tableOrder : list (string * Rates) := modelCostEntries.
Definition reverseOrder : list (string * Rates) := reverse modelCostEntries.

(** A response that reports a million tokens in and a million out. *)
Definition millionEach : genai.GenerateContentResponse :=
  {| genai.Candidates := [];
     genai.Response_UsageMetadata := Some (usage 1000000 1000000) |}.


(** A provider that cannot be reached. *)
Definition unreachable : genai.Upstream :=
  {| genai.up_Create _ _ _ := None;
     genai.up_Generate _ _ := inr "connection refused";
     genai.up_History chat := genai.chat_history chat |}.

(** A provider that answers in plain text and reports as history of a
    chat what the chat began with and one turn for every message sent. *)
Definition plain : genai.Upstream :=
  {| genai.up_Create _ _ _ := None;
     genai.up_Generate _ _ := inl (answer [genai.TextPart "Hi there."]);
     genai.up_History chat :=
       (genai.chat_history chat
        ++ map (fun parts => {| genai.Parts := parts; genai.Role := "user" |})
             (genai.chat_sent chat))%list |}.

(** A directory as [os.ReadDir] reports it. *)
Definition someEntries : list DirEntry :=
  [ {| Name := ".env"; IsDir := false |};
    {| Name := ".git"; IsDir := true |};
    {| Name := "README.md"; IsDir := false |};
    {| Name := "node_modules"; IsDir := true |};
    {| Name := "web"; IsDir := true |} ].

(** A read-only file system whose every directory lists [someEntries]. *)
Definition listingOS : OS unit :=
  {| os_ReadDir _ _ := inl someEntries;
     os_Stat name _ := inr ("stat " ++ name ++ ": no such file or directory");
     os_ReadFile name _ :=
       inr ("open " ++ name ++ ": no such file or directory");
     os_MkdirAll path _ :=
       (Some ("mkdir " ++ path ++ ": read-only file system"), tt);
     os_WriteFile name _ _ :=
       (Some ("open " ++ name ++ ": read-only file system"), tt) |}.

(** The catalogue of a provider. *)
Definition catalogue : list (Result ModelInfo) :=
  [ inl {| ModelName := "models/gemini-2.0-flash";
           SupportedActions := ["generateContent"; "countTokens"] |};
    inl {| ModelName := "models/gemini-2.0-flash-exp";
           SupportedActions := ["generateContent"] |};
    inl {| ModelName := "models/embedding-001";
           SupportedActions := ["embedContent"] |};
    inl {| ModelName := "models/gemini-1.5-pro";
           SupportedActions := ["generateContent"] |};
    inr "rpc error";
    inl {| ModelName := "models/gemini-1.5-flash";
           SupportedActions := ["generateContent"] |} ].

(** A provider that asks for a tool once; its second answer is the one
    to the tool results, its third the one to the message after them. *)
Definition oneRound : genai.Upstream :=
  scripted [ answer [callPart "read_file" "notes.txt"];
             answer [genai.TextPart "ignored"];
             answer [genai.TextPart "ok!"] ].

(** [strings.ToLower] on ASCII names. *)
Definition lowerByte (c : ascii) : ascii :=
  let n := nat_of_ascii c in
  if ((65 <=? n) && (n <=? 90))%nat then ascii_of_nat (n + 32) else c.

Fixpoint asciiLower (s : string) : string :=
  match s with
  | EmptyString => EmptyString
  | String c s' => String (lowerByte c) (asciiLower s')
  end.

(** A project: two sources, a backup copy, a picture, a dependency
    directory and a directory that cannot be read. *)
Definition project : fs.Node :=
  fs.Dir "project"
    [ fs.File "README.md" (inl {| Size := 6 |});
      fs.File "main.go" (inl {| Size := 12 |});
      fs.File "main_BACKUP.go" (inl {| Size := 12 |});
      fs.File "logo.png" (inl {| Size := 4 |});
      fs.Dir "node_modules" [ fs.File "index.js" (inl {| Size := 3 |}) ] None;
      fs.Dir "private" [] (Some "permission denied");
      fs.File "zz.txt" (inl {| Size := 2 |}) ]
    None.

Definition projectReadFile (p : string) : Result string :=
  if String.eqb p "/srv/project/README.md" then inl "# Demo"
  else if String.eqb p "/srv/project/main.go" then inl "package main"
  else if String.eqb p "/srv/project/main_BACKUP.go" then inl "package main"
  else if String.eqb p "/srv/project/node_modules/index.js" then inl "1;"
  else if String.eqb p "/srv/project/zz.txt" then inl "zz"
  else inr "no such file".

(** A provider that stores every text under one name. *)
Definition cacheAll (model text : string) : Result string :=
  inl "cachedContents/1".

Definition cacheNone (model text : string) : Result string :=
  inr "model unsupported".

(** The globals when [main] comes to the cache setup. *)
Definition atStart : Globals :=
  {| cacheName := ""; cacheModel := ""; projectRoot := "/srv/project" |}.

(** An iterator that yields two chunks and then fails. *)
Definition cutStream (chat : genai.Chat) (parts : list genai.Part)
  : list (Result genai.GenerateContentResponse) :=
  [ inl (answer [genai.TextPart "Hel"]);
    inl (answer [genai.TextPart "lo"]);
    inr "stream reset";
    inl (answer [genai.TextPart "never sent"]) ].

(** A [contents] of two turns and a user turn that begins with a picture. *)
Definition textTurn (role text : string) : gmap string json.Value :=
  {[ "role" := json.Str role;
     "parts" := json.Array [json.Object {[ "text" := json.Str text ]}] ]}.

Definition pictureTurn : gmap string json.Value :=
  {[ "role" := json.Str "user";
     "parts" := json.Array [json.Object {[ "inlineData" := json.Null ]};
                            json.Object {[ "text" := json.Str "and this?" ]}] ]}.

End Stub.

(** * Properties *)

(** ** Cache eligibility *)

Lemma eqb_empty_false (s : string) : String.eqb s "" = false -> s <> "".
Proof. intros H. now apply String.eqb_neq. Qed.

Lemma eqb_empty_true (s : string) : String.eqb s "" = true -> s = "".
Proof. intros H. now apply String.eqb_eq. Qed.

Lemma neq_empty_eqb (s : string) : s <> "" -> String.eqb s "" = false.
Proof. intros H. now apply String.eqb_neq. Qed.

(** C2: the cache decision of [handleChat] is a total function of the
    request and the globals with exactly two outcomes.  When it attaches,
    the reference is non-empty, is the one in [config.CachedContent],
    neither the search nor the agentic flag is set and the configuration
    declares no tool; when it omits, [config.CachedContent] is empty. *)
Theorem cache_policy_total_and_exclusive (g : Globals) (req : ChatRequest) :
  match decide_cache g req with
  | AttachCache ref =>
      ref <> ""
      /\ ref = activeCID g req
      /\ genai.CachedContent (chatConfig g req) = ref
      /\ UseSearch req = false
      /\ UseAgentic req = false
      /\ genai.Tools (chatConfig g req) = []
  | OmitCache => genai.CachedContent (chatConfig g req) = ""
  end.
Proof.
  unfold decide_cache, chatConfig, CachedContent_of; cbn.
  destruct (String.eqb (activeCID g req) "") eqn:Hcid;
    destruct (UseAgentic req), (UseSearch req); cbn; try reflexivity.
  rewrite Hcid. repeat split. now apply eqb_empty_false.
Qed.

(** The decision, input by input: the cache is attached exactly when no
    tool flag is set and either the request names a cache or the server
    has one, the requested model is not an image model and it starts with
    the cache's model name less a trailing ["-001"]. *)
Lemma cache_policy_table (g : Globals) (req : ChatRequest) :
  decide_cache g req
  = if UseAgentic req || UseSearch req then OmitCache
    else if negb (String.eqb (CacheID req) "") then AttachCache (CacheID req)
    else if negb (String.eqb (cacheName g) "")
            && negb (strings.Contains (Model req) "image")
            && strings.HasPrefix (Model req)
                 (strings.TrimSuffix (cacheModel g) "-001")
    then AttachCache (cacheName g)
    else OmitCache.
Proof.
  unfold decide_cache, CachedContent_of, activeCID.
  destruct (String.eqb (CacheID req) "") eqn:Ho; cbn [negb].
  - destruct (String.eqb (cacheName g) "") eqn:Hc; cbn [negb andb].
    + now destruct (UseAgentic req), (UseSearch req).
    + destruct (strings.Contains (Model req) "image"),
        (strings.HasPrefix (Model req)
           (strings.TrimSuffix (cacheModel g) "-001"));
        cbn [negb andb]; rewrite ?Hc;
        now destruct (UseAgentic req), (UseSearch req); cbn; rewrite ?Hc.
  - rewrite Ho.
    now destruct (UseAgentic req), (UseSearch req); cbn; rewrite ?Ho.
Qed.

(** The override decides [activeCID] before the server's cache and the
    model family are looked at. *)
Lemma activeCID_override (g : Globals) (req : ChatRequest) :
  CacheID req <> "" -> activeCID g req = CacheID req.
Proof.
  intros H. unfold activeCID. now rewrite (neq_empty_eqb _ H).
Qed.

(** C3, as the code has it: an explicit override becomes [activeCID]
    whatever the server's cache and the requested model are, and it is
    attached to the upstream call exactly when neither the agentic nor the
    search flag is set. *)
Theorem override_precedes_all_but_tools (g : Globals) (req : ChatRequest) :
  CacheID req <> "" ->
  activeCID g req = CacheID req
  /\ decide_cache g req
     = (if UseAgentic req || UseSearch req then OmitCache
        else AttachCache (CacheID req))
  /\ genai.CachedContent (chatConfig g req)
     = (if UseAgentic req || UseSearch req then "" else CacheID req).
Proof.
  intros H. pose proof (activeCID_override g req H) as Ha.
  unfold decide_cache, chatConfig, CachedContent_of; cbn.
  rewrite Ha, (neq_empty_eqb _ H).
  destruct (UseAgentic req), (UseSearch req); cbn;
    rewrite ?(neq_empty_eqb _ H); auto.
Qed.

Lemma override_precedes_all_but_tools_witness :
  decide_cache Stub.cachedGlobals Stub.overrideOnly
  = AttachCache "cachedContents/mine".
Proof.
  pose proof (override_precedes_all_but_tools Stub.cachedGlobals
                Stub.overrideOnly) as H.
  destruct H as (_ & H & _).
  - discriminate.
  - exact H.
Defined.

(** C3 as stated fails: with the search flag set, an override that is
    present is not attached. *)
Lemma override_not_attached_with_search :
  CacheID Stub.overrideWithSearch <> ""
  /\ decide_cache Stub.globals Stub.overrideWithSearch = OmitCache
  /\ genai.CachedContent (chatConfig Stub.globals Stub.overrideWithSearch)
     = "".
Proof. repeat split. discriminate. Qed.

(** ** Loops: what every pass keeps *)

Lemma iterate_invariant {S : Type} (body : S -> Step S) (P : S -> Prop) :
  (forall s, P s -> match body s with Continue s' | Break s' => P s' end) ->
  forall fuel s,
    P s -> match iterate body fuel s with Continue s' | Break s' => P s' end.
Proof.
  intros Hbody fuel. induction fuel as [|fuel IH]; intros s Hs; cbn.
  - exact Hs.
  - specialize (Hbody s Hs). destruct (body s) as [s'|s'].
    + now apply IH.
    + exact Hbody.
Qed.

(** A chat keeps its model and its first message when more is sent. *)
Lemma SendMessage_sameChat (up : genai.Upstream) (chat : genai.Chat)
    (parts : list genai.Part) (model : string) (first : list genai.Part) :
  sameChat model first chat ->
  sameChat model first (genai.SendMessage up chat parts).2.
Proof.
  intros [Hm Hf]. split; cbn; [exact Hm|].
  destruct (genai.chat_sent chat); [discriminate | exact Hf].
Qed.

Section LoopFacts.

Context {World : Type}.
Variable os : OS World.
Variable up : genai.Upstream.
Variable g : Globals.
Variable rangeModelCosts : nat -> list (string * Rates).

Lemma chatLoopBody_sameChat (reqModel model : string)
    (first : list genai.Part) (s : ChatLoop) :
  sameChat model first (cl_chat s) ->
  match chatLoopBody os up g rangeModelCosts reqModel s with
  | Continue s' | Break s' => sameChat model first (cl_chat s')
  end.
Proof.
  intros Hs. unfold chatLoopBody.
  destruct (genai.Candidates (cl_res s)) as [|c cs]; [exact Hs|].
  destruct (genai.Candidate_Content c); [|exact Hs].
  destruct (genai.FunctionCalls (cl_res s)) as [|fc fcs]; [exact Hs|].
  destruct (executeCalls os g (fc :: fcs) (cl_env s)) as [resp env].
  pose proof (SendMessage_sameChat up (cl_chat s) resp model first Hs) as Hk.
  destruct (genai.SendMessage up (cl_chat s) resp) as [r chat]; cbn in Hk.
  destruct r as [res'|err]; [|exact Hk].
  destruct (genai.Response_UsageMetadata res'); exact Hk.
Qed.

Lemma openAILoopBody_sameChat (model : string) (first : list genai.Part)
    (s : OpenAILoop) :
  sameChat model first (ol_chat s) ->
  match openAILoopBody os up g s with
  | Continue s' | Break s' => sameChat model first (ol_chat s')
  end.
Proof.
  intros Hs. unfold openAILoopBody.
  destruct (ol_res s) as [res|]; [|exact Hs].
  destruct (genai.FunctionCalls res) as [|fc fcs]; [exact Hs|].
  destruct (executeCalls os g (fc :: fcs) (ol_env s)) as [resp env].
  pose proof (SendMessage_sameChat up (ol_chat s) resp model first Hs) as Hk.
  destruct (genai.SendMessage up (ol_chat s) resp) as [r chat]; cbn in Hk.
  destruct r as [res'|err]; exact Hk.
Qed.

End LoopFacts.

(** ** The first message of the native handler *)

Lemma firstMessage_nonempty (req : ChatRequest) : firstMessage req <> "".
Proof.
  unfold firstMessage. destruct (String.eqb (Message req) "") eqn:E.
  - discriminate.
  - now apply eqb_empty_false.
Qed.

(** C9: whenever [handleChat] got to create its chat, the first message
    on it is one text part holding the request's message, or ["Hello"]
    when the request's message is empty; that text is never empty.  When
    no chat was created, nothing was sent and the reply is the 500 of the
    failed creation. *)
Theorem empty_message_sent_as_Hello {World : Type} (os : OS World)
    (up : genai.Upstream) (g : Globals)
    (rangeModelCosts : nat -> list (string * Rates)) (fuel : nat)
    (req : ChatRequest) (st : ServerState) (env : World * list Event) :
  match served_chat (handleChat os up g rangeModelCosts fuel req st env) with
  | Some chat =>
      exists text,
        head (genai.chat_sent chat) = Some [genai.TextPart text]
        /\ text <> ""
        /\ text = (if String.eqb (Message req) "" then "Hello"
                   else Message req)
  | None =>
      exists err,
        reply (handleChat os up g rangeModelCosts fuel req st env)
        = HttpError ("Failed to create chat: " ++ err) 500
  end.
Proof.
  unfold handleChat, genai.Chats_Create.
  set (req' := withDefaults req).
  destruct (genai.up_Create up (Model req') (chatConfig g req')
              (default [] (sessions st !! SessionID req'))) as [err|].
  { cbn. now exists err. }
  cbn.
  assert (Hgoal : forall chat : genai.Chat,
             sameChat (Model req') [genai.TextPart (firstMessage req')] chat ->
             exists text,
               head (genai.chat_sent chat) = Some [genai.TextPart text]
               /\ text <> ""
               /\ text = (if String.eqb (Message req) "" then "Hello"
                          else Message req)).
  { intros chat [_ Hh]. exists (firstMessage req'). split; [exact Hh|].
    split; [apply firstMessage_nonempty | reflexivity]. }
  destruct (genai.up_Generate up _ _) as [res|err]; cbn.
  2:{ exists (firstMessage req'). split; [reflexivity|].
      split; [apply firstMessage_nonempty | reflexivity]. }
  destruct (genai.Response_UsageMetadata res); cbn.
  all: match goal with
       | |- context [iterate ?body ?n ?s0] =>
           assert (Hfirst : sameChat (Model req')
                              [genai.TextPart (firstMessage req')]
                              (cl_chat s0)) by (split; reflexivity);
           pose proof (iterate_invariant body
                         (fun s => sameChat (Model req')
                                     [genai.TextPart (firstMessage req')]
                                     (cl_chat s))
                         (chatLoopBody_sameChat os up g rangeModelCosts _ _ _)
                         n s0 Hfirst) as Hinv;
           destruct (iterate body n s0) as [s|s]; cbn; now apply Hgoal
       end.
Qed.

Lemma empty_message_sent_as_Hello_witness :
  option_map (fun chat => head (genai.chat_sent chat))
    (served_chat
       (handleChat Stub.memOS Stub.silent Stub.globals
          (fun _ => Stub.tableOrder) 4 Stub.emptyMessage Stub.freshState
          (Stub.projectFiles, [])))
  = Some (Some [genai.TextPart "Hello"]).
Proof.
  pose proof (empty_message_sent_as_Hello Stub.memOS Stub.silent Stub.globals
                (fun _ => Stub.tableOrder) 4 Stub.emptyMessage
                Stub.freshState (Stub.projectFiles, [])) as H.
  destruct (served_chat _) as [chat|]; cbn.
  - destruct H as (text & -> & _ & ->). reflexivity.
  - exfalso. destruct H as (err & H). vm_compute in H. discriminate.
Defined.

(** ** Model mapping of the OpenAI-compatible adapter *)

(** Once the mapping has settled on [model], the buffered handler works
    with that model and no other: the chat is created with it, the first
    message is the user's, and a completion names it. *)
Lemma handleOpenAIBuffered_uses {World : Type} (os : OS World)
    (up : genai.Upstream) (g : Globals) (fuel : nat)
    (reqModel userMsg model : string) (st : ServerState)
    (env : World * list Event) :
  mapOpenAIModel g reqModel = UseModel model ->
  let served := handleOpenAIBuffered os up g fuel reqModel userMsg st env in
  match served_chat served with
  | Some chat =>
      sameChat model [genai.TextPart userMsg] chat
      /\ match reply served with
         | HttpJSON body => Response_Model body = model
         | _ => True
         end
  | None =>
      exists err,
        genai.up_Create up model openAIConfig
          (default [] (sessions st !! "openai-compat")) = Some err
        /\ reply served = HttpError err 500
  end.
Proof.
  intros Hmap. unfold handleOpenAIBuffered, genai.Chats_Create.
  rewrite Hmap.
  destruct (genai.up_Create up model openAIConfig
              (default [] (sessions st !! "openai-compat")))
    as [err|] eqn:Hcreate.
  { cbn. now exists err. }
  cbn. destruct (genai.up_Generate up _ _) as [res|err]; cbn.
  2:{ split; [split; reflexivity | exact I]. }
  match goal with
  | |- context [iterate ?body ?n ?s0] =>
      assert (Hfirst : sameChat model [genai.TextPart userMsg] (ol_chat s0))
        by (split; reflexivity);
      pose proof (iterate_invariant body
                    (fun s => sameChat model [genai.TextPart userMsg]
                                (ol_chat s))
                    (openAILoopBody_sameChat os up g _ _)
                    n s0 Hfirst) as Hinv;
      destruct (iterate body n s0) as [s|s]; cbn
  end.
  - split; [exact Hinv | exact I].
  - split; [exact Hinv|].
    destruct (ol_res s) as [res'|]; [|exact I].
    destruct (genai.Response_UsageMetadata res'); reflexivity.
Qed.

(** C8, as the code has it: a ["gemini-"] id that is not blocked is used
    verbatim; any id without that prefix is replaced by the cache-bound
    model, or by the default model when none is configured, and the
    request goes on with it; a blocked experimental ["gemini-"] id is not
    replaced: the buffered handler answers 400 and the streaming handler
    writes an error frame, and nothing is sent upstream. *)
Theorem openai_model_mapping {World : Type} (os : OS World)
    (up : genai.Upstream) (g : Globals) (fuel : nat)
    (reqModel userMsg : string) (st : ServerState)
    (env : World * list Event) :
  let fallback :=
    if String.eqb (cacheModel g) "" then DefaultModel else cacheModel g in
  let chosen :=
    if strings.HasPrefix reqModel "gemini-" then reqModel else fallback in
  let served := handleOpenAIBuffered os up g fuel reqModel userMsg st env in
  if strings.HasPrefix reqModel "gemini-" && isBlockedExperimental reqModel
  then
    served = {| reply := HttpError "Experimental models are not allowed" 400;
                served_state := st; served_env := env; served_chat := None |}
    /\ handleOpenAIStream_head g reqModel
       = StreamErrorFrame "Experimental models are not allowed"
  else
    handleOpenAIStream_head g reqModel = StreamWith chosen
    /\ match served_chat served with
       | Some chat =>
           genai.chat_model chat = chosen
           /\ head (genai.chat_sent chat) = Some [genai.TextPart userMsg]
           /\ match reply served with
              | HttpJSON body => Response_Model body = chosen
              | _ => True
              end
       | None =>
           exists err,
             genai.up_Create up chosen openAIConfig
               (default [] (sessions st !! "openai-compat")) = Some err
             /\ reply served = HttpError err 500
       end.
Proof.
  cbv zeta.
  destruct (strings.HasPrefix reqModel "gemini-") eqn:Hp;
    destruct (isBlockedExperimental reqModel) eqn:Hb; cbn [andb].
  - unfold handleOpenAIBuffered, handleOpenAIStream_head, mapOpenAIModel.
    rewrite Hp, Hb. split; reflexivity.
  - assert (Hmap : mapOpenAIModel g reqModel = UseModel reqModel)
      by (unfold mapOpenAIModel; now rewrite Hp, Hb).
    split; [unfold handleOpenAIStream_head; now rewrite Hmap|].
    pose proof (handleOpenAIBuffered_uses os up g fuel reqModel userMsg
                  reqModel st env Hmap) as H. cbv zeta in H.
    destruct (served_chat _); [|exact H].
    destruct H as [[Hm Hh] Hr]. auto.
  - set (fallback := if String.eqb (cacheModel g) "" then DefaultModel
                     else cacheModel g).
    assert (Hmap : mapOpenAIModel g reqModel = UseModel fallback)
      by (unfold mapOpenAIModel, fallback; rewrite Hp;
          now destruct (String.eqb (cacheModel g) "")).
    split; [unfold handleOpenAIStream_head; now rewrite Hmap|].
    pose proof (handleOpenAIBuffered_uses os up g fuel reqModel userMsg
                  fallback st env Hmap) as H. cbv zeta in H.
    destruct (served_chat _); [|exact H].
    destruct H as [[Hm Hh] Hr]. auto.
  - set (fallback := if String.eqb (cacheModel g) "" then DefaultModel
                     else cacheModel g).
    assert (Hmap : mapOpenAIModel g reqModel = UseModel fallback)
      by (unfold mapOpenAIModel, fallback; rewrite Hp;
          now destruct (String.eqb (cacheModel g) "")).
    split; [unfold handleOpenAIStream_head; now rewrite Hmap|].
    pose proof (handleOpenAIBuffered_uses os up g fuel reqModel userMsg
                  fallback st env Hmap) as H. cbv zeta in H.
    destruct (served_chat _); [|exact H].
    destruct H as [[Hm Hh] Hr]. auto.
Qed.

(** An id of another vendor is replaced by the cache-bound model. *)
Lemma foreign_model_is_replaced :
  mapOpenAIModel Stub.globals "gpt-4" = UseModel "gemini-2.0-flash"
  /\ option_map genai.chat_model
       (served_chat
          (handleOpenAIBuffered Stub.memOS Stub.twoRounds Stub.globals 3
             "gpt-4" "hi" Stub.freshState (Stub.projectFiles, [])))
     = Some "gemini-2.0-flash".
Proof. split; reflexivity. Qed.

(** C8 as stated fails: a blocked experimental id is not replaced by the
    default model; the request ends with a 400 (an error frame when
    streaming) and no chat is created. *)
Lemma experimental_model_is_rejected :
  mapOpenAIModel Stub.globals "gemini-2.0-flash-exp" = RejectExperimental
  /\ handleOpenAIChat Stub.memOS Stub.silent Stub.globals 4
       {| OpenAI_Model := "gemini-2.0-flash-exp";
          Messages := [ {| Role := "user"; Content := "hi" |} ];
          Stream := false |}
       Stub.freshState (Stub.projectFiles, [])
     = Buffered
         {| reply := HttpError "Experimental models are not allowed" 400;
            served_state := Stub.freshState;
            served_env := (Stub.projectFiles, []);
            served_chat := None |}
  /\ handleOpenAIChat Stub.memOS Stub.silent Stub.globals 4
       {| OpenAI_Model := "gemini-2.0-flash-exp";
          Messages := [ {| Role := "user"; Content := "hi" |} ];
          Stream := true |}
       Stub.freshState (Stub.projectFiles, [])
     = Streaming (StreamErrorFrame "Experimental models are not allowed").
Proof. repeat split. Qed.

(** ** The file tools *)

(** The path [toolListFiles] computes is the one the other two compute:
    an empty [relPath] is replaced by ["."], which cleans to the same. *)
Lemma toolListFiles_resolve (g : Globals) (relPath : string) :
  filepath.Join
    [projectRoot g;
     filepath.Clean (if String.eqb relPath "" then "." else relPath)]
  = resolve g relPath.
Proof.
  unfold resolve. destruct (String.eqb relPath "") eqn:E; [|reflexivity].
  apply eqb_empty_true in E. subst relPath. reflexivity.
Qed.

(** C1, as the code has it: each of the three tools first resolves the
    client path lexically, [Join(projectRoot, Clean(relPath))], and when
    the project root is not a prefix of the resolved path it returns the
    access-denied result and leaves the file system and the record of
    [os] calls as they were: no file-system access is made at all. *)
Theorem tools_deny_unprefixed_paths {World : Type} (os : OS World)
    (g : Globals) (relPath content : string) (env : World * list Event) :
  strings.HasPrefix (resolve g relPath) (projectRoot g) = false ->
  toolListFiles os g relPath env = (AccessDenied, env)
  /\ toolReadFile os g relPath env = (AccessDenied, env)
  /\ toolWriteFile os g relPath content env = (AccessDenied, env).
Proof.
  intros H. unfold toolListFiles, toolReadFile, toolWriteFile.
  rewrite toolListFiles_resolve. fold (resolve g relPath). rewrite H.
  repeat split.
Qed.

Lemma tools_deny_unprefixed_paths_witness :
  resolve Stub.globals "../../etc/passwd" = "/etc/passwd"
  /\ toolListFiles Stub.memOS Stub.globals "../../etc/passwd"
       (Stub.projectFiles, []) = (AccessDenied, (Stub.projectFiles, []))
  /\ toolReadFile Stub.memOS Stub.globals "../../etc/passwd"
       (Stub.projectFiles, []) = (AccessDenied, (Stub.projectFiles, []))
  /\ toolWriteFile Stub.memOS Stub.globals "../../etc/passwd" "x"
       (Stub.projectFiles, []) = (AccessDenied, (Stub.projectFiles, [])).
Proof.
  split; [reflexivity|].
  apply (tools_deny_unprefixed_paths Stub.memOS Stub.globals
           "../../etc/passwd" "x" (Stub.projectFiles, [])).
  reflexivity.
Defined.

(** C1 as stated fails: a path with a traversal sequence in it that
    resolves under the root is served, not denied. *)
Lemma traversal_inside_root_is_served :
  strings.Contains "docs/../notes.txt" "../" = true
  /\ resolve Stub.globals "docs/../notes.txt" = "/srv/project/notes.txt"
  /\ toolReadFile Stub.memOS Stub.globals "docs/../notes.txt"
       (Stub.projectFiles, [])
     = (TRContent "remember the milk",
        (Stub.projectFiles,
         [EvStat "/srv/project/notes.txt";
          EvReadFile "/srv/project/notes.txt"]))
  /\ toolReadFile Stub.memOS Stub.globals "docs/../notes.txt"
       (Stub.projectFiles, [])
     <> (AccessDenied, (Stub.projectFiles, [])).
Proof. repeat split. discriminate. Qed.

(** Whatever the path, every [os] call of [toolListFiles] and of
    [toolReadFile] is made on the resolved path, and the file system is
    left as it was. *)
Lemma reading_tools_touch_the_resolved_path {World : Type} (os : OS World)
    (g : Globals) (relPath : string) (w : World) (tr : list Event) :
  exists listed read,
    (toolListFiles os g relPath (w, tr)).2 = (w, (tr ++ listed)%list)
    /\ (toolReadFile os g relPath (w, tr)).2 = (w, (tr ++ read)%list)
    /\ Forall (fun e => event_path e = Some (resolve g relPath))
         (listed ++ read)%list.
Proof.
  unfold toolListFiles, toolReadFile. rewrite toolListFiles_resolve.
  fold (resolve g relPath).
  destruct (strings.HasPrefix (resolve g relPath) (projectRoot g));
    cbn [negb].
  2:{ exists [], []. unfold ret. cbn [snd]. rewrite app_nil_r.
      repeat split. constructor. }
  unfold bind, ReadDir, Stat, ReadFile, ret.
  destruct (os_ReadDir os (resolve g relPath) w) as [entries|err];
    destruct (os_Stat os (resolve g relPath) w) as [info|err'].
  all: try destruct (1000000 <? Size info).
  all: try destruct (os_ReadFile os (resolve g relPath) w) as [c|err''].
  all: exists [EvReadDir (resolve g relPath)].
  all: first
         [ exists [EvStat (resolve g relPath)];
           split; [reflexivity|]; split; [reflexivity|];
           repeat constructor
         | exists [EvStat (resolve g relPath); EvReadFile (resolve g relPath)];
           split; [reflexivity|]; split; [now rewrite <- app_assoc|];
           repeat constructor ].
Qed.

(** The prefix test is on bytes, not on path elements: a directory next
    to the root whose name starts with the root's name passes it. *)
Lemma sibling_directory_passes_the_prefix_test :
  resolve Stub.globals "../project-old/secret.txt"
  = "/srv/project-old/secret.txt"
  /\ toolReadFile Stub.memOS Stub.globals "../project-old/secret.txt"
       (Stub.projectFiles, [])
     = (TRContent "hunter2",
        (Stub.projectFiles,
         [EvStat "/srv/project-old/secret.txt";
          EvReadFile "/srv/project-old/secret.txt"])).
Proof. split; reflexivity. Qed.

(** C6, as the code has it: on a path that passes the root test,
    [toolReadFile] answers "File too large" when the file's size exceeds
    1000000 bytes, without reading it; it returns the content when the
    size is at most 1000000 and the read succeeds; and when [os.Stat] or
    [os.ReadFile] fails it passes on the message of that error. *)
Theorem read_file_cap_is_1000000 {World : Type} (os : OS World) (g : Globals)
    (relPath : string) (w : World) (tr : list Event) :
  strings.HasPrefix (resolve g relPath) (projectRoot g) = true ->
  let p := resolve g relPath in
  (forall info, os_Stat os p w = inl info -> 1000000 < Size info ->
     toolReadFile os g relPath (w, tr)
     = (TRError "File too large", (w, (tr ++ [EvStat p])%list)))
  /\ (forall info content,
        os_Stat os p w = inl info -> Size info <= 1000000 ->
        os_ReadFile os p w = inl content ->
        toolReadFile os g relPath (w, tr)
        = (TRContent content, (w, (tr ++ [EvStat p; EvReadFile p])%list)))
  /\ (forall err, os_Stat os p w = inr err ->
        toolReadFile os g relPath (w, tr)
        = (TRError err, (w, (tr ++ [EvStat p])%list)))
  /\ (forall info err,
        os_Stat os p w = inl info -> Size info <= 1000000 ->
        os_ReadFile os p w = inr err ->
        toolReadFile os g relPath (w, tr)
        = (TRError err, (w, (tr ++ [EvStat p; EvReadFile p])%list))).
Proof.
  intros H p. subst p. unfold toolReadFile. fold (resolve g relPath).
  rewrite H. cbn [negb]. unfold bind, Stat, ReadFile, ret.
  repeat split.
  - intros info Hs Hlt. rewrite Hs.
    now replace (1000000 <? Size info) with true by (symmetry; lia).
  - intros info content Hs Hle Hr. rewrite Hs.
    replace (1000000 <? Size info) with false by (symmetry; lia).
    rewrite Hr, <- app_assoc. reflexivity.
  - intros err Hs. now rewrite Hs.
  - intros info err Hs Hle Hr. rewrite Hs.
    replace (1000000 <? Size info) with false by (symmetry; lia).
    rewrite Hr, <- app_assoc. reflexivity.
Qed.

Lemma read_file_cap_is_1000000_witness :
  toolReadFile Stub.memOS Stub.globals "notes.txt" (Stub.projectFiles, [])
  = (TRContent "remember the milk",
     (Stub.projectFiles,
      [EvStat "/srv/project/notes.txt"; EvReadFile "/srv/project/notes.txt"])).
Proof.
  pose proof (read_file_cap_is_1000000 Stub.memOS Stub.globals "notes.txt"
                Stub.projectFiles []) as H.
  destruct H as (_ & H & _); [reflexivity|].
  apply (H {| Size := 17 |} "remember the milk");
    [reflexivity | cbn; lia | reflexivity].
Defined.

(** C6 as stated fails: a file of exactly 1 MiB, within the root, is
    refused as too large (and so is any file of 1000001 to 1048576
    bytes). *)
Lemma one_MiB_file_is_too_large :
  os_Stat (Stub.oneFileOS "/srv/project/big.bin" 1048576)
    "/srv/project/big.bin" tt = inl {| Size := 1048576 |}
  /\ toolReadFile (Stub.oneFileOS "/srv/project/big.bin" 1048576)
       Stub.globals "big.bin" (tt, [])
     = (TRError "File too large", (tt, [EvStat "/srv/project/big.bin"])).
Proof. split; vm_compute; reflexivity. Qed.

(** ** Cost *)

Lemma modelCostEntries_NoDup : NoDup modelCostEntries.*1.
Proof. compute_done. Qed.

Lemma rangeOrder_source : rangeOrder modelCostEntries.
Proof.
  unfold rangeOrder, modelCosts. symmetry.
  apply map_to_list_to_map, modelCostEntries_NoDup.
Qed.

Lemma rangeOrder_reverse : rangeOrder (reverse modelCostEntries).
Proof.
  unfold rangeOrder. rewrite reverse_Permutation. apply rangeOrder_source.
Qed.

(** Every visited entry is an entry of the table. *)
Lemma rangeOrder_lookup (order : list (string * Rates)) (k : string)
    (r : Rates) :
  rangeOrder order -> (k, r) ∈ order -> modelCosts !! k = Some r.
Proof.
  unfold rangeOrder. intros Hp Hin. rewrite Hp in Hin.
  now apply elem_of_map_to_list in Hin.
Qed.

(** The rates [calculateCost] finds belong to a key of the visited order
    that the model name equals or starts with. *)
Lemma findRates_Some (order : list (string * Rates)) (modelName : string)
    (r : Rates) :
  findRates order modelName = Some r ->
  exists k, (k, r) ∈ order
            /\ String.eqb modelName k || strings.HasPrefix modelName k = true.
Proof.
  induction order as [|[k' r'] rest IH]; cbn; [discriminate|].
  destruct (String.eqb modelName k' || strings.HasPrefix modelName k') eqn:E.
  - intros [= <-]. exists k'. split; [left | exact E].
  - intros H. destruct (IH H) as (k & Hin & Hk). exists k.
    split; [now right | exact Hk].
Qed.

(** No key of the table equals the model name or is a prefix of it:
    nothing is found and the cost is 0. *)
Lemma calculateCost_no_match (order : list (string * Rates))
    (modelName : string) (resp : genai.GenerateContentResponse) :
  rangeOrder order ->
  (forall k r, modelCosts !! k = Some r ->
               String.eqb modelName k || strings.HasPrefix modelName k = false) ->
  calculateCost order modelName resp = 0%float.
Proof.
  intros Horder Hnone. unfold calculateCost.
  destruct (findRates order modelName) as [rates|] eqn:Hfind; [|reflexivity].
  destruct (findRates_Some _ _ _ Hfind) as (k & Hk & Hmatch).
  apply (rangeOrder_lookup _ _ _ Horder) in Hk.
  rewrite (Hnone k rates Hk) in Hmatch. discriminate.
Qed.





(** A model name that no key of the table is a prefix of costs nothing,
    in whatever order the table is visited. *)
Lemma unknown_model_costs_nothing (order : list (string * Rates))
    (resp : genai.GenerateContentResponse) :
  rangeOrder order -> calculateCost order "gpt-4" resp = 0%float.
Proof.
  intros Horder. apply calculateCost_no_match; [exact Horder|].
  intros k r Hk. apply elem_of_map_to_list in Hk.
  pose proof rangeOrder_source as Hs. unfold rangeOrder in Hs.
  rewrite <- Hs in Hk. unfold modelCostEntries in Hk.
  decompose_list_elem_of; simplify_eq; reflexivity.
Qed.

(** C7 fails on the code: the lookup takes the first key, in the order
    of the [range], that the model name starts with.  For
    ["gemini-1.5-flash-8b"] the longest key is the name itself, at 0.0375
    and 0.15 per million; visited in the order of the source, the table
    yields the rates of ["gemini-1.5-flash"] and twice the cost, visited
    the other way round it yields the longest key's; and the free
    ["gemini-2.0-flash-exp"] is billed at the rates of
    ["gemini-2.0-flash"] in the first order. *)
Theorem cost_lookup_takes_first_visited_key :
  rangeOrder Stub.tableOrder
  /\ rangeOrder Stub.reverseOrder
  /\ longestPrefixKey "gemini-1.5-flash-8b"
     = Some ("gemini-1.5-flash-8b", {| RateIn := 0.0375; RateOut := 0.15 |})
  /\ findRates Stub.tableOrder "gemini-1.5-flash-8b"
     = Some {| RateIn := 0.075; RateOut := 0.30 |}
  /\ findRates Stub.reverseOrder "gemini-1.5-flash-8b"
     = Some {| RateIn := 0.0375; RateOut := 0.15 |}
  /\ calculateCost Stub.tableOrder "gemini-1.5-flash-8b" Stub.millionEach
     = 0.375%float
  /\ calculateCost Stub.reverseOrder "gemini-1.5-flash-8b" Stub.millionEach
     = 0.1875%float
  /\ longestPrefixKey "gemini-2.0-flash-exp"
     = Some ("gemini-2.0-flash-exp", {| RateIn := 0; RateOut := 0 |})
  /\ calculateCost Stub.tableOrder "gemini-2.0-flash-exp" Stub.millionEach
     = 0.5%float
  /\ calculateCost Stub.reverseOrder "gemini-2.0-flash-exp" Stub.millionEach
     = 0%float.
Proof.
  split; [exact rangeOrder_source|]. split; [exact rangeOrder_reverse|].
  repeat split; vm_compute; reflexivity.
Qed.

(** ** The tool-resolution loops *)

Lemma FunctionCalls_cons_inv (res : genai.GenerateContentResponse)
    (fc : genai.FunctionCall) (fcs : list genai.FunctionCall) :
  genai.FunctionCalls res = fc :: fcs ->
  exists c cs content,
    genai.Candidates res = c :: cs
    /\ genai.Candidate_Content c = Some content.
Proof.
  unfold genai.FunctionCalls, genai.firstParts. intros H.
  destruct (genai.Candidates res) as [|c cs]; [cbn in H; discriminate H|].
  destruct (genai.Candidate_Content c) as [content|] eqn:Hc;
    [|cbn in H; discriminate H].
  now exists c, cs, content.
Qed.

Section Rounds.

Context {World : Type}.
Variable os : OS World.
Variable up : genai.Upstream.
Variable g : Globals.
Variable rangeModelCosts : nat -> list (string * Rates).
Variable model : string.

Local Abbreviation chatBody := (chatLoopBody os up g rangeModelCosts model).
Local Abbreviation openAIBody := (openAILoopBody os up g).

(** A pass of the loop of [handleChat] over a response with function
    calls runs the tools, sends their results and goes round again with
    the answer, unless the send fails. *)
Lemma chatLoopBody_calls (s : ChatLoop) (fc : genai.FunctionCall)
    (fcs : list genai.FunctionCall) :
  genai.FunctionCalls (cl_res s) = fc :: fcs ->
  forall res',
    genai.up_Generate up (cl_chat s)
      (executeCalls os g (fc :: fcs) (cl_env s)).1 = inl res' ->
    exists s',
      chatBody s = Continue s'
      /\ cl_res s' = res'
      /\ length (genai.chat_sent (cl_chat s'))
         = S (length (genai.chat_sent (cl_chat s))).
Proof.
  intros Hcalls res' Hgen. unfold chatLoopBody.
  destruct (FunctionCalls_cons_inv _ _ _ Hcalls) as (c & cs & content & -> & ->).
  rewrite Hcalls.
  destruct (executeCalls os g (fc :: fcs) (cl_env s)) as [resp env].
  unfold genai.SendMessage. cbn in Hgen. rewrite Hgen.
  destruct (genai.Response_UsageMetadata res'); eexists;
    (split; [reflexivity|]); cbn; rewrite length_app; cbn; split;
    (reflexivity || lia).
Qed.

(** A pass over a response without function calls leaves the loop, and
    sends nothing. *)
Lemma chatLoopBody_plain (s : ChatLoop) :
  genai.FunctionCalls (cl_res s) = [] ->
  exists s', chatBody s = Break s' /\ cl_chat s' = cl_chat s.
Proof.
  intros Hcalls. unfold chatLoopBody. rewrite Hcalls.
  destruct (genai.Candidates (cl_res s)) as [|c cs];
    [eexists; split; reflexivity|].
  destruct (genai.Candidate_Content c); eexists; split; reflexivity.
Qed.

Lemma openAILoopBody_calls (s : OpenAILoop)
    (res : genai.GenerateContentResponse) (fc : genai.FunctionCall)
    (fcs : list genai.FunctionCall) :
  ol_res s = Some res ->
  genai.FunctionCalls res = fc :: fcs ->
  forall res',
    genai.up_Generate up (ol_chat s)
      (executeCalls os g (fc :: fcs) (ol_env s)).1 = inl res' ->
    exists s',
      openAIBody s = Continue s'
      /\ ol_res s' = Some res'
      /\ length (genai.chat_sent (ol_chat s'))
         = S (length (genai.chat_sent (ol_chat s))).
Proof.
  intros Hres Hcalls res' Hgen. unfold openAILoopBody.
  rewrite Hres, Hcalls.
  destruct (executeCalls os g (fc :: fcs) (ol_env s)) as [resp env].
  unfold genai.SendMessage. cbn in Hgen. rewrite Hgen.
  eexists. split; [reflexivity|]. cbn. rewrite length_app. cbn.
  split; [reflexivity | lia].
Qed.

Lemma openAILoopBody_plain (s : OpenAILoop)
    (res : genai.GenerateContentResponse) :
  ol_res s = Some res ->
  genai.FunctionCalls res = [] ->
  openAIBody s
  = Break {| ol_chat := ol_chat s; ol_res := Some res;
             ol_responseText := genai.ResponseText res;
             ol_env := ol_env s |}.
Proof.
  intros Hres Hcalls. unfold openAILoopBody.
  now rewrite Hres, Hcalls.
Qed.

(** *** A provider that always asks for tools *)

Hypothesis always_calls : alwaysCalls up.

Lemma chatLoop_goes_on (fuel : nat) (s : ChatLoop) :
  genai.FunctionCalls (cl_res s) <> [] ->
  exists s',
    iterate chatBody fuel s = Continue s'
    /\ length (genai.chat_sent (cl_chat s'))
       = (length (genai.chat_sent (cl_chat s)) + fuel)%nat.
Proof.
  revert s. induction fuel as [|fuel IH]; intros s Hcalls; cbn.
  - exists s. split; [reflexivity | lia].
  - destruct (genai.FunctionCalls (cl_res s)) as [|fc fcs] eqn:E;
      [contradiction|].
    destruct (always_calls (cl_chat s)
                (executeCalls os g (fc :: fcs) (cl_env s)).1)
      as (res' & Hgen & Hcalls').
    destruct (chatLoopBody_calls s fc fcs E res' Hgen)
      as (s1 & -> & Hres & Hlen).
    rewrite <- Hres in Hcalls'.
    destruct (IH s1 Hcalls') as (s' & Hit & Hlen').
    exists s'. split; [exact Hit | lia].
Qed.

Lemma openAILoop_goes_on (fuel : nat) (s : OpenAILoop)
    (res : genai.GenerateContentResponse) :
  ol_res s = Some res ->
  genai.FunctionCalls res <> [] ->
  exists s',
    iterate openAIBody fuel s = Continue s'
    /\ length (genai.chat_sent (ol_chat s'))
       = (length (genai.chat_sent (ol_chat s)) + fuel)%nat.
Proof.
  revert s res. induction fuel as [|fuel IH]; intros s res Hres Hcalls; cbn.
  - exists s. split; [reflexivity | lia].
  - destruct (genai.FunctionCalls res) as [|fc fcs] eqn:E; [contradiction|].
    destruct (always_calls (ol_chat s)
                (executeCalls os g (fc :: fcs) (ol_env s)).1)
      as (res' & Hgen & Hcalls').
    destruct (openAILoopBody_calls s res fc fcs Hres E res' Hgen)
      as (s1 & -> & Hres1 & Hlen).
    destruct (IH s1 res' Hres1 Hcalls') as (s' & Hit & Hlen').
    exists s'. split; [exact Hit | lia].
Qed.

End Rounds.

Section ScriptedRounds.

Context {World : Type}.
Variable os : OS World.
Variable up : genai.Upstream.
Variable g : Globals.
Variable rangeModelCosts : nat -> list (string * Rates).
Variable model : string.
Variable K : nat.
Hypothesis calls_K_times : callsExactly K up.

Local Abbreviation chatBody := (chatLoopBody os up g rangeModelCosts model).
Local Abbreviation openAIBody := (openAILoopBody os up g).

(** With [d] answers with calls still to come, the loop of [handleChat]
    is still running after [d] passes and leaves in the next one. *)
Lemma chatLoop_rounds (d : nat) (s : ChatLoop) :
  (length (genai.chat_sent (cl_chat s)) + d = S K)%nat ->
  (d = 0%nat -> genai.FunctionCalls (cl_res s) = []) ->
  (d <> 0%nat -> genai.FunctionCalls (cl_res s) <> []) ->
  (exists s', iterate chatBody (S d) s = Break s'
              /\ length (genai.chat_sent (cl_chat s')) = S K)
  /\ (forall m, (m <= d)%nat -> exists s', iterate chatBody m s = Continue s').
Proof.
  revert s. induction d as [|d IH]; intros s Hlen Hlast Hmore.
  - destruct (chatLoopBody_plain os up g rangeModelCosts model s
                (Hlast eq_refl)) as (s' & Hb & Hchat).
    split.
    + exists s'. cbn. rewrite Hb.
      split; [reflexivity|]. rewrite Hchat. lia.
    + intros m Hm. assert (m = 0%nat) as -> by lia. now exists s.
  - destruct (genai.FunctionCalls (cl_res s)) as [|fc fcs] eqn:E;
      [now contradiction Hmore|].
    destruct (calls_K_times (cl_chat s)
                (executeCalls os g (fc :: fcs) (cl_env s)).1)
      as (res' & Hgen & Hlt & Heq); [lia|].
    destruct (chatLoopBody_calls os up g rangeModelCosts model s fc fcs E
                res' Hgen) as (s1 & Hb & Hres & Hlen1).
    destruct (IH s1) as [(s' & Hit & Hlen') Hrun].
    + lia.
    + intros ->. rewrite Hres. apply Heq. lia.
    + intros Hd. rewrite Hres. apply Hlt. lia.
    + split.
      * exists s'. split; [|exact Hlen'].
        change (iterate chatBody (S (S d)) s)
          with (match chatBody s with
                | Break s' => Break s'
                | Continue s' => iterate chatBody (S d) s'
                end).
        rewrite Hb. exact Hit.
      * intros [|m] Hm; [now exists s|].
        destruct (Hrun m) as (s'' & Hs''); [lia|]. exists s''.
        cbn. rewrite Hb. exact Hs''.
Qed.

Lemma openAILoop_rounds (d : nat) (s : OpenAILoop)
    (res : genai.GenerateContentResponse) :
  ol_res s = Some res ->
  (length (genai.chat_sent (ol_chat s)) + d = S K)%nat ->
  (d = 0%nat -> genai.FunctionCalls res = []) ->
  (d <> 0%nat -> genai.FunctionCalls res <> []) ->
  (exists s' res', iterate openAIBody (S d) s = Break s'
                   /\ length (genai.chat_sent (ol_chat s')) = S K
                   /\ ol_res s' = Some res'
                   /\ ol_responseText s' = genai.ResponseText res')
  /\ (forall m, (m <= d)%nat ->
                exists s', iterate openAIBody m s = Continue s').
Proof.
  revert s res. induction d as [|d IH]; intros s res Hres Hlen Hlast Hmore.
  - pose proof (openAILoopBody_plain os up g s res Hres (Hlast eq_refl))
      as Hb.
    split.
    + eexists; exists res. cbn. rewrite Hb. split; [reflexivity|]. cbn. repeat split. lia.
    + intros m Hm. assert (m = 0%nat) as -> by lia. now exists s.
  - destruct (genai.FunctionCalls res) as [|fc fcs] eqn:E;
      [now contradiction Hmore|].
    destruct (calls_K_times (ol_chat s)
                (executeCalls os g (fc :: fcs) (ol_env s)).1)
      as (res' & Hgen & Hlt & Heq); [lia|].
    destruct (openAILoopBody_calls os up g s res fc fcs Hres E res' Hgen)
      as (s1 & Hb & Hres1 & Hlen1).
    destruct (IH s1 res' Hres1) as [(s' & r' & Hit & Hrest) Hrun].
    + lia.
    + intros ->. apply Heq. lia.
    + intros Hd. apply Hlt. lia.
    + split.
      * exists s', r'. split; [|exact Hrest].
        change (iterate openAIBody (S (S d)) s)
          with (match openAIBody s with
                | Break s' => Break s'
                | Continue s' => iterate openAIBody (S d) s'
                end).
        rewrite Hb. exact Hit.
      * intros [|m] Hm; [now exists s|].
        destruct (Hrun m) as (s'' & Hs''); [lia|]. exists s''.
        cbn. rewrite Hb. exact Hs''.
Qed.

End ScriptedRounds.

Section NoCap.

Context {World : Type}.
Variable os : OS World.
Variable up : genai.Upstream.
Variable g : Globals.
Variable rangeModelCosts : nat -> list (string * Rates).
Variable req : ChatRequest.
Variables reqModel userMsg model : string.
Variable st : ServerState.
Variable env : World * list Event.
Hypothesis creates : createsChats up.
Hypothesis mapped : mapOpenAIModel g reqModel = UseModel model.

Ltac first_send H :=
  unfold handleChat, handleOpenAIBuffered, genai.Chats_Create;
  rewrite ?mapped, creates; unfold genai.SendMessage; cbn -[iterate];
  match goal with
  | |- context [genai.up_Generate up ?c ?p] =>
      destruct (H c p) as (res & Hgen & Hcalls); rewrite Hgen
  end.

Lemma handleChat_still_pending (fuel : nat) :
  alwaysCalls up ->
  reply (handleChat os up g rangeModelCosts fuel req st env) = HttpPending
  /\ sentCount (handleChat os up g rangeModelCosts fuel req st env)
     = Some (S fuel).
Proof.
  intros Halways. first_send Halways.
  destruct (genai.Response_UsageMetadata res);
    match goal with
    | |- context [iterate (chatLoopBody _ _ _ _ ?m) ?n ?s0] =>
        destruct (chatLoop_goes_on os up g rangeModelCosts m Halways n s0
                    Hcalls)
          as (s' & Hit & Hlen); rewrite Hit
    end; cbn in *; (split; [reflexivity | now rewrite Hlen]).
Qed.

Lemma handleOpenAIBuffered_still_pending (fuel : nat) :
  alwaysCalls up ->
  reply (handleOpenAIBuffered os up g fuel reqModel userMsg st env)
  = HttpPending
  /\ sentCount (handleOpenAIBuffered os up g fuel reqModel userMsg st env)
     = Some (S fuel).
Proof.
  intros Halways. first_send Halways.
  match goal with
  | |- context [iterate ?b ?n ?s0] =>
      destruct (openAILoop_goes_on os up g Halways n s0 res eq_refl Hcalls)
        as (s' & Hit & Hlen); rewrite Hit
  end; cbn in *; (split; [reflexivity | now rewrite Hlen]).
Qed.

Variable K : nat.
Hypothesis calls_K_times : callsExactly K up.

Ltac first_send_K :=
  unfold handleChat, handleOpenAIBuffered, genai.Chats_Create;
  rewrite ?mapped, creates; unfold genai.SendMessage; cbn -[iterate];
  match goal with
  | |- context [genai.up_Generate up ?c ?p] =>
      destruct (calls_K_times c p) as (res & Hgen & Hlt & Heq);
      [cbn; lia|]; cbn in Hlt, Heq; rewrite Hgen
  end.

Lemma handleChat_K_rounds :
  (forall fuel, (fuel <= K)%nat ->
     reply (handleChat os up g rangeModelCosts fuel req st env) = HttpPending)
  /\ (exists body,
        reply (handleChat os up g rangeModelCosts (S K) req st env)
        = HttpJSON body)
  /\ sentCount (handleChat os up g rangeModelCosts (S K) req st env)
     = Some (S K).
Proof.
  assert (Hloop : forall (m : string) (s0 : ChatLoop),
            length (genai.chat_sent (cl_chat s0)) = 1%nat ->
            (K = 0%nat -> genai.FunctionCalls (cl_res s0) = []) ->
            (K <> 0%nat -> genai.FunctionCalls (cl_res s0) <> []) ->
            _) by
    (intros m s0 H1 H2 H3;
     refine (chatLoop_rounds os up g rangeModelCosts m K calls_K_times K s0
               _ H2 H3);
     rewrite H1; reflexivity).
  repeat split.
  - intros fuel Hfuel. first_send_K.
    destruct (genai.Response_UsageMetadata res);
      match goal with
      | |- context [iterate (chatLoopBody _ _ _ _ ?m) ?n ?s0] =>
          destruct (Hloop m s0) as [_ Hrun];
            [reflexivity | intros ->; now apply Heq | intros ?; apply Hlt; lia
            | destruct (Hrun n Hfuel) as (s' & Hit); rewrite Hit; reflexivity]
      end.
  - first_send_K.
    destruct (genai.Response_UsageMetadata res);
      match goal with
      | |- context [iterate (chatLoopBody _ _ _ _ ?m) ?n ?s0] =>
          destruct (Hloop m s0) as [(s' & Hit & Hlen) _];
            [reflexivity | intros ->; now apply Heq | intros ?; apply Hlt; lia
            | rewrite Hit; eexists; reflexivity]
      end.
  - first_send_K.
    destruct (genai.Response_UsageMetadata res);
      match goal with
      | |- context [iterate (chatLoopBody _ _ _ _ ?m) ?n ?s0] =>
          destruct (Hloop m s0) as [(s' & Hit & Hlen) _];
            [reflexivity | intros ->; now apply Heq | intros ?; apply Hlt; lia
            | rewrite Hit; cbn; now rewrite Hlen]
      end.
Qed.

Lemma handleOpenAIBuffered_K_rounds :
  (forall fuel, (fuel <= K)%nat ->
     reply (handleOpenAIBuffered os up g fuel reqModel userMsg st env)
     = HttpPending)
  /\ (exists body,
        reply (handleOpenAIBuffered os up g (S K) reqModel userMsg st env)
        = HttpJSON body)
  /\ sentCount (handleOpenAIBuffered os up g (S K) reqModel userMsg st env)
     = Some (S K).
Proof.
  assert (Hloop : forall (s0 : OpenAILoop) res,
            ol_res s0 = Some res ->
            length (genai.chat_sent (ol_chat s0)) = 1%nat ->
            (K = 0%nat -> genai.FunctionCalls res = []) ->
            (K <> 0%nat -> genai.FunctionCalls res <> []) ->
            _) by
    (intros s0 res H0 H1 H2 H3;
     refine (openAILoop_rounds os up g K calls_K_times K s0 res H0 _ H2 H3);
     rewrite H1; reflexivity).
  repeat split.
  - intros fuel Hfuel. first_send_K.
    match goal with
    | |- context [iterate ?b ?n ?s0] =>
        destruct (Hloop s0 res) as [_ Hrun];
          [reflexivity | reflexivity | intros ->; now apply Heq
          | intros ?; apply Hlt; lia
          | destruct (Hrun n Hfuel) as (s' & Hit); rewrite Hit; reflexivity]
    end.
  - first_send_K.
    match goal with
    | |- context [iterate ?b ?n ?s0] =>
        destruct (Hloop s0 res) as [(s' & r' & Hit & Hlen & Hr & _) _];
          [reflexivity | reflexivity | intros ->; now apply Heq
          | intros ?; apply Hlt; lia
          | rewrite Hit; cbn; rewrite Hr;
            destruct (genai.Response_UsageMetadata r'); eexists; reflexivity]
    end.
  - first_send_K.
    match goal with
    | |- context [iterate ?b ?n ?s0] =>
        destruct (Hloop s0 res) as [(s' & r' & Hit & Hlen & Hr & _) _];
          [reflexivity | reflexivity | intros ->; now apply Heq
          | intros ?; apply Hlt; lia
          | rewrite Hit; cbn; now rewrite Hlen]
    end.
Qed.

End NoCap.

Lemma pingpong_alwaysCalls : alwaysCalls Stub.pingpong.
Proof.
  intros chat parts. eexists. split; [reflexivity|]. cbn. discriminate.
Qed.

Lemma pingpong_createsChats : createsChats Stub.pingpong.
Proof. intros model config history. reflexivity. Qed.

Lemma scripted_createsChats (script : list genai.GenerateContentResponse) :
  createsChats (Stub.scripted script).
Proof. intros model config history. reflexivity. Qed.

Lemma twoRounds_callsExactly : callsExactly 2 Stub.twoRounds.
Proof.
  intros chat parts Hlen. unfold Stub.twoRounds, Stub.scripted. cbn.
  destruct (genai.chat_sent chat) as [|m1 [|m2 [|m3 rest]]]; cbn in *;
    try lia; eexists; (split; [reflexivity|]); cbn;
    (split; [intros; try lia; discriminate
            | intros; try lia; try discriminate; reflexivity]).
Qed.

(** C4, as the code has it: neither loop counts its rounds.  As long as
    chats can be created and the model id is accepted, a provider that
    answers every message with function calls keeps [handleChat] and
    [handleOpenAIChat] in their loops for good: after any number [fuel] of
    passes there is no reply and no error, and [fuel + 1] messages have
    gone upstream.  A provider that asks for tools [K] times and then
    answers without a call is served in exactly [K] rounds: no reply
    within [K] passes, a reply in the next, [K + 1] messages sent. *)
Theorem tool_loop_has_no_cap {World : Type} (os : OS World)
    (up : genai.Upstream) (g : Globals)
    (rangeModelCosts : nat -> list (string * Rates)) (req : ChatRequest)
    (reqModel userMsg model : string) (st : ServerState)
    (env : World * list Event) :
  createsChats up ->
  mapOpenAIModel g reqModel = UseModel model ->
  let native fuel := handleChat os up g rangeModelCosts fuel req st env in
  let openai fuel :=
    handleOpenAIBuffered os up g fuel reqModel userMsg st env in
  (alwaysCalls up ->
   forall fuel,
     reply (native fuel) = HttpPending
     /\ sentCount (native fuel) = Some (S fuel)
     /\ reply (openai fuel) = HttpPending
     /\ sentCount (openai fuel) = Some (S fuel))
  /\ (forall K, callsExactly K up ->
        (forall fuel, (fuel <= K)%nat ->
           reply (native fuel) = HttpPending
           /\ reply (openai fuel) = HttpPending)
        /\ (exists body, reply (native (S K)) = HttpJSON body)
        /\ sentCount (native (S K)) = Some (S K)
        /\ (exists body, reply (openai (S K)) = HttpJSON body)
        /\ sentCount (openai (S K)) = Some (S K)).
Proof.
  intros Hcreate Hmap native openai. split.
  - intros Halways fuel.
    destruct (handleChat_still_pending os up g rangeModelCosts req st env
                Hcreate fuel Halways) as [H1 H2].
    destruct (handleOpenAIBuffered_still_pending os up g reqModel userMsg
                model st env Hcreate Hmap fuel Halways) as [H3 H4].
    auto.
  - intros K HK.
    destruct (handleChat_K_rounds os up g rangeModelCosts req st env
                Hcreate K HK) as (H1 & H2 & H3).
    destruct (handleOpenAIBuffered_K_rounds os up g reqModel userMsg model
                st env Hcreate Hmap K HK) as (H4 & H5 & H6).
    split; [intros fuel Hfuel; split; [now apply H1 | now apply H4]|].
    repeat split; assumption.
Qed.

Lemma tool_loop_has_no_cap_witness :
  reply (handleChat Stub.memOS Stub.pingpong Stub.globals
           (fun _ => Stub.tableOrder) 1000 Stub.emptyMessage Stub.freshState
           (Stub.projectFiles, [])) = HttpPending
  /\ (exists body,
        reply (handleChat Stub.memOS Stub.twoRounds Stub.globals
                 (fun _ => Stub.tableOrder) 3 Stub.emptyMessage
                 Stub.freshState (Stub.projectFiles, [])) = HttpJSON body)
  /\ sentCount (handleChat Stub.memOS Stub.twoRounds Stub.globals
                  (fun _ => Stub.tableOrder) 3 Stub.emptyMessage
                  Stub.freshState (Stub.projectFiles, [])) = Some 3%nat.
Proof.
  split.
  - destruct (tool_loop_has_no_cap Stub.memOS Stub.pingpong Stub.globals
                (fun _ => Stub.tableOrder) Stub.emptyMessage "gpt-4" "hi"
                "gemini-2.0-flash" Stub.freshState (Stub.projectFiles, [])
                pingpong_createsChats eq_refl) as [H _].
    exact (proj1 (H pingpong_alwaysCalls 1000%nat)).
  - destruct (tool_loop_has_no_cap Stub.memOS Stub.twoRounds Stub.globals
                (fun _ => Stub.tableOrder) Stub.emptyMessage "gpt-4" "hi"
                "gemini-2.0-flash" Stub.freshState (Stub.projectFiles, [])
                (scripted_createsChats _) eq_refl) as [_ H].
    destruct (H 2%nat twoRounds_callsExactly) as (_ & H2 & H3 & _).
    split; [exact H2 | exact H3].
Defined.

(** C4 as stated fails: against a provider that asks for a tool in every
    response, no number of passes ends either loop, with an error or
    otherwise, and the number of upstream calls grows without bound. *)
Lemma pingpong_never_ends :
  alwaysCalls Stub.pingpong
  /\ (forall fuel,
        reply (handleChat Stub.memOS Stub.pingpong Stub.globals
                 (fun _ => Stub.tableOrder) fuel Stub.emptyMessage
                 Stub.freshState (Stub.projectFiles, [])) = HttpPending
        /\ sentCount (handleChat Stub.memOS Stub.pingpong Stub.globals
                        (fun _ => Stub.tableOrder) fuel Stub.emptyMessage
                        Stub.freshState (Stub.projectFiles, []))
           = Some (S fuel))
  /\ (forall fuel,
        handleOpenAIChat Stub.memOS Stub.pingpong Stub.globals fuel
          Stub.openAIHi Stub.freshState (Stub.projectFiles, [])
        = Buffered
            (handleOpenAIBuffered Stub.memOS Stub.pingpong Stub.globals fuel
               "gpt-4" "hi" Stub.freshState (Stub.projectFiles, []))
        /\ reply (handleOpenAIBuffered Stub.memOS Stub.pingpong Stub.globals
                    fuel "gpt-4" "hi" Stub.freshState (Stub.projectFiles, []))
           = HttpPending).
Proof.
  split; [exact pingpong_alwaysCalls|]. split.
  - intros fuel.
    exact (handleChat_still_pending Stub.memOS Stub.pingpong Stub.globals
             (fun _ => Stub.tableOrder) Stub.emptyMessage Stub.freshState
             (Stub.projectFiles, []) pingpong_createsChats fuel
             pingpong_alwaysCalls).
  - intros fuel. split; [reflexivity|].
    exact (proj1 (handleOpenAIBuffered_still_pending Stub.memOS Stub.pingpong
                    Stub.globals "gpt-4" "hi" "gemini-2.0-flash"
                    Stub.freshState (Stub.projectFiles, [])
                    pingpong_createsChats eq_refl fuel pingpong_alwaysCalls)).
Qed.

(** ** Empty answers *)

(** The fallbacks of the native handler leave no way to an empty text. *)
Lemma finalText_nonempty (finalResponse : string) (toolLogs : list string)
    (images : list ImageData) :
  finalText finalResponse toolLogs images <> "".
Proof.
  unfold finalText.
  destruct (String.eqb (strings.TrimSpace finalResponse) "") eqn:E;
    cbn [andb].
  - destruct toolLogs as [|l ls]; cbn [length Nat.eqb Nat.ltb Nat.leb andb].
    + destruct images; cbn; discriminate.
    + cbn. discriminate.
  - now apply eqb_empty_false.
Qed.

(** Every reply of [handleChat] that is not an error status has a text
    that is not empty: the model's, or one of the three bracketed
    notices. *)
Lemma handleChat_text_nonempty {World : Type} (os : OS World)
    (up : genai.Upstream) (g : Globals)
    (rangeModelCosts : nat -> list (string * Rates)) (fuel : nat)
    (req : ChatRequest) (st : ServerState) (env : World * list Event) :
  match reply (handleChat os up g rangeModelCosts fuel req st env) with
  | HttpJSON body => Text body <> ""
  | _ => True
  end.
Proof.
  unfold handleChat.
  destruct (genai.Chats_Create _ _ _ _) as [chat|err]; [|exact I].
  destruct (genai.SendMessage up chat _) as [[res|err] chat']; [|exact I].
  destruct (genai.Response_UsageMetadata res);
    destruct (iterate _ fuel _); cbn; try exact I;
    apply finalText_nonempty.
Qed.

(** An empty answer with no tool round and no image: the native handler
    replies with its warning. *)
Lemma handleChat_warns_of_empty_answer :
  exists body,
    reply (handleChat Stub.memOS Stub.silent Stub.globals
             (fun _ => Stub.tableOrder) 1 Stub.nativeHi Stub.freshState
             (Stub.projectFiles, [])) = HttpJSON body
    /\ Text body
       = "[System Warning: Model returned empty content. This may be a safety block or API glitch.]"
    /\ ToolCalls body = [] /\ Images body = [].
Proof. eexists. repeat split. Qed.

(** C5 fails on the code in the OpenAI-compatible handler: for the same
    empty answer of the provider, with no tool round and no image, the
    completion it returns has the empty string as its content, where the
    native handler puts its warning. *)
Theorem openai_passes_on_empty_answer :
  handleOpenAIChat Stub.memOS Stub.silent Stub.globals 1 Stub.openAIHi
    Stub.freshState (Stub.projectFiles, [])
  = Buffered
      (handleOpenAIBuffered Stub.memOS Stub.silent Stub.globals 1 "gpt-4"
         "hi" Stub.freshState (Stub.projectFiles, []))
  /\ reply (handleOpenAIBuffered Stub.memOS Stub.silent Stub.globals 1
              "gpt-4" "hi" Stub.freshState (Stub.projectFiles, []))
     = HttpJSON
         {| Object := "chat.completion";
            Response_Model := "gemini-2.0-flash";
            Choices :=
              [ {| Index := 0;
                   Choice_Message :=
                     {| Role := "assistant"; Content := "" |};
                   FinishReason := "stop" |} ];
            Usage := {| Usage_PromptTokens := 12; CompletionTokens := 7;
                        Usage_TotalTokens := 19 |} |}
  /\ served_env (handleOpenAIBuffered Stub.memOS Stub.silent Stub.globals 1
                   "gpt-4" "hi" Stub.freshState (Stub.projectFiles, []))
     = (Stub.projectFiles, []).
Proof. repeat split. Qed.

(** The same holds for any provider: when the first answer has no
    function call, its text, empty or not, is the content of the
    completion. *)
Lemma openai_content_is_the_answer {World : Type} (os : OS World)
    (up : genai.Upstream) (g : Globals) (fuel : nat)
    (reqModel userMsg model : string) (st : ServerState)
    (env : World * list Event) (res : genai.GenerateContentResponse) :
  mapOpenAIModel g reqModel = UseModel model ->
  createsChats up ->
  (forall chat parts, genai.up_Generate up chat parts = inl res) ->
  genai.FunctionCalls res = [] ->
  exists body,
    reply (handleOpenAIBuffered os up g (S fuel) reqModel userMsg st env)
    = HttpJSON body
    /\ map (fun c => Content (Choice_Message c)) (Choices body)
       = [genai.ResponseText res].
Proof.
  intros Hmap Hcreate Hgen Hcalls.
  unfold handleOpenAIBuffered, genai.Chats_Create, genai.SendMessage.
  rewrite Hmap, Hcreate. cbn -[iterate]. rewrite Hgen.
  cbn. rewrite Hcalls. cbn.
  destruct (genai.Response_UsageMetadata res); eexists; split; reflexivity.
Qed.

(** ** Cost of a request *)

(** When every call of [calculateCost] for the request's model returns
    0, the request's cost is 0, however many rounds the turn takes. *)
Lemma unpriced_request_costs_nothing {World : Type} (os : OS World)
    (up : genai.Upstream) (g : Globals)
    (rangeModelCosts : nat -> list (string * Rates)) (fuel : nat)
    (req : ChatRequest) (st : ServerState) (env : World * list Event) :
  (forall n resp,
     calculateCost (rangeModelCosts n) (Model (withDefaults req)) resp
     = 0%float) ->
  match reply (handleChat os up g rangeModelCosts fuel req st env) with
  | HttpJSON body => Cost body = 0%float
  | _ => True
  end.
Proof.
  intros Hzero. unfold handleChat.
  destruct (genai.Chats_Create _ _ _ _) as [chat|err]; [|exact I].
  destruct (genai.SendMessage up chat _) as [[res|err] chat']; [|exact I].
  assert (Hbody : forall s : ChatLoop,
            cl_requestCost s = 0%float ->
            match chatLoopBody os up g rangeModelCosts
                    (Model (withDefaults req)) s with
            | Continue s' | Break s' => cl_requestCost s' = 0%float
            end).
  { intros s Hs. unfold chatLoopBody. rewrite Hs, Hzero.
    destruct (genai.Candidates (cl_res s)) as [|c cs]; [reflexivity|].
    destruct (genai.Candidate_Content c); [|reflexivity].
    destruct (genai.FunctionCalls (cl_res s)); [reflexivity|].
    destruct (executeCalls _ _ _ _) as [resp env'].
    destruct (genai.SendMessage up (cl_chat s) resp) as [[res'|err] chat''];
      [|reflexivity].
    destruct (genai.Response_UsageMetadata res'); reflexivity. }
  destruct (genai.Response_UsageMetadata res);
    match goal with
    | |- context [iterate ?b ?n ?s0] =>
        pose proof (iterate_invariant b
                      (fun s => cl_requestCost s = 0%float) Hbody n s0
                      eq_refl) as Hinv;
        destruct (iterate b n s0); cbn; [exact I | exact Hinv]
    end.
Qed.

(** * Further properties of the code *)

(** ** The file listing of [handleFiles] *)



Lemma omap_length_le {A B : Type} (f : A -> option B) (l : list A) :
  (length (omap f l) <= length l)%nat.
Proof.
  induction l as [|a l IH]; cbn; [lia|]. destruct (f a); cbn; lia.
Qed.

Lemma prefix_dot_head (c : ascii) (r r' : string) :
  String.prefix "." (String c r) = String.prefix "." (String c r').
Proof.
  unfold String.prefix. destruct (Ascii.ascii_dec "." c); [|reflexivity].
  now destruct r, r'.
Qed.

Lemma listedName_not_hidden (e : DirEntry) (n : string) :
  listedName e = Some n -> strings.HasPrefix n "." = false.
Proof.
  unfold listedName. destruct (strings.HasPrefix (Name e) ".") eqn:Hh;
    [discriminate|].
  destruct (IsDir e).
  - destruct (default false (skipDirs !! Name e)); [discriminate|].
    intros [= <-]. unfold strings.HasPrefix in *.
    destruct (Name e) as [|c rest]; [reflexivity|].
    change (String c rest ++ "/") with (String c (rest ++ "/")).
    now rewrite (prefix_dot_head c (rest ++ "/") rest).
  - now intros [= <-].
Qed.

(** X2: when [handleFiles] answers with a listing, no listed name starts
    with a dot; every regular entry of the directory that is not hidden
    is listed under its name, and every directory that is neither hidden
    nor one of the skipped names is listed with a trailing separator; the
    listing is no longer than the directory. *)
Theorem handleFiles_listing {World : Type} (os : OS World) (g : Globals)
    (subPath : string) (w : World) (tr : list Event) (files : list string) :
  (handleFiles os g subPath (w, tr)).1 = HttpJSON files ->
  exists target entries,
    os_ReadDir os target w = inl entries
    /\ (length files <= length entries)%nat
    /\ Forall (fun n => strings.HasPrefix n "." = false) files
    /\ forall e, e ∈ entries ->
         strings.HasPrefix (Name e) "." = false ->
         (IsDir e = false -> Name e ∈ files)
         /\ (IsDir e = true -> skipDirs !! Name e = None ->
             (Name e ++ "/") ∈ files).
Proof.
  unfold handleFiles.
  set (checked := if negb (String.eqb subPath "") then _ else _).
  destruct checked as [target|]; [|discriminate].
  unfold bind, ReadDir, ret.
  destruct (os_ReadDir os target w) as [entries|err] eqn:Hread;
    [|discriminate].
  cbn [fst]. intros [= <-]. exists target, entries.
  split; [exact Hread|].
  split; [apply omap_length_le|]. split.
  - apply Forall_forall. intros n Hn.
    apply list_elem_of_omap in Hn. destruct Hn as (e & _ & He).
    now apply (listedName_not_hidden e).
  - intros e He Hvis. split.
    + intros Hfile. apply list_elem_of_omap. exists e. split; [exact He|].
      unfold listedName. now rewrite Hvis, Hfile.
    + intros Hdir Hskip. apply list_elem_of_omap. exists e.
      split; [exact He|]. unfold listedName. now rewrite Hvis, Hdir, Hskip.
Qed.

Lemma handleFiles_listing_witness :
  (handleFiles Stub.listingOS Stub.globals "" (tt, [])).1
  = HttpJSON ["README.md"; "web/"]
  /\ exists target entries,
       os_ReadDir Stub.listingOS target tt = inl entries
       /\ (length ["README.md"; "web/"] <= length entries)%nat.
Proof.
  split; [reflexivity|].
  destruct (handleFiles_listing Stub.listingOS Stub.globals "" tt []
              ["README.md"; "web/"] eq_refl)
    as (target & entries & Hread & Hlen & _).
  now exists target, entries.
Defined.

(** ** The session store and the running cost *)

Lemma SendMessage_chatFor (up : genai.Upstream) (chat : genai.Chat)
    (parts : list genai.Part) (model : string)
    (config : genai.GenerateContentConfig) (history : list genai.Content) :
  chatFor model config history chat ->
  chatFor model config history (genai.SendMessage up chat parts).2.
Proof. intros (Hm & Hc & Hh). repeat split; assumption. Qed.

Section StoreFacts.

Context {World : Type}.
Variable os : OS World.
Variable up : genai.Upstream.
Variable g : Globals.
Variable rangeModelCosts : nat -> list (string * Rates).

Lemma chatLoopBody_chatFor (reqModel model : string)
    (config : genai.GenerateContentConfig) (history : list genai.Content)
    (s : ChatLoop) :
  chatFor model config history (cl_chat s) ->
  match chatLoopBody os up g rangeModelCosts reqModel s with
  | Continue s' | Break s' => chatFor model config history (cl_chat s')
  end.
Proof.
  intros Hs. unfold chatLoopBody.
  destruct (genai.Candidates (cl_res s)) as [|c cs]; [exact Hs|].
  destruct (genai.Candidate_Content c); [|exact Hs].
  destruct (genai.FunctionCalls (cl_res s)) as [|fc fcs]; [exact Hs|].
  destruct (executeCalls os g (fc :: fcs) (cl_env s)) as [resp env].
  pose proof (SendMessage_chatFor up (cl_chat s) resp _ _ _ Hs) as Hk.
  destruct (genai.SendMessage up (cl_chat s) resp) as [r chat]; cbn in Hk.
  destruct r as [res'|err]; [|exact Hk].
  destruct (genai.Response_UsageMetadata res'); exact Hk.
Qed.

Lemma openAILoopBody_chatFor (model : string)
    (config : genai.GenerateContentConfig) (history : list genai.Content)
    (s : OpenAILoop) :
  chatFor model config history (ol_chat s) ->
  match openAILoopBody os up g s with
  | Continue s' | Break s' => chatFor model config history (ol_chat s')
  end.
Proof.
  intros Hs. unfold openAILoopBody.
  destruct (ol_res s) as [res|]; [|exact Hs].
  destruct (genai.FunctionCalls res) as [|fc fcs]; [exact Hs|].
  destruct (executeCalls os g (fc :: fcs) (ol_env s)) as [resp env].
  pose proof (SendMessage_chatFor up (ol_chat s) resp _ _ _ Hs) as Hk.
  destruct (genai.SendMessage up (ol_chat s) resp) as [r chat]; cbn in Hk.
  destruct r as [res'|err]; exact Hk.
Qed.

(** The chat of [handleChat] is created for the request's model (the
    default model when the request names none), with the configuration of
    the request and the history stored under its session id. *)
Lemma handleChat_chatFor (fuel : nat) (req : ChatRequest) (st : ServerState)
    (env : World * list Event) (chat : genai.Chat) :
  served_chat (handleChat os up g rangeModelCosts fuel req st env)
  = Some chat ->
  chatFor (Model (withDefaults req)) (chatConfig g (withDefaults req))
    (default [] (sessions st !! SessionID (withDefaults req))) chat.
Proof.
  unfold handleChat, genai.Chats_Create.
  set (req' := withDefaults req).
  destruct (genai.up_Create up _ _ _); [discriminate|].
  unfold genai.SendMessage at 1. cbv beta iota.
  destruct (genai.up_Generate up _ _) as [res|err].
  2:{ intros [= <-]. repeat split. }
  destruct (genai.Response_UsageMetadata res);
    match goal with
    | |- context [iterate ?b ?n ?s0] =>
        pose proof (iterate_invariant b
                      (fun s => chatFor (Model req') (chatConfig g req')
                                  (default [] (sessions st !! SessionID req'))
                                  (cl_chat s))
                      (chatLoopBody_chatFor _ _ _ _) n s0
                      (conj eq_refl (conj eq_refl eq_refl))) as Hinv;
        destruct (iterate b n s0); intros [= <-]; exact Hinv
    end.
Qed.

Lemma handleOpenAIBuffered_chatFor (fuel : nat) (reqModel userMsg : string)
    (st : ServerState) (env : World * list Event) (chat : genai.Chat) :
  served_chat (handleOpenAIBuffered os up g fuel reqModel userMsg st env)
  = Some chat ->
  genai.chat_config chat = openAIConfig
  /\ genai.chat_history chat = default [] (sessions st !! "openai-compat").
Proof.
  unfold handleOpenAIBuffered, genai.Chats_Create.
  destruct (mapOpenAIModel g reqModel) as [model|]; [|discriminate].
  destruct (genai.up_Create up _ _ _); [discriminate|].
  unfold genai.SendMessage at 1. cbv beta iota.
  destruct (genai.up_Generate up _ _) as [res|err].
  2:{ intros [= <-]. repeat split. }
  match goal with
  | |- context [iterate ?b ?n ?s0] =>
      pose proof (iterate_invariant b
                    (fun s => chatFor model openAIConfig
                                (default [] (sessions st !! "openai-compat"))
                                (ol_chat s))
                    (openAILoopBody_chatFor _ _ _) n s0
                    (conj eq_refl (conj eq_refl eq_refl))) as Hinv;
      destruct (iterate b n s0); intros [= <-]; exact (proj2 Hinv)
  end.
Qed.

End StoreFacts.

Section Store.

Context {World : Type}.
Variable os : OS World.
Variable up : genai.Upstream.
Variable g : Globals.
Variable rangeModelCosts : nat -> list (string * Rates).

(** What a reply of [handleChat] with a body leaves in the globals. *)
Lemma handleChat_completed (fuel : nat) (req : ChatRequest)
    (st : ServerState) (env : World * list Event) (body : ChatResponse) :
  reply (handleChat os up g rangeModelCosts fuel req st env) = HttpJSON body ->
  exists chat,
    served_chat (handleChat os up g rangeModelCosts fuel req st env)
    = Some chat
    /\ served_state (handleChat os up g rangeModelCosts fuel req st env)
       = {| sessions :=
              <[SessionID (withDefaults req) := genai.up_History up chat]>
                (sessions st);
            totalCost := (totalCost st + Cost body)%float |}
    /\ TotalCost body = (totalCost st + Cost body)%float.
Proof.
  unfold handleChat.
  destruct (genai.Chats_Create _ _ _ _) as [chat|err]; [|discriminate].
  destruct (genai.SendMessage up chat _) as [[res|err] chat'];
    [|discriminate].
  destruct (genai.Response_UsageMetadata res);
    destruct (iterate _ fuel _) as [s|s]; cbn; try discriminate;
    intros [= <-]; exists (cl_chat s); repeat split.
Qed.

Lemma handleOpenAIBuffered_completed (fuel : nat) (reqModel userMsg : string)
    (st : ServerState) (env : World * list Event)
    (body : OpenAIChatResponse) :
  reply (handleOpenAIBuffered os up g fuel reqModel userMsg st env)
  = HttpJSON body ->
  exists chat,
    served_chat (handleOpenAIBuffered os up g fuel reqModel userMsg st env)
    = Some chat
    /\ served_state (handleOpenAIBuffered os up g fuel reqModel userMsg st env)
       = {| sessions :=
              <["openai-compat" := genai.up_History up chat]> (sessions st);
            totalCost := totalCost st |}.
Proof.
  unfold handleOpenAIBuffered.
  destruct (mapOpenAIModel g reqModel) as [model|]; [|discriminate].
  destruct (genai.Chats_Create _ _ _ _) as [chat|err]; [|discriminate].
  destruct (genai.SendMessage up chat _) as [[res|err] chat'];
    [|discriminate].
  destruct (iterate _ fuel _) as [s|s]; cbn; [discriminate|].
  intros _. exists (ol_chat s). split; reflexivity.
Qed.


(** X4: a reply of [handleChat] with a body stores the history the chat
    reports under the request's session id (["default"] when the request
    names none) and leaves every other session as it was; the running
    cost grows by the cost of the request, and the reply reports the new
    total. *)
Theorem completed_turn_is_stored (fuel : nat) (req : ChatRequest)
    (st : ServerState) (env : World * list Event) (body : ChatResponse) :
  let served := handleChat os up g rangeModelCosts fuel req st env in
  let sid := if String.eqb (SessionID req) "" then "default"
             else SessionID req in
  reply served = HttpJSON body ->
  exists chat,
    served_chat served = Some chat
    /\ sessions (served_state served) !! sid
       = Some (genai.up_History up chat)
    /\ (forall other, other <> sid ->
          sessions (served_state served) !! other = sessions st !! other)
    /\ totalCost (served_state served) = (totalCost st + Cost body)%float
    /\ TotalCost body = totalCost (served_state served).
Proof.
  cbv zeta. intros Hreply.
  destruct (handleChat_completed fuel req st env body Hreply)
    as (chat & Hchat & Hst & Htotal).
  exists chat. rewrite Hst. cbn. split; [exact Hchat|].
  split; [apply lookup_insert_eq|].
  split; [|split; [reflexivity | exact Htotal]].
  intros other Hother. now apply lookup_insert_ne.
Qed.

(** X5: the next request on the same session id starts its chat from the
    history that the completed turn stored. *)
Theorem next_request_resumes_history (fuel fuel' : nat)
    (req req' : ChatRequest) (st : ServerState)
    (env env' : World * list Event) (body : ChatResponse)
    (chat chat' : genai.Chat) :
  let served := handleChat os up g rangeModelCosts fuel req st env in
  reply served = HttpJSON body ->
  served_chat served = Some chat ->
  SessionID (withDefaults req') = SessionID (withDefaults req) ->
  served_chat (handleChat os up g rangeModelCosts fuel' req'
                 (served_state served) env') = Some chat' ->
  genai.chat_history chat' = genai.up_History up chat.
Proof.
  cbv zeta. intros Hreply Hchat Hsid Hchat'.
  destruct (handleChat_completed fuel req st env body Hreply)
    as (chat0 & Hchat0 & Hst & _).
  rewrite Hchat in Hchat0. injection Hchat0 as <-.
  destruct (handleChat_chatFor os up g rangeModelCosts fuel' req' _ env'
              chat' Hchat') as (_ & _ & Hh).
  rewrite Hh, Hst, Hsid. cbn. now rewrite lookup_insert_eq.
Qed.

(** X6: [handleReset] keeps the running cost and forgets every session:
    the next chat of either handler, whatever its session id, starts from
    an empty history. *)
Theorem reset_forgets_every_session (fuel : nat) (req : ChatRequest)
    (reqModel userMsg : string) (st : ServerState)
    (env : World * list Event) :
  let st' := (handleReset st).1 in
  totalCost st' = totalCost st
  /\ (forall chat,
        served_chat (handleChat os up g rangeModelCosts fuel req st' env)
        = Some chat -> genai.chat_history chat = [])
  /\ (forall chat,
        served_chat (handleOpenAIBuffered os up g fuel reqModel userMsg
                       st' env) = Some chat ->
        genai.chat_history chat = []).
Proof.
  cbv zeta. split; [reflexivity|]. split.
  - intros chat Hchat.
    destruct (handleChat_chatFor os up g rangeModelCosts fuel req _ env chat
                Hchat) as (_ & _ & Hh).
    rewrite Hh. cbn. now rewrite lookup_empty.
  - intros chat Hchat.
    destruct (handleOpenAIBuffered_chatFor os up g fuel reqModel userMsg _
                env chat Hchat) as (_ & Hh).
    rewrite Hh. cbn. now rewrite lookup_empty.
Qed.

(** X7: every buffered OpenAI request works on the one session
    ["openai-compat"]: a completion stores the chat's history there,
    leaves every other session and the running cost untouched, and the
    next OpenAI request, whatever its model and message, starts from that
    history. *)
Theorem openai_requests_share_one_session (fuel fuel' : nat)
    (reqModel userMsg reqModel' userMsg' : string) (st : ServerState)
    (env env' : World * list Event) (body : OpenAIChatResponse) :
  let served := handleOpenAIBuffered os up g fuel reqModel userMsg st env in
  reply served = HttpJSON body ->
  exists chat,
    served_chat served = Some chat
    /\ sessions (served_state served) !! "openai-compat"
       = Some (genai.up_History up chat)
    /\ (forall other, other <> "openai-compat" ->
          sessions (served_state served) !! other = sessions st !! other)
    /\ totalCost (served_state served) = totalCost st
    /\ (forall chat',
          served_chat (handleOpenAIBuffered os up g fuel' reqModel' userMsg'
                         (served_state served) env') = Some chat' ->
          genai.chat_history chat' = genai.up_History up chat).
Proof.
  cbv zeta. intros Hreply.
  destruct (handleOpenAIBuffered_completed fuel reqModel userMsg st env body
              Hreply) as (chat & Hchat & Hst).
  exists chat. rewrite Hst. cbn. split; [exact Hchat|].
  split; [apply lookup_insert_eq|].
  split; [intros other Hother; now apply lookup_insert_ne|].
  split; [reflexivity|].
  intros chat' Hchat'.
  destruct (handleOpenAIBuffered_chatFor os up g fuel' reqModel' userMsg' _
              env' chat' Hchat') as (_ & Hh).
  rewrite Hh. cbn. now rewrite lookup_insert_eq.
Qed.

End Store.

Lemma completed_turn_is_stored_witness :
  exists chat,
    served_chat (handleChat Stub.memOS Stub.plain Stub.globals
                   (fun _ => Stub.tableOrder) 1 Stub.nativeHi Stub.freshState
                   (Stub.projectFiles, [])) = Some chat
    /\ sessions (served_state
                   (handleChat Stub.memOS Stub.plain Stub.globals
                      (fun _ => Stub.tableOrder) 1 Stub.nativeHi
                      Stub.freshState (Stub.projectFiles, []))) !! "s1"
       = Some (genai.up_History Stub.plain chat).
Proof.
  pose proof (completed_turn_is_stored Stub.memOS Stub.plain Stub.globals
                (fun _ => Stub.tableOrder) 1 Stub.nativeHi Stub.freshState
                (Stub.projectFiles, [])) as H.
  cbv zeta in H.
  edestruct H as (chat & H1 & H2 & _); [vm_compute; reflexivity|].
  exists chat. split; [exact H1 | exact H2].
Defined.

Lemma next_request_resumes_history_witness :
  match
    served_chat (handleChat Stub.memOS Stub.plain Stub.globals
                   (fun _ => Stub.tableOrder) 1 Stub.nativeHi Stub.freshState
                   (Stub.projectFiles, [])),
    served_chat (handleChat Stub.memOS Stub.plain Stub.globals
                   (fun _ => Stub.tableOrder) 1 Stub.nativeHi
                   (served_state
                      (handleChat Stub.memOS Stub.plain Stub.globals
                         (fun _ => Stub.tableOrder) 1 Stub.nativeHi
                         Stub.freshState (Stub.projectFiles, [])))
                   (Stub.projectFiles, []))
  with
  | Some chat, Some chat' =>
      genai.chat_history chat' = genai.up_History Stub.plain chat
  | _, _ => False
  end.
Proof.
  destruct (served_chat (handleChat _ _ _ _ 1 Stub.nativeHi Stub.freshState _))
    as [chat|] eqn:E1; [|vm_compute in E1; discriminate E1].
  destruct (served_chat (handleChat _ _ _ _ 1 Stub.nativeHi
                           (served_state _) _))
    as [chat'|] eqn:E2; [|vm_compute in E2; discriminate E2].
  eapply (next_request_resumes_history Stub.memOS Stub.plain Stub.globals
            (fun _ => Stub.tableOrder) 1 1 Stub.nativeHi Stub.nativeHi
            Stub.freshState (Stub.projectFiles, []) (Stub.projectFiles, [])).
  - vm_compute. reflexivity.
  - exact E1.
  - reflexivity.
  - exact E2.
Defined.

Lemma openai_requests_share_one_session_witness :
  exists chat,
    served_chat (handleOpenAIBuffered Stub.memOS Stub.plain Stub.globals 1
                   "gpt-4" "hi" Stub.freshState (Stub.projectFiles, []))
    = Some chat
    /\ totalCost (served_state
                    (handleOpenAIBuffered Stub.memOS Stub.plain Stub.globals 1
                       "gpt-4" "hi" Stub.freshState (Stub.projectFiles, [])))
       = 0%float.
Proof.
  pose proof (openai_requests_share_one_session Stub.memOS Stub.plain
                Stub.globals 1 1 "gpt-4" "hi" "gemini-1.5-pro" "again"
                Stub.freshState (Stub.projectFiles, [])
                (Stub.projectFiles, [])) as H.
  cbv zeta in H.
  edestruct H as (chat & H1 & _ & _ & H4 & _); [vm_compute; reflexivity|].
  exists chat. split; [exact H1 | exact H4].
Defined.

(** ** Tool dispatch *)

Lemma executeCalls_names {World : Type} (os : OS World) (g : Globals)
    (calls : list genai.FunctionCall) (env : World * list Event) :
  map responseName (executeCalls os g calls env).1 = map genai.Name calls.
Proof.
  revert env. induction calls as [|fc rest IH]; intros env; [reflexivity|].
  cbn [executeCalls]. unfold bind at 1.
  destruct (dispatch os g fc env) as [r env1]. unfold bind at 1.
  specialize (IH env1).
  destruct (executeCalls os g rest env1) as [rs env2]. cbn in *.
  now rewrite IH.
Qed.

(** X8: the function calls of a response are answered one for one and in
    order: the message of tool results holds, for every call, a
    function-response part under the call's name and nothing else; and a
    call of a name that is none of the three tools is answered with the
    error "unknown tool" without any [os] call. *)
Theorem every_call_gets_one_response {World : Type} (os : OS World)
    (g : Globals) (calls : list genai.FunctionCall)
    (env : World * list Event) :
  map (fun p => (genai.Text p, genai.Part_FunctionCall p,
                 option_map genai.ResponseName (genai.Part_FunctionResponse p)))
    (executeCalls os g calls env).1
  = map (fun fc => ("", None, Some (genai.Name fc))) calls
  /\ forall fc,
       genai.Name fc <> "list_files" -> genai.Name fc <> "read_file" ->
       genai.Name fc <> "write_file" ->
       executeCalls os g [fc] env
       = ([genai.FunctionResponsePart (genai.Name fc)
             (TRError "unknown tool")], env).
Proof.
  split.
  - revert env. induction calls as [|fc rest IH]; intros env; [reflexivity|].
    cbn [executeCalls]. unfold bind at 1.
    destruct (dispatch os g fc env) as [r env1]. unfold bind at 1.
    specialize (IH env1).
    destruct (executeCalls os g rest env1) as [rs env2]. cbn in *.
    now rewrite IH.
  - intros fc H1 H2 H3. cbn [executeCalls]. unfold bind, dispatch, ret.
    apply String.eqb_neq in H1, H2, H3. now rewrite H1, H2, H3.
Qed.

Section ToolLog.

Context {World : Type}.
Variable os : OS World.
Variable up : genai.Upstream.
Variable g : Globals.
Variable rangeModelCosts : nat -> list (string * Rates).

Lemma toolResultsSent_SendMessage (chat : genai.Chat)
    (parts : list genai.Part) :
  genai.chat_sent chat <> [] ->
  toolResultsSent (genai.SendMessage up chat parts).2
  = (toolResultsSent chat ++ parts)%list.
Proof.
  intros Hne. unfold toolResultsSent. cbn.
  destruct (genai.chat_sent chat) as [|m ms]; [contradiction|]. cbn.
  rewrite !drop_0, concat_app. cbn. now rewrite app_nil_r.
Qed.

Lemma chatLoopBody_toolLogs (model : string) (s : ChatLoop) :
  genai.chat_sent (cl_chat s) <> []
  /\ cl_toolLogs s
     = map (fun p => toolLog (responseName p)) (toolResultsSent (cl_chat s)) ->
  match chatLoopBody os up g rangeModelCosts model s with
  | Continue s' | Break s' =>
      genai.chat_sent (cl_chat s') <> []
      /\ cl_toolLogs s'
         = map (fun p => toolLog (responseName p))
             (toolResultsSent (cl_chat s'))
  end.
Proof.
  intros [Hne Hlog]. unfold chatLoopBody.
  destruct (genai.Candidates (cl_res s)) as [|c cs]; [now split|].
  destruct (genai.Candidate_Content c); [|now split].
  destruct (genai.FunctionCalls (cl_res s)) as [|fc fcs]; [now split|].
  pose proof (executeCalls_names os g (fc :: fcs) (cl_env s)) as Hnames.
  destruct (executeCalls os g (fc :: fcs) (cl_env s)) as [resp env].
  pose proof (toolResultsSent_SendMessage (cl_chat s) resp Hne) as Hsent.
  assert (Hne' : genai.chat_sent (genai.SendMessage up (cl_chat s) resp).2
                 <> []).
  { cbn. now destruct (genai.chat_sent (cl_chat s)). }
  destruct (genai.SendMessage up (cl_chat s) resp) as [r chat].
  cbn [snd fst] in *.
  assert (Hgoal : (cl_toolLogs s
                   ++ map (fun fc0 => toolLog (genai.Name fc0)) (fc :: fcs))%list
                  = map (fun p => toolLog (responseName p))
                      (toolResultsSent chat)).
  { rewrite Hsent, map_app, <- Hlog. f_equal.
    rewrite <- (map_map responseName toolLog), Hnames.
    now rewrite map_map. }
  destruct r as [res'|err]; [|now split].
  destruct (genai.Response_UsageMetadata res'); now split.
Qed.

(** X9: the [tool_calls] of a reply of [handleChat] are the tool results
    that went upstream, one "Executed: name" for each function-response
    part, in the order they were sent. *)
Theorem reported_tools_are_the_results_sent (fuel : nat) (req : ChatRequest)
    (st : ServerState) (env : World * list Event) (body : ChatResponse)
    (chat : genai.Chat) :
  let served := handleChat os up g rangeModelCosts fuel req st env in
  reply served = HttpJSON body ->
  served_chat served = Some chat ->
  ToolCalls body
  = map (fun p => "Executed: " ++ responseName p) (toolResultsSent chat).
Proof.
  cbv zeta. unfold handleChat, genai.Chats_Create.
  destruct (genai.up_Create up _ _ _); [discriminate|].
  unfold genai.SendMessage. cbv beta iota.
  destruct (genai.up_Generate up _ _) as [res|err]; [|discriminate].
  destruct (genai.Response_UsageMetadata res);
    match goal with
    | |- context [iterate ?b ?n ?s0] =>
        pose proof (iterate_invariant b
                      (fun s => genai.chat_sent (cl_chat s) <> []
                                /\ cl_toolLogs s
                                   = map (fun p => toolLog (responseName p))
                                       (toolResultsSent (cl_chat s)))
                      (chatLoopBody_toolLogs _) n s0) as Hinv;
        destruct (iterate b n s0) as [s|s]; [discriminate|];
        cbn; intros [= <-] [= <-]; cbn; apply Hinv; split;
        [discriminate | reflexivity]
    end.
Qed.

End ToolLog.

Lemma reported_tools_are_the_results_sent_witness :
  match
    reply (handleChat Stub.memOS Stub.twoRounds Stub.globals
             (fun _ => Stub.tableOrder) 3 Stub.emptyMessage Stub.freshState
             (Stub.projectFiles, [])),
    served_chat (handleChat Stub.memOS Stub.twoRounds Stub.globals
                   (fun _ => Stub.tableOrder) 3 Stub.emptyMessage
                   Stub.freshState (Stub.projectFiles, []))
  with
  | HttpJSON body, Some chat =>
      ToolCalls body = ["Executed: read_file"; "Executed: list_files"]
      /\ ToolCalls body
         = map (fun p => "Executed: " ++ responseName p)
             (toolResultsSent chat)
  | _, _ => False
  end.
Proof.
  destruct (reply _) as [| body | |] eqn:E1;
    try (vm_compute in E1; discriminate E1).
  destruct (served_chat _) as [chat|] eqn:E2;
    [|vm_compute in E2; discriminate E2].
  split.
  - vm_compute in E1. injection E1 as <-. reflexivity.
  - exact (reported_tools_are_the_results_sent Stub.memOS Stub.twoRounds
             Stub.globals (fun _ => Stub.tableOrder) 3 Stub.emptyMessage
             Stub.freshState (Stub.projectFiles, []) body chat E1 E2).
Defined.

(** ** Writing, and reading back *)

(** X10: on a path that passes the root test, when the directory can be
    made, the file written, and the file system then reports the file
    with the size and the content just written, [toolWriteFile] answers
    with the client's path and the length of the content, and
    [toolReadFile] on the same path returns that content if it is at most
    1000000 bytes long, and "File too large" otherwise: the tool writes
    files that it will not read back. *)
Theorem written_file_reads_back {World : Type} (os : OS World) (g : Globals)
    (relPath content : string) (w w1 w2 : World) (tr : list Event) :
  let p := resolve g relPath in
  let n := Z.of_nat (String.length content) in
  strings.HasPrefix p (projectRoot g) = true ->
  os_MkdirAll os (filepath.Dir p) w = (None, w1) ->
  os_WriteFile os p content w1 = (None, w2) ->
  os_Stat os p w2 = inl {| Size := n |} ->
  os_ReadFile os p w2 = inl content ->
  (toolWriteFile os g relPath content (w, tr)).1 = TRWritten relPath n
  /\ (toolReadFile os g relPath
        (toolWriteFile os g relPath content (w, tr)).2).1
     = (if n <=? 1000000 then TRContent content
        else TRError "File too large").
Proof.
  intros p n Hpre Hmk Hwr Hstat Hread.
  unfold toolWriteFile, toolReadFile. fold (resolve g relPath). fold p.
  rewrite Hpre. cbn [negb].
  unfold bind, MkdirAll, WriteFile, logMsg, emit, Stat, ReadFile, ret.
  rewrite Hmk, Hwr. cbn [fst snd]. split; [reflexivity|].
  rewrite Hstat. cbn [Size].
  destruct (Z.leb_spec n 1000000) as [Hle|Hgt].
  - replace (1000000 <? n) with false by (symmetry; lia).
    now rewrite Hread.
  - now replace (1000000 <? n) with true by (symmetry; lia).
Qed.

Lemma written_file_reads_back_witness :
  (toolReadFile Stub.memOS Stub.globals "out/report.txt"
     (toolWriteFile Stub.memOS Stub.globals "out/report.txt" "x = 1"
        (Stub.projectFiles, [])).2).1
  = TRContent "x = 1".
Proof.
  apply (written_file_reads_back Stub.memOS Stub.globals "out/report.txt"
           "x = 1" Stub.projectFiles Stub.projectFiles
           (<["/srv/project/out/report.txt" := "x = 1"]> Stub.projectFiles)
           []).
  - reflexivity.
  - reflexivity.
  - reflexivity.
  - vm_compute. reflexivity.
  - vm_compute. reflexivity.
Defined.


(** ** The resolved path *)

Lemma split_no_separator (s : string) :
  Forall (fun e => filepath.hasSeparator e = false) (filepath.split s).
Proof.
  induction s as [|c s IH]; cbn.
  - repeat constructor.
  - destruct (Ascii.eqb c "/") eqn:Hc.
    + constructor; [reflexivity | exact IH].
    + destruct (filepath.split s) as [|e rest].
      * constructor; [cbn; now rewrite Hc | constructor].
      * inversion IH as [|? ? He Hrest]; subst.
        constructor; [cbn; now rewrite Hc, He | exact Hrest].
Qed.

Lemma cleanStep_rooted_real (out : list string) (e : string) :
  Forall realElement out ->
  filepath.hasSeparator e = false ->
  Forall realElement (filepath.cleanStep true out e).
Proof.
  intros Hout He. unfold filepath.cleanStep.
  destruct (String.eqb e "") eqn:E1; [exact Hout|].
  destruct (String.eqb e ".") eqn:E2; [exact Hout|]. cbn [orb].
  destruct (String.eqb e "..") eqn:E3.
  - destruct out as [|top below]; [exact Hout|].
    destruct (String.eqb top ".."); [exact Hout|].
    now inversion Hout.
  - constructor; [|exact Hout].
    apply String.eqb_neq in E1, E2, E3. repeat split; assumption.
Qed.

Lemma cleanElems_rooted_real (elems : list string) :
  Forall (fun e => filepath.hasSeparator e = false) elems ->
  Forall realElement (filepath.cleanElems true elems).
Proof.
  intros Helems. unfold filepath.cleanElems.
  assert (H : forall out, Forall realElement out ->
                          Forall realElement
                            (fold_left (filepath.cleanStep true) elems out)).
  { induction Helems as [|e rest He Hrest IH]; intros out Hout; cbn.
    - exact Hout.
    - apply IH. now apply cleanStep_rooted_real. }
  apply Forall_rev, H. constructor.
Qed.

Lemma HasPrefix_slash (s : string) :
  strings.HasPrefix (String "/" s) "/" = true.
Proof.
  unfold strings.HasPrefix, String.prefix.
  destruct (Ascii.ascii_dec "/" "/"); [now destruct s | contradiction].
Qed.

(** X12: when the project root is an absolute path, the path the tools
    resolve for any client path is a separator followed by elements
    joined by separators, none of which is empty, [.] or [..] or holds a
    separator: no [..] ever reaches the [os] calls. *)
Theorem resolved_path_is_normalised (g : Globals) (relPath : string) :
  strings.HasPrefix (projectRoot g) "/" = true ->
  exists elems,
    resolve g relPath = "/" ++ strings.Join elems "/"
    /\ Forall realElement elems.
Proof.
  intros Hroot. unfold resolve, filepath.Join, strings.HasPrefix in *.
  destruct (projectRoot g) as [|c root]; [discriminate|].
  unfold String.prefix in Hroot.
  destruct (Ascii.ascii_dec "/" c) as [<-|]; [|discriminate].
  cbn [String.eqb]. replace (Ascii.eqb "/" "/") with true by reflexivity.
  cbn [strings.Join].
  set (path := String "/" root ++ "/" ++ filepath.Clean relPath).
  unfold filepath.Clean.
  replace (String.eqb path "") with false by reflexivity.
  replace (strings.HasPrefix path "/") with true
    by (symmetry; apply HasPrefix_slash).
  exists (filepath.cleanElems true (filepath.split path)).
  split; [reflexivity|].
  apply cleanElems_rooted_real, split_no_separator.
Qed.

Lemma resolved_path_is_normalised_witness :
  exists elems,
    resolve Stub.globals "a/../../x/./y//z" = "/" ++ strings.Join elems "/"
    /\ Forall realElement elems.
Proof.
  apply (resolved_path_is_normalised Stub.globals "a/../../x/./y//z").
  reflexivity.
Defined.

(** ** Cost, in every order of the table *)

(** Some visited key matches: the lookup finds rates. *)
Lemma findRates_finds (order : list (string * Rates)) (modelName k : string)
    (r : Rates) :
  (k, r) ∈ order -> keyMatches modelName k = true ->
  exists r', findRates order modelName = Some r'.
Proof.
  induction order as [|[k' r'] rest IH]; intros Hin Hk.
  - now apply not_elem_of_nil in Hin.
  - cbn. fold (keyMatches modelName k').
    destruct (keyMatches modelName k') eqn:E; [now exists r'|].
    apply elem_of_cons in Hin. destruct Hin as [[= -> ->] | Hin].
    + congruence.
    + now apply IH.
Qed.

Lemma rangeOrder_elem (order : list (string * Rates)) (k : string)
    (r : Rates) :
  rangeOrder order -> modelCosts !! k = Some r -> (k, r) ∈ order.
Proof.
  unfold rangeOrder. intros Hp Hk. rewrite Hp.
  now apply elem_of_map_to_list.
Qed.

(** X13: when all keys of the table that a model name equals or starts
    with carry the same rates (as when there is one such key, or none),
    [calculateCost] returns the same cost in every order in which the
    table may be visited. *)
Theorem cost_is_determined_when_matching_keys_agree
    (order order' : list (string * Rates)) (modelName : string)
    (resp : genai.GenerateContentResponse) (rates : Rates) :
  rangeOrder order -> rangeOrder order' ->
  (forall k r, modelCosts !! k = Some r -> keyMatches modelName k = true ->
               r = rates) ->
  calculateCost order modelName resp = calculateCost order' modelName resp.
Proof.
  intros Ho Ho' Hagree.
  assert (Hfind : forall o o' r,
            rangeOrder o -> rangeOrder o' ->
            findRates o modelName = Some r ->
            findRates o' modelName = Some r).
  { intros o o' r Hr Hr' Hf.
    destruct (findRates_Some _ _ _ Hf) as (k & Hin & Hk).
    pose proof (rangeOrder_lookup _ _ _ Hr Hin) as Hlk.
    destruct (findRates_finds o' modelName k r
                (rangeOrder_elem _ _ _ Hr' Hlk) Hk) as (r' & Hf').
    destruct (findRates_Some _ _ _ Hf') as (k' & Hin' & Hk').
    pose proof (rangeOrder_lookup _ _ _ Hr' Hin') as Hlk'.
    rewrite Hf'. f_equal.
    now rewrite (Hagree k r Hlk Hk), (Hagree k' r' Hlk' Hk'). }
  unfold calculateCost.
  destruct (findRates order modelName) as [r|] eqn:E.
  - now rewrite (Hfind order order' r Ho Ho' E).
  - destruct (findRates order' modelName) as [r'|] eqn:E'; [|reflexivity].
    rewrite (Hfind order' order r' Ho' Ho E') in E. discriminate.
Qed.

Lemma cost_is_determined_when_matching_keys_agree_witness :
  calculateCost Stub.tableOrder "gemini-1.5-pro-002" Stub.millionEach
  = calculateCost Stub.reverseOrder "gemini-1.5-pro-002" Stub.millionEach.
Proof.
  apply (cost_is_determined_when_matching_keys_agree Stub.tableOrder
           Stub.reverseOrder "gemini-1.5-pro-002" Stub.millionEach
           {| RateIn := 1.25; RateOut := 5.00 |}
           rangeOrder_source rangeOrder_reverse).
  intros k r Hk. apply elem_of_map_to_list in Hk.
  pose proof rangeOrder_source as Hs. unfold rangeOrder in Hs.
  rewrite <- Hs in Hk. unfold modelCostEntries in Hk.
  decompose_list_elem_of; simplify_eq; intros H; (discriminate H || reflexivity).
Defined.

(** X14: a request for a model that no key of the price table equals or
    is a prefix of costs nothing, however many rounds its turn takes and
    in whatever orders the table is visited: the reply reports cost 0. *)
Theorem request_for_unpriced_model_is_free {World : Type} (os : OS World)
    (up : genai.Upstream) (g : Globals)
    (rangeModelCosts : nat -> list (string * Rates)) (fuel : nat)
    (req : ChatRequest) (st : ServerState) (env : World * list Event)
    (body : ChatResponse) :
  (forall n, rangeOrder (rangeModelCosts n)) ->
  (forall k r, modelCosts !! k = Some r ->
               keyMatches (Model (withDefaults req)) k = false) ->
  reply (handleChat os up g rangeModelCosts fuel req st env) = HttpJSON body ->
  Cost body = 0%float.
Proof.
  intros Horders Hnone Hreply.
  pose proof (unpriced_request_costs_nothing os up g rangeModelCosts fuel req
                st env) as H.
  rewrite Hreply in H. apply H. intros n resp.
  now apply calculateCost_no_match.
Qed.

Lemma request_for_unpriced_model_is_free_witness :
  match reply (handleChat Stub.memOS Stub.twoRounds Stub.globals
                 (fun _ => Stub.reverseOrder) 3
                 {| SessionID := ""; Model := "gpt-4"; Message := "hi";
                    CacheID := ""; UseSearch := false; UseAgentic := true |}
                 Stub.freshState (Stub.projectFiles, []))
  with
  | HttpJSON body => Cost body = 0%float
  | _ => False
  end.
Proof.
  assert (Hnone : forall k r, modelCosts !! k = Some r ->
                              keyMatches "gpt-4" k = false).
  { intros k r Hk. apply elem_of_map_to_list in Hk.
    pose proof rangeOrder_source as Hs. unfold rangeOrder in Hs.
    rewrite <- Hs in Hk. unfold modelCostEntries in Hk.
    decompose_list_elem_of; simplify_eq; reflexivity. }
  destruct (reply _) as [| body | |] eqn:E;
    try (vm_compute in E; discriminate E).
  exact (request_for_unpriced_model_is_free Stub.memOS Stub.twoRounds
           Stub.globals (fun _ => Stub.reverseOrder) 3
           {| SessionID := ""; Model := "gpt-4"; Message := "hi";
              CacheID := ""; UseSearch := false; UseAgentic := true |}
           Stub.freshState (Stub.projectFiles, []) body
           (fun _ => rangeOrder_reverse) Hnone E).
Defined.

(** ** The text of a native reply *)



(** ** The message of an OpenAI request *)

Lemma lastUserMessage_fold (messages : list OpenAIMessage) (acc : string) :
  Forall (fun m => Role m <> "user") messages ->
  fold_left
    (fun userMsg msg =>
       if String.eqb (Role msg) "user" then Content msg else userMsg)
    messages acc = acc.
Proof.
  intros H. revert acc. induction H as [|m rest Hm _ IH]; intros acc; cbn.
  - reflexivity.
  - apply String.eqb_neq in Hm. rewrite Hm. apply IH.
Qed.

(** X16: of the messages of an OpenAI request only the last one whose
    role is ["user"] is forwarded: whatever comes before it, and whatever
    messages of other roles come after it, the extracted message is its
    content; a request without a user message yields the empty message. *)
Theorem only_the_last_user_message_counts
    (before after : list OpenAIMessage) (content : string) :
  Forall (fun m => Role m <> "user") after ->
  lastUserMessage
    (before ++ {| Role := "user"; Content := content |} :: after)
  = content
  /\ lastUserMessage after = "".
Proof.
  intros Hafter. unfold lastUserMessage. split.
  - rewrite fold_left_app. cbn. now apply lastUserMessage_fold.
  - now apply lastUserMessage_fold.
Qed.

Lemma only_the_last_user_message_counts_witness :
  lastUserMessage
    ([ {| Role := "system"; Content := "be brief" |};
       {| Role := "user"; Content := "first question" |};
       {| Role := "assistant"; Content := "first answer" |} ]
     ++ {| Role := "user"; Content := "second question" |}
        :: [ {| Role := "assistant"; Content := "draft" |} ])
  = "second question".
Proof.
  apply (only_the_last_user_message_counts
           [ {| Role := "system"; Content := "be brief" |};
             {| Role := "user"; Content := "first question" |};
             {| Role := "assistant"; Content := "first answer" |} ]
           [ {| Role := "assistant"; Content := "draft" |} ]
           "second question").
  repeat constructor. discriminate.
Defined.

(** ** The model listings *)

Lemma listedModels_not_banned (all : list (Result ModelInfo)) (id : string) :
  id ∈ listedModels all -> isBannedListing id = false.
Proof.
  induction all as [|[m|err] rest IH]; cbn.
  - intros H. now apply not_elem_of_nil in H.
  - destruct (supportsGenerate m); [|exact IH].
    destruct (isBannedListing (strings2.TrimPrefix (ModelName m) "models/"))
      eqn:E; [exact IH|].
    intros H. apply elem_of_cons in H. destruct H as [->|H]; [exact E|].
    now apply IH.
  - intros H. now apply not_elem_of_nil in H.
Qed.

(** X17: the list of [handleOpenAIModels] is never empty, and no id that
    it took from the provider's catalogue is one that the chat handlers
    refuse as experimental: the buffered handler does not answer 400 for
    it and the streaming handler writes no error frame for it. *)
Theorem listed_models_are_accepted (g : Globals)
    (all : list (Result ModelInfo)) :
  handleOpenAIModels g all <> []
  /\ forall id, id ∈ listedModels all ->
       mapOpenAIModel g id <> RejectExperimental
       /\ (strings.HasPrefix id "gemini-" = true ->
           mapOpenAIModel g id = UseModel id).
Proof.
  split.
  - unfold handleOpenAIModels. now destruct (listedModels all).
  - intros id Hid. apply listedModels_not_banned in Hid.
    unfold isBannedListing in Hid.
    apply orb_false_elim in Hid. destruct Hid as [Hid H4].
    apply orb_false_elim in Hid. destruct Hid as [Hid H3].
    apply orb_false_elim in Hid. destruct Hid as [Hid H2].
    apply orb_false_elim in Hid. destruct Hid as [_ H1].
    unfold mapOpenAIModel, isBlockedExperimental.
    rewrite H1, H2, H3, H4. cbn [orb].
    destruct (strings.HasPrefix id "gemini-").
    + split; [discriminate | reflexivity].
    + split; [now destruct (String.eqb (cacheModel g) "") | discriminate].
Qed.

(** The catalogue of the stub: experimental and non-generating models
    are left out, and nothing after the iterator's error is listed. *)
Lemma listing_of_the_catalogue :
  handleOpenAIModels Stub.globals Stub.catalogue
  = ["gemini-2.0-flash"; "gemini-1.5-pro"]
  /\ handleOpenAIModels Stub.globals [inr "rpc error"] = ["gemini-2.0-flash"].
Proof. split; reflexivity. Qed.

(** ** The streaming OpenAI handler *)

Lemma iterate_invariant_break {S : Type} (body : S -> Step S)
    (P Q : S -> Prop) :
  (forall s, P s -> match body s with
                    | Continue s' => P s'
                    | Break s' => Q s'
                    end) ->
  forall fuel s,
    P s -> match iterate body fuel s with
           | Continue s' => P s'
           | Break s' => Q s'
           end.
Proof.
  intros Hbody fuel. induction fuel as [|fuel IH]; intros s Hs; cbn.
  - exact Hs.
  - specialize (Hbody s Hs). destruct (body s) as [s'|s'].
    + now apply IH.
    + exact Hbody.
Qed.

Lemma executeCalls_isToolResults {World : Type} (os : OS World) (g : Globals)
    (calls : list genai.FunctionCall) (env : World * list Event) :
  isToolResults (executeCalls os g calls env).1.
Proof.
  revert env. induction calls as [|fc rest IH]; intros env; [constructor|].
  cbn [executeCalls]. unfold bind at 1.
  destruct (dispatch os g fc env) as [r env1]. unfold bind at 1.
  specialize (IH env1).
  destruct (executeCalls os g rest env1) as [rs env2]. cbn in *.
  constructor; [discriminate | exact IH].
Qed.

Lemma executeCalls_length {World : Type} (os : OS World) (g : Globals)
    (calls : list genai.FunctionCall) (env : World * list Event) :
  length (executeCalls os g calls env).1 = length calls.
Proof.
  rewrite <- (length_map responseName), executeCalls_names.
  apply length_map.
Qed.

Section StreamFacts.

Context {World : Type}.
Variable os : OS World.
Variable up : genai.Upstream.
Variable g : Globals.
Variable userMsg : string.

(** While the loop runs: only tool-call frames have been written, one
    for every tool result sent, and the messages sent, with the one about
    to be sent, are those of [streamSent]. *)
Local Abbreviation running :=
  (fun s : StreamLoop =>
     Forall isToolCallFrame (sl_frames s)
     /\ exists rounds,
          Forall isToolResults rounds
          /\ (genai.chat_sent (sl_chat s)
              ++ [[genai.TextPart (sl_currentMsg s)]])%list
             = streamSent userMsg rounds
          /\ length (sl_frames s) = length (concat rounds)).

(** When the loop is left: by [return], after an error frame; or by
    [break], after the content frames of the full response. *)
Local Abbreviation left :=
  (fun s : StreamLoop =>
     exists pre,
       Forall isToolCallFrame pre
       /\ if sl_returned s
          then exists e, sl_frames s = (pre ++ [FrameError e])%list
          else sl_frames s
               = (pre ++ map FrameContent
                           (utf8.runes (sl_fullResponse s)))%list
               /\ exists rounds,
                    Forall isToolResults rounds
                    /\ genai.chat_sent (sl_chat s) = streamSent userMsg rounds
                    /\ length pre = length (concat rounds)).

Lemma streamLoopBody_shape (s : StreamLoop) :
  running s ->
  match streamLoopBody os up g s with
  | Continue s' => running s'
  | Break s' => left s'
  end.
Proof.
  intros (Hframes & rounds & Hrounds & Hsent & Hlen).
  unfold streamLoopBody, genai.SendMessage. cbv beta iota.
  destruct (genai.up_Generate up (sl_chat s) _) as [res|err].
  2:{ exists (sl_frames s). split; [exact Hframes|]. cbn. now exists err. }
  destruct (genai.FunctionCalls res) as [|fc fcs] eqn:Hcalls.
  { exists (sl_frames s). split; [exact Hframes|]. cbn.
    split; [reflexivity|]. exists rounds. repeat split; assumption. }
  pose proof (executeCalls_isToolResults os g (fc :: fcs) (sl_env s)) as Hres.
  pose proof (executeCalls_length os g (fc :: fcs) (sl_env s)) as Hn.
  destruct (executeCalls os g (fc :: fcs) (sl_env s)) as [resp env].
  cbn [fst] in Hres, Hn.
  assert (Htool : Forall isToolCallFrame
                    (sl_frames s
                     ++ map (fun fc0 => FrameToolCall (genai.Name fc0)
                                          (genai.Args fc0)) (fc :: fcs))%list).
  { apply Forall_app. split; [exact Hframes|].
    apply Forall_forall. intros f Hf. apply list_elem_of_fmap in Hf.
    destruct Hf as (c & -> & _). exact I. }
  destruct (genai.up_Generate up _ resp) as [res'|err].
  2:{ eexists. split; [exact Htool|]. cbn. now exists err. }
  split; [exact Htool|]. exists (rounds ++ [resp])%list.
  cbn [sl_frames sl_chat sl_currentMsg genai.chat_sent].
  split; [apply Forall_app; split; [exact Hrounds | now constructor]|].
  split.
  - rewrite Hsent. unfold streamSent. rewrite flat_map_app.
    cbn [flat_map]. rewrite app_nil_r, <- !app_assoc. reflexivity.
  - rewrite length_app, concat_app, length_app, Hlen, length_map.
    cbn [concat]. now rewrite app_nil_r, Hn.
Qed.

Lemma streamLoop_shape (fuel : nat) (chat : genai.Chat) (env : World * list Event) :
  genai.chat_sent chat = [] ->
  match iterate (streamLoopBody os up g) fuel
          {| sl_chat := chat; sl_currentMsg := userMsg;
             sl_fullResponse := ""; sl_frames := []; sl_env := env;
             sl_returned := false |}
  with
  | Continue s' => running s'
  | Break s' => left s'
  end.
Proof.
  intros Hsent.
  apply (iterate_invariant_break (streamLoopBody os up g) running left
           streamLoopBody_shape).
  cbn. split; [constructor|]. exists []. rewrite Hsent.
  repeat split. constructor.
Qed.

End StreamFacts.

Lemma toolcall_frames_do_not_end_in_DONE (frames : list Frame) :
  Forall isToolCallFrame frames -> last frames <> Some FrameDone.
Proof.
  intros Hall Hlast. apply last_Some in Hlast. destruct Hlast as (l & ->).
  apply Forall_app in Hall. destruct Hall as [_ Hd].
  now inversion Hd.
Qed.

Lemma runes_ascii (s : string) :
  Forall (fun c => (nat_of_ascii c < 128)%nat) (list_ascii_of_string s) ->
  utf8.runes s = map (fun c => String c EmptyString) (list_ascii_of_string s).
Proof.
  induction s as [|c s IH]; cbn [list_ascii_of_string]; intros H.
  - reflexivity.
  - inversion H as [|? ? Hc Hs]; subst. cbn [utf8.runes map].
    unfold utf8.lead. apply Nat.ltb_lt in Hc. rewrite Hc.
    now rewrite (IH Hs).
Qed.

Lemma runes_join_or_replacement (s : string) :
  fold_right String.append "" (utf8.runes s) = s
  \/ In utf8.replacement (utf8.runes s).
Proof.
  remember (String.length s) as n eqn:Hn.
  revert s Hn. induction n as [n IH] using lt_wf_ind. intros s Hn.
  destruct s as [|b0 rest]; [now left|].
  assert (Hrest : forall r, (String.length r < n)%nat ->
            fold_right String.append "" (utf8.runes r) = r
            \/ In utf8.replacement (utf8.runes r))
    by (intros r Hr; exact (IH _ Hr r eq_refl)).
  cbn [String.length] in Hn.
  cbn [utf8.runes].
  destruct (utf8.lead b0) as [k [lo hi]].
  destruct k as [|[|[|[|[|k]]]]]; try (right; now left).
  - destruct (Hrest rest ltac:(lia)) as [H|H].
    + left. cbn. now rewrite H.
    + right. now right.
  - destruct rest as [|b1 r1]; [right; now left|].
    destruct (utf8.between lo hi b1); [|right; now left].
    cbn [String.length] in Hn.
    destruct (Hrest r1 ltac:(lia)) as [H|H].
    + left. cbn. now rewrite H.
    + right. now right.
  - destruct rest as [|b1 [|b2 r2]]; try (right; now left).
    destruct (_ && _); [|right; now left].
    cbn [String.length] in Hn.
    destruct (Hrest r2 ltac:(lia)) as [H|H].
    + left. cbn. now rewrite H.
    + right. now right.
  - destruct rest as [|b1 [|b2 [|b3 r3]]]; try (right; now left).
    destruct (_ && _); [|right; now left].
    cbn [String.length] in Hn.
    destruct (Hrest r3 ltac:(lia)) as [H|H].
    + left. cbn. now rewrite H.
    + right. now right.
Qed.

(** The loop of the handler in the goal, by how it stands after the
    fuel: its invariant as [Hshape], its state as [s]. *)
Ltac stream_loop_cases Hshape s :=
  match goal with
  | |- context [iterate (streamLoopBody ?os ?up ?g) ?fuel ?s0] =>
      match s0 with
      | {| sl_currentMsg := ?userMsg; sl_env := ?env |} =>
          pose proof (streamLoop_shape os up g userMsg fuel (sl_chat s0) env
                        eq_refl) as Hshape;
          cbn [sl_chat] in Hshape;
          destruct (iterate (streamLoopBody os up g) fuel s0) as [s|s]
      end
  end.

(** X18: the frames of [handleOpenAIStream] come in one of four shapes.
    When the writer cannot flush, there is no frame and a 500.  While the
    loop runs, only tool-call frames have been written.  When the turn
    completes, the frames are tool-call frames, then the content frames
    of the full response, one for every character, then the closing
    frame, once and last, and the chat's history is stored under
    ["openai-stream"].  Otherwise the last frame is an error frame, after
    tool-call frames only, there is no closing frame, and sessions and
    cost are as they were. *)
Theorem stream_ends_in_DONE_or_in_an_error {World : Type} (os : OS World)
    (up : genai.Upstream) (g : Globals) (canFlush : bool) (fuel : nat)
    (userMsg reqModel : string) (st : ServerState)
    (env : World * list Event) :
  let out :=
    handleOpenAIStream os up g canFlush fuel userMsg reqModel st env in
  match st_status out with
  | Some status =>
      status = ("Streaming not supported", 500)
      /\ st_frames out = [] /\ st_state out = st
  | None =>
      if st_pending out
      then Forall isToolCallFrame (st_frames out) /\ st_state out = st
      else
        (exists pre,
           Forall isToolCallFrame pre
           /\ st_frames out
              = (pre ++ map FrameContent (utf8.runes (st_fullResponse out))
                 ++ [FrameDone])%list
           /\ exists chat,
                st_chat out = Some chat
                /\ sessions (st_state out) !! "openai-stream"
                   = Some (genai.up_History up chat)
                /\ totalCost (st_state out) = totalCost st)
        \/ (exists pre e,
              Forall isToolCallFrame pre
              /\ st_frames out = (pre ++ [FrameError e])%list
              /\ st_state out = st)
  end.
Proof.
  cbv zeta. unfold handleOpenAIStream, genai.Chats_Create.
  destruct (mapOpenAIModel g reqModel) as [model|].
  2:{ cbn. right. exists [], "Experimental models are not allowed".
      repeat split. constructor. }
  destruct canFlush; cbn [negb]; [|cbn; repeat split].
  destruct (genai.up_Create up _ _ _) as [err|].
  { cbn. right. exists [], err. repeat split. constructor. }
  stream_loop_cases Hshape s.
  - destruct Hshape as [Hframes _]. cbn. now split.
  - destruct Hshape as (pre & Hpre & Hshape).
    destruct (sl_returned s); cbn.
    + destruct Hshape as (e & He). right. exists pre, e. now repeat split.
    + destruct Hshape as (Hfr & _). left. exists pre.
      split; [exact Hpre|]. split; [now rewrite Hfr, <- app_assoc|].
      exists (sl_chat s). split; [reflexivity|].
      split; [apply lookup_insert_eq | reflexivity].
Qed.

(** X19: when the stream ends with the closing frame, the messages that
    went upstream are the user's message and, for every round of tools,
    the message of tool results followed by a text message with no text:
    the provider's answer to the tool results is not used, and a turn
    with [k] rounds costs [2k + 1] calls.  There is one tool-call frame
    for every tool result sent. *)
Theorem stream_sends_a_blank_message_after_every_round {World : Type}
    (os : OS World) (up : genai.Upstream) (g : Globals) (canFlush : bool)
    (fuel : nat) (userMsg reqModel : string) (st : ServerState)
    (env : World * list Event) :
  let out :=
    handleOpenAIStream os up g canFlush fuel userMsg reqModel st env in
  last (st_frames out) = Some FrameDone ->
  exists chat rounds pre,
    st_chat out = Some chat
    /\ genai.chat_sent chat = streamSent userMsg rounds
    /\ length (genai.chat_sent chat) = (2 * length rounds + 1)%nat
    /\ Forall isToolResults rounds
    /\ st_frames out
       = (pre ++ map FrameContent (utf8.runes (st_fullResponse out))
          ++ [FrameDone])%list
    /\ Forall isToolCallFrame pre
    /\ length pre = length (concat rounds).
Proof.
  cbv zeta. unfold handleOpenAIStream, genai.Chats_Create.
  destruct (mapOpenAIModel g reqModel) as [model|]; [|discriminate].
  destruct canFlush; cbn [negb]; [|discriminate].
  destruct (genai.up_Create up _ _ _) as [err|]; [discriminate|].
  stream_loop_cases Hshape s.
  - destruct Hshape as [Hframes _]. cbn. intros Hlast.
    now apply toolcall_frames_do_not_end_in_DONE in Hlast.
  - destruct Hshape as (pre & Hpre & Hshape).
    destruct (sl_returned s); cbn.
    + destruct Hshape as (e & ->). rewrite last_snoc. discriminate.
    + destruct Hshape as (Hfr & rounds & Hrounds & Hsent & Hlen).
      intros _. exists (sl_chat s), rounds, pre. split; [reflexivity|].
      split; [exact Hsent|]. split.
      { rewrite Hsent. unfold streamSent. cbn [length]. f_equal.
        clear. induction rounds as [|a l IHl]; cbn in *; lia. }
      split; [exact Hrounds|].
      split; [now rewrite Hfr, <- app_assoc|].
      now split.
Qed.

Lemma stream_sends_a_blank_message_after_every_round_witness :
  last (st_frames (handleOpenAIStream Stub.memOS Stub.oneRound Stub.globals
                     true 5 "hi" "gpt-4" Stub.freshState
                     (Stub.projectFiles, []))) = Some FrameDone
  /\ exists chat rounds pre,
       st_chat (handleOpenAIStream Stub.memOS Stub.oneRound Stub.globals
                  true 5 "hi" "gpt-4" Stub.freshState
                  (Stub.projectFiles, [])) = Some chat
       /\ genai.chat_sent chat = streamSent "hi" rounds
       /\ length (genai.chat_sent chat) = (2 * length rounds + 1)%nat
       /\ Forall isToolResults rounds
       /\ st_frames (handleOpenAIStream Stub.memOS Stub.oneRound Stub.globals
                       true 5 "hi" "gpt-4" Stub.freshState
                       (Stub.projectFiles, []))
          = (pre ++ map FrameContent
                      (utf8.runes
                         (st_fullResponse
                            (handleOpenAIStream Stub.memOS Stub.oneRound
                               Stub.globals true 5 "hi" "gpt-4"
                               Stub.freshState (Stub.projectFiles, []))))
             ++ [FrameDone])%list
       /\ Forall isToolCallFrame pre
       /\ length pre = length (concat rounds).
Proof.
  split; [vm_compute; reflexivity|].
  apply (stream_sends_a_blank_message_after_every_round Stub.memOS
           Stub.oneRound Stub.globals true 5 "hi" "gpt-4" Stub.freshState
           (Stub.projectFiles, [])).
  vm_compute; reflexivity.
Defined.

(** X20: when the stream ends with the closing frame, the content frames
    spell the full response: joined in order they are the response, unless
    one of them is the replacement character, which happens only for a
    response that is not well-formed UTF-8.  A response of ASCII bytes is
    sent one byte per frame. *)
Theorem stream_content_frames_spell_the_answer {World : Type}
    (os : OS World) (up : genai.Upstream) (g : Globals) (canFlush : bool)
    (fuel : nat) (userMsg reqModel : string) (st : ServerState)
    (env : World * list Event) :
  let out :=
    handleOpenAIStream os up g canFlush fuel userMsg reqModel st env in
  last (st_frames out) = Some FrameDone ->
  exists pre pieces,
    Forall isToolCallFrame pre
    /\ st_frames out = (pre ++ map FrameContent pieces ++ [FrameDone])%list
    /\ (fold_right String.append "" pieces = st_fullResponse out
        \/ In utf8.replacement pieces)
    /\ (Forall (fun c => (nat_of_ascii c < 128)%nat)
          (list_ascii_of_string (st_fullResponse out)) ->
        pieces = map (fun c => String c "")
                   (list_ascii_of_string (st_fullResponse out))).
Proof.
  cbv zeta. unfold handleOpenAIStream, genai.Chats_Create.
  destruct (mapOpenAIModel g reqModel) as [model|]; [|discriminate].
  destruct canFlush; cbn [negb]; [|discriminate].
  destruct (genai.up_Create up _ _ _) as [err|]; [discriminate|].
  stream_loop_cases Hshape s.
  - destruct Hshape as [Hframes _]. cbn. intros Hlast.
    now apply toolcall_frames_do_not_end_in_DONE in Hlast.
  - destruct Hshape as (pre & Hpre & Hshape).
    destruct (sl_returned s); cbn.
    + destruct Hshape as (e & ->). rewrite last_snoc. discriminate.
    + destruct Hshape as (Hfr & _). intros _.
      exists pre, (utf8.runes (sl_fullResponse s)).
      split; [exact Hpre|]. split; [now rewrite Hfr, <- app_assoc|].
      split; [apply runes_join_or_replacement | apply runes_ascii].
Qed.

Lemma stream_content_frames_spell_the_answer_witness :
  last (st_frames (handleOpenAIStream Stub.memOS Stub.oneRound Stub.globals
                     true 5 "hi" "gpt-4" Stub.freshState
                     (Stub.projectFiles, []))) = Some FrameDone
  /\ exists pre pieces,
       Forall isToolCallFrame pre
       /\ st_frames (handleOpenAIStream Stub.memOS Stub.oneRound Stub.globals
                       true 5 "hi" "gpt-4" Stub.freshState
                       (Stub.projectFiles, []))
          = (pre ++ map FrameContent pieces ++ [FrameDone])%list
       /\ (fold_right String.append "" pieces
           = st_fullResponse
               (handleOpenAIStream Stub.memOS Stub.oneRound Stub.globals
                  true 5 "hi" "gpt-4" Stub.freshState
                  (Stub.projectFiles, []))
           \/ In utf8.replacement pieces)
       /\ (Forall (fun c => (nat_of_ascii c < 128)%nat)
             (list_ascii_of_string
                (st_fullResponse
                   (handleOpenAIStream Stub.memOS Stub.oneRound Stub.globals
                      true 5 "hi" "gpt-4" Stub.freshState
                      (Stub.projectFiles, [])))) ->
           pieces
           = map (fun c => String c "")
               (list_ascii_of_string
                  (st_fullResponse
                     (handleOpenAIStream Stub.memOS Stub.oneRound
                        Stub.globals true 5 "hi" "gpt-4" Stub.freshState
                        (Stub.projectFiles, []))))).
Proof.
  split; [vm_compute; reflexivity|].
  apply (stream_content_frames_spell_the_answer Stub.memOS Stub.oneRound
           Stub.globals true 5 "hi" "gpt-4" Stub.freshState
           (Stub.projectFiles, [])).
  vm_compute; reflexivity.
Defined.

(** ** The price labels of [handleModels] *)

Lemma prefix_trans (a b c : string) :
  String.prefix a b = true -> String.prefix b c = true ->
  String.prefix a c = true.
Proof.
  revert b c. induction a as [|x a IH]; intros b c Hab Hbc;
    [now destruct c|].
  destruct b as [|y b]; [discriminate|].
  destruct c as [|z c]; [discriminate|].
  cbn in *.
  destruct (Ascii.ascii_dec x y) as [->|]; [|discriminate].
  destruct (Ascii.ascii_dec y z) as [->|]; [|discriminate].
  destruct (Ascii.ascii_dec z z); [|congruence].
  now apply (IH b c).
Qed.

(** What a prefix of a name contains, the name contains. *)
Lemma prefix_Contains (k id sub : string) :
  String.prefix k id = true -> strings.Contains k sub = true ->
  strings.Contains id sub = true.
Proof.
  revert id. induction k as [|x k IH]; intros id Hpre Hk.
  - cbn in Hk. rewrite orb_false_r in Hk. destruct sub; [|discriminate].
    destruct id; reflexivity.
  - destruct id as [|y id]; [discriminate|].
    cbn [strings.Contains] in Hk |- *.
    apply orb_true_iff in Hk. destruct Hk as [Hk|Hk].
    + apply orb_true_iff. left. exact (prefix_trans _ _ _ Hk Hpre).
    + apply orb_true_iff. right. apply IH; [|exact Hk].
      cbn in Hpre. now destruct (Ascii.ascii_dec x y).
Qed.

Lemma keyMatches_prefix (id k : string) :
  keyMatches id k = true -> String.prefix k id = true.
Proof.
  unfold keyMatches, strings.HasPrefix. intros H.
  apply orb_true_iff in H. destruct H as [H|H]; [|exact H].
  apply String.eqb_eq in H. subst. clear.
  induction k as [|x k IH]; [reflexivity|].
  cbn. now destruct (Ascii.ascii_dec x x).
Qed.

(** The free entries of the price table are keys that contain [-exp]. *)
Lemma free_rates_are_experimental (k : string) (r : Rates) :
  modelCosts !! k = Some r ->
  PrimFloat.eqb (RateIn r) 0 && PrimFloat.eqb (RateOut r) 0 = true ->
  strings.Contains k "-exp" = true.
Proof.
  intros Hk Hfree.
  apply elem_of_list_to_map_2 in Hk.
  unfold modelCostEntries in Hk.
  repeat (apply elem_of_cons in Hk; destruct Hk as [[= -> ->]|Hk];
          [first [reflexivity | vm_compute in Hfree; discriminate Hfree]|]).
  now apply not_elem_of_nil in Hk.
Qed.

Lemma costLabel_not_free (order : list (string * Rates)) (id : string) :
  rangeOrder order -> isBannedListing id = false ->
  costLabel order id <> PriceFree
  /\ (costLabel order id = PriceVariable
      <-> forall k r, modelCosts !! k = Some r -> keyMatches id k = false).
Proof.
  intros Horder Hid. unfold costLabel.
  destruct (findRates order id) as [rates|] eqn:E.
  - apply findRates_Some in E. destruct E as (k & Hin & Hk).
    pose proof (rangeOrder_lookup _ _ _ Horder Hin) as Hlook.
    destruct (PrimFloat.eqb (RateIn rates) 0 && PrimFloat.eqb (RateOut rates) 0)
      eqn:Hfree.
    + exfalso.
      pose proof (free_rates_are_experimental _ _ Hlook Hfree) as Hexp.
      pose proof (prefix_Contains _ _ _ (keyMatches_prefix _ _ Hk) Hexp) as Hc.
      unfold isBannedListing in Hid. rewrite Hc in Hid.
      now rewrite orb_true_r in Hid.
    + split; [discriminate|]. split; [discriminate|].
      intros Hnone. specialize (Hnone _ _ Hlook).
      unfold keyMatches in Hnone. congruence.
  - split; [discriminate|]. split; [|reflexivity]. intros _ k r Hlook.
    destruct (keyMatches id k) eqn:Hk; [|reflexivity].
    destruct (findRates_finds order id k r
                (rangeOrder_elem _ _ _ Horder Hlook) Hk) as (r' & Hr').
    congruence.
Qed.

(** X21: [handleModels] lists the ids that [handleOpenAIModels] takes from
    the catalogue, each under its id as name, and never labels one
    ["Price: Free (Beta)"]: the free entries of the price table are keys
    with [-exp], and an id that starts with one of them is not listed.
    The label is ["Price: Variable"] exactly when no key of the table
    equals the id or is a prefix of it. *)
Theorem handleModels_never_labels_free (orders : nat -> list (string * Rates))
    (all : list (Result ModelInfo)) :
  (forall i, rangeOrder (orders i)) ->
  map md_ID (handleModels orders all) = listedModels all
  /\ Forall
       (fun md =>
          md_Name md = md_ID md
          /\ md_Cost md <> PriceFree
          /\ (md_Cost md = PriceVariable
              <-> forall k r, modelCosts !! k = Some r ->
                              keyMatches (md_ID md) k = false))
       (handleModels orders all).
Proof.
  intros Horders. unfold handleModels. generalize 0%nat.
  induction all as [|[m|err] rest IH]; intros i; cbn [modelsLoop listedModels].
  - split; [reflexivity | constructor].
  - destruct (supportsGenerate m); [|apply IH].
    destruct (isBannedListing (strings2.TrimPrefix (ModelName m) "models/"))
      eqn:Hid; [apply IH|].
    destruct (IH (S i)) as [Hids Hall]. split.
    + cbn [map md_ID]. now rewrite Hids.
    + constructor; [|exact Hall]. cbn [md_Name md_ID md_Cost].
      split; [reflexivity|]. now apply costLabel_not_free.
  - split; [reflexivity | constructor].
Qed.

Lemma handleModels_never_labels_free_witness :
  (forall i : nat, rangeOrder ((fun _ => Stub.reverseOrder) i))
  /\ map md_ID (handleModels (fun _ => Stub.reverseOrder) Stub.catalogue)
     = listedModels Stub.catalogue
  /\ Forall
       (fun md =>
          md_Name md = md_ID md
          /\ md_Cost md <> PriceFree
          /\ (md_Cost md = PriceVariable
              <-> forall k r, modelCosts !! k = Some r ->
                              keyMatches (md_ID md) k = false))
       (handleModels (fun _ => Stub.reverseOrder) Stub.catalogue).
Proof.
  split; [intros _; exact rangeOrder_reverse|].
  apply (handleModels_never_labels_free (fun _ => Stub.reverseOrder)
           Stub.catalogue).
  intros _; exact rangeOrder_reverse.
Defined.

(** ** The context cache *)

Lemma append_cons (c : ascii) (s t : string) :
  String c s ++ t = String c (s ++ t).
Proof. reflexivity. Qed.

Lemma append_length (s t : string) :
  String.length (s ++ t) = (String.length s + String.length t)%nat.
Proof.
  induction s as [|c s IH]; [reflexivity|].
  rewrite append_cons. cbn [String.length]. now rewrite IH.
Qed.

Lemma append_assoc (s t u : string) : (s ++ t) ++ u = s ++ (t ++ u).
Proof.
  induction s as [|c s IH]; [reflexivity|].
  rewrite !append_cons. now rewrite IH.
Qed.

Lemma append_empty_r (s : string) : s ++ "" = s.
Proof.
  induction s as [|c s IH]; [reflexivity|].
  rewrite append_cons. now rewrite IH.
Qed.

Lemma prefix_append (s t : string) : String.prefix s (s ++ t) = true.
Proof.
  induction s as [|c s IH]; [now destruct t|].
  rewrite append_cons. cbn [String.prefix].
  now destruct (Ascii.ascii_dec c c).
Qed.

Lemma Repeat_length (s : string) (count : nat) :
  String.length (strings2.Repeat s count)
  = (count * String.length s)%nat.
Proof.
  induction count as [|n IH]; cbn [strings2.Repeat]; [reflexivity|].
  rewrite append_length, IH. lia.
Qed.

Lemma Builder_String_app (b c : list Written) :
  Builder_String (b ++ c) = Builder_String b ++ Builder_String c.
Proof.
  induction b as [|w b IH]; [reflexivity|].
  cbn [app]. unfold Builder_String in *. cbn [foldr].
  now rewrite IH, append_assoc.
Qed.

Lemma Builder_Len_nonneg (b : list Written) : 0 <= Builder_Len b.
Proof. unfold Builder_Len. lia. Qed.

Lemma Builder_Len_app (b c : list Written) :
  Builder_Len (b ++ c) = Builder_Len b + Builder_Len c.
Proof. unfold Builder_Len. rewrite Builder_String_app, append_length. lia. Qed.

Lemma paddingLine_length : String.length paddingLine = 61%nat.
Proof. reflexivity. Qed.

Lemma Builder_Len_Padding (count : nat) :
  Builder_Len [Padding count] = 61 * Z.of_nat count.
Proof.
  unfold Builder_Len, Builder_String. cbn [foldr written].
  rewrite append_length, Repeat_length, paddingLine_length. cbn. lia.
Qed.

(** X22: the text that [BuildAndGetCache] uploads is never shorter than
    32768 bytes.  It begins with what was compiled; a compilation of at
    least 32768 bytes is uploaded as it is, and a shorter one is padded
    to between 32944 and 33550 bytes: the padding line has 61 bytes, one
    more than the divisor of the count. *)
Theorem cache_text_reaches_the_threshold (ToLower : string -> string)
    (ReadFile : string -> Result string) (g : Globals)
    (rootNode : Result fs.Node) :
  let built := contentBuilder (compiled ToLower ReadFile g rootNode) in
  let text := Builder_String (padded built) in
  32768 <= Z.of_nat (String.length text)
  /\ String.prefix (Builder_String built) text = true
  /\ (Builder_Len built < 32768 ->
      32944 <= Z.of_nat (String.length text) <= 33550)
  /\ (32768 <= Builder_Len built -> text = Builder_String built).
Proof.
  cbv zeta. generalize (contentBuilder (compiled ToLower ReadFile g rootNode)).
  intros b. unfold padded.
  pose proof (Builder_Len_nonneg b) as H0.
  destruct (Builder_Len b <? 32768) eqn:E.
  - apply Z.ltb_lt in E.
    assert (Hlen : Z.of_nat (String.length (Builder_String
                     (b ++ [Padding (Z.to_nat ((33000 - Builder_Len b) ÷ 60))])))
                   = Builder_Len b + 61 * ((33000 - Builder_Len b) ÷ 60)).
    { fold (Builder_Len (b ++ [Padding (Z.to_nat ((33000 - Builder_Len b) ÷ 60))])).
      rewrite Builder_Len_app, Builder_Len_Padding.
      rewrite Z2Nat.id; [reflexivity|]. apply Z.quot_pos; lia. }
    rewrite Hlen. rewrite Z.quot_div_nonneg by lia.
    pose proof (Z.div_mod (33000 - Builder_Len b) 60 ltac:(lia)) as Hd.
    pose proof (Z.mod_pos_bound (33000 - Builder_Len b) 60 ltac:(lia)) as Hm.
    repeat split; try lia.
    rewrite Builder_String_app. apply prefix_append.
  - apply Z.ltb_ge in E. repeat split; try lia.
    + exact E.
    + rewrite <- (append_empty_r (Builder_String b)) at 2. apply prefix_append.
Qed.

Section WalkFacts.

Variable ToLower : string -> string.
Variable ReadFile : string -> Result string.

Lemma walkDir_Dir (path name : string) (dirs : list fs.Node)
    (readErr : option string) (s : Build) :
  walkDir ToLower ReadFile path (fs.Dir name dirs readErr) s
  = if skipped ToLower name then (None, s)
    else match readErr with
         | Some e => (Some (walk.Error e), s)
         | None => walkEntries ToLower ReadFile path dirs s
         end.
Proof.
  cbn [walkDir walkFn]. fold (skipped ToLower name).
  destruct (skipped ToLower name); [reflexivity|].
  destruct readErr as [e|]; [reflexivity|].
  revert s. induction dirs as [|d1 rest IH]; intros s; [reflexivity|].
  cbn [walkEntries].
  destruct (walkDir ToLower ReadFile (filepath.Join [path; fs.Name d1]) d1 s)
    as [[[| |e]|] s']; try reflexivity.
  apply IH.
Qed.

Lemma walkDir_File (path name : string) (info : Result FileInfo)
    (s : Build) :
  walkDir ToLower ReadFile path (fs.File name info) s
  = walkFn ToLower ReadFile path (fs.File name info) None s.
Proof.
  cbn [walkDir].
  now destruct (walkFn ToLower ReadFile path (fs.File name info) None s).
Qed.

Lemma capped_app (base a1 a2 : list Written) :
  capped base a1 -> capped (base ++ a1) a2 -> capped base (a1 ++ a2).
Proof.
  revert base. induction a1 as [|w a1 IH]; intros base H1 H2.
  - now rewrite app_nil_r in H2.
  - destruct H1 as [Hb H1]. split; [exact Hb|].
    apply IH; [exact H1|]. now rewrite <- app_assoc.
Qed.

(** What a walk from [d] at [root] adds to the builder. *)
Local Abbreviation adds :=
  (fun (root : string) (d : fs.Node) (s s' : Build) =>
     exists added,
       contentBuilder s' = (contentBuilder s ++ added)%list
       /\ fileCount s' = fileCount s + Z.of_nat (length added)
       /\ capped (contentBuilder s) added
       /\ Forall (fun w => exists p data,
                    w = FileSection p data
                    /\ passes ToLower ReadFile root d p data) added).

Lemma adds_nothing (root : string) (d : fs.Node) (s : Build) :
  adds root d s s.
Proof.
  exists []. rewrite app_nil_r. cbn. repeat split; [lia | constructor].
Qed.

Lemma walkFn_File_adds (path name : string) (info : Result FileInfo)
    (s : Build) :
  adds path (fs.File name info) s
    (walkFn ToLower ReadFile path (fs.File name info) None s).2.
Proof.
  cbn [walkFn].
  destruct (isBackup ToLower name) eqn:Hb; [apply adds_nothing|].
  destruct (walk.allowed !! filepath2.Ext path) as [[|]|] eqn:Hext;
    cbn [default]; try apply adds_nothing.
  destruct (MaxTotalChars <? Builder_Len (contentBuilder s)) eqn:Hcap;
    [apply adds_nothing|].
  apply Z.ltb_ge in Hcap.
  destruct (match info with
            | inl info => MaxFileBytes <? Size info
            | inr _ => false
            end) eqn:Hsize; [apply adds_nothing|].
  destruct (ReadFile path) as [data|] eqn:Hread; [|apply adds_nothing].
  destruct (isBinary data) eqn:Hbin; [apply adds_nothing|].
  cbn [snd contentBuilder fileCount].
  exists [FileSection path data]. split; [reflexivity|].
  split; [cbn; lia|]. split; [now split|].
  constructor; [|constructor]. exists path, data. split; [reflexivity|].
  exists name, info. split; [constructor|]. split; [exact Hb|].
  split; [exact Hext|]. split; [|now split].
  intros i ->. now apply Z.ltb_ge in Hsize.
Qed.

Lemma adds_below (path name : string) (dirs : list fs.Node) (d1 : fs.Node)
    (s s' : Build) :
  d1 ∈ dirs -> skipped ToLower name = false ->
  adds (filepath.Join [path; fs.Name d1]) d1 s s' ->
  adds path (fs.Dir name dirs None) s s'.
Proof.
  intros Hin Hskip (added & Hc & Hn & Hcap & Hall).
  exists added. repeat split; try assumption.
  eapply Forall_impl; [exact Hall|]. cbn beta.
  intros w (p & data & -> & name' & info & Hr & Hrest).
  exists p, data. split; [reflexivity|]. exists name', info.
  split; [|exact Hrest]. now apply (reaches_entry _ path name dirs d1).
Qed.

Lemma adds_trans (root : string) (d : fs.Node) (s s' s'' : Build) :
  adds root d s s' -> adds root d s' s'' -> adds root d s s''.
Proof.
  intros (a1 & Hc1 & Hn1 & Hcap1 & Hall1) (a2 & Hc2 & Hn2 & Hcap2 & Hall2).
  exists (a1 ++ a2)%list. split; [now rewrite Hc2, Hc1, app_assoc|].
  split; [rewrite Hn2, Hn1, length_app; lia|].
  split; [apply capped_app; [exact Hcap1 | now rewrite <- Hc1]|].
  apply Forall_app. now split.
Qed.

Lemma walkEntries_adds (path name : string) (dirs l : list fs.Node)
    (s : Build) :
  skipped ToLower name = false ->
  (forall d1, d1 ∈ l -> d1 ∈ dirs) ->
  Forall (fun d => forall path s,
            adds path d s (walkDir ToLower ReadFile path d s).2) l ->
  adds path (fs.Dir name dirs None) s
    (walkEntries ToLower ReadFile path l s).2.
Proof.
  intros Hskip. revert s.
  induction l as [|d1 rest IHl]; intros s Hsub IH; [apply adds_nothing|].
  cbn [walkEntries].
  apply Forall_cons in IH. destruct IH as [IH1 IHrest].
  specialize (IH1 (filepath.Join [path; fs.Name d1]) s).
  assert (Hd1 : adds path (fs.Dir name dirs None) s
            (walkDir ToLower ReadFile (filepath.Join [path; fs.Name d1])
               d1 s).2).
  { apply (adds_below path name dirs d1);
      [apply Hsub; left | exact Hskip | exact IH1]. }
  destruct (walkDir ToLower ReadFile (filepath.Join [path; fs.Name d1]) d1 s)
    as [[[| |e]|] s'];
    cbn [snd] in Hd1 |- *; try exact Hd1.
  eapply adds_trans; [exact Hd1|].
  apply IHl; [|exact IHrest].
  intros d2 Hd2. apply Hsub. now right.
Qed.

Lemma walkDir_adds (d : fs.Node) :
  forall path s, adds path d s (walkDir ToLower ReadFile path d s).2.
Proof.
  induction d as [name info | name dirs readErr IH] using fs.Node_nested_ind;
    intros path s.
  - rewrite walkDir_File. apply walkFn_File_adds.
  - rewrite walkDir_Dir.
    destruct (skipped ToLower name) eqn:Hskip; [apply adds_nothing|].
    destruct readErr as [e|]; [apply adds_nothing|].
    now apply walkEntries_adds.
Qed.

End WalkFacts.

(** X23: what [BuildAndGetCache] compiles is the history log, when it
    can be read, and then file sections only, as many as [fileCount]
    says.  Every section is a file of the walk, below directories that
    are neither skipped nor unreadable, whose name has nothing of a
    backup, whose extension is allowed, whose size, when it is known, is
    at most [MaxFileBytes], and whose content, as read, has no zero byte
    in its first 1024 bytes; and it was written to a builder of at most
    [MaxTotalChars] bytes. *)
Theorem ingested_files_pass_the_filters (ToLower : string -> string)
    (ReadFile : string -> Result string) (g : Globals)
    (rootNode : Result fs.Node) :
  let history :=
    match ReadFile (filepath.Join [projectRoot g; HistoryPath]) with
    | inl hist => [HistoryLog hist]
    | inr _ => []
    end in
  let built := compiled ToLower ReadFile g rootNode in
  exists files,
    contentBuilder built = (history ++ files)%list
    /\ fileCount built = Z.of_nat (length files)
    /\ capped history files
    /\ Forall (fun w => exists p data d,
                 w = FileSection p data
                 /\ rootNode = inl d
                 /\ passes ToLower ReadFile (projectRoot g) d p data) files.
Proof.
  cbv zeta. unfold compiled, WalkDir.
  destruct rootNode as [d|e].
  - match goal with
    | |- context [walkDir _ _ ?root d ?s0] =>
        destruct (walkDir_adds ToLower ReadFile d root s0)
          as (added & Hc & Hn & Hcap & Hall);
        destruct (walkDir ToLower ReadFile root d s0) as [err s']
    end.
    cbn [snd contentBuilder fileCount] in Hc, Hn, Hcap.
    exists added.
    assert (Hs' : (match err with
                   | Some (walk.Error e) => (Some e, s')
                   | _ => (None, s')
                   end).2 = s') by (now destruct err as [[| |e]|]).
    rewrite Hs'. split; [exact Hc|]. split; [lia|]. split; [exact Hcap|].
    eapply Forall_impl; [exact Hall|]. cbn beta.
    intros w (p & data & -> & Hp). now exists p, data, d.
  - cbn [snd contentBuilder fileCount]. exists []. rewrite app_nil_r.
    repeat split; constructor.
Qed.

(** X24: the tests on a directory apply to the root of the walk too.
    When the served directory itself has a name of the skip map
    ([build], [dist], [out], [target], ...) or a name with [backup] or
    [bkup], no file is compiled: the cache holds the history log and the
    padding. *)
Theorem skipped_root_caches_no_file (ToLower : string -> string)
    (ReadFile : string -> Result string) (g : Globals) (name : string)
    (entries : list fs.Node) (err : option string) :
  skipped ToLower name = true ->
  compiled ToLower ReadFile g (inl (fs.Dir name entries err))
  = {| contentBuilder :=
         match ReadFile (filepath.Join [projectRoot g; HistoryPath]) with
         | inl hist => [HistoryLog hist]
         | inr _ => []
         end;
       fileCount := 0 |}.
Proof.
  intros Hskip. unfold compiled, WalkDir.
  now rewrite walkDir_Dir, Hskip.
Qed.

Lemma skipped_root_caches_no_file_witness :
  skipped Stub.asciiLower "build" = true
  /\ compiled Stub.asciiLower Stub.projectReadFile Stub.globals
       (inl (fs.Dir "build" [fs.File "main.go" (inl {| Size := 12 |})] None))
     = {| contentBuilder :=
            match Stub.projectReadFile
                    (filepath.Join [projectRoot Stub.globals; HistoryPath]) with
            | inl hist => [HistoryLog hist]
            | inr _ => []
            end;
          fileCount := 0 |}.
Proof.
  split; [reflexivity|].
  apply (skipped_root_caches_no_file Stub.asciiLower Stub.projectReadFile
           Stub.globals "build"). reflexivity.
Defined.

Lemma walkEntries_after_unreadable (ToLower : string -> string)
    (ReadFile : string -> Result string) (path n : string)
    (es pre post : list fs.Node) (e : string) (s : Build) :
  skipped ToLower n = false ->
  (walkEntries ToLower ReadFile path
     (pre ++ fs.Dir n es (Some e) :: post) s).2
  = (walkEntries ToLower ReadFile path pre s).2.
Proof.
  intros Hskip. revert s.
  induction pre as [|d1 pre IH]; intros s; cbn [app walkEntries].
  - now rewrite walkDir_Dir, Hskip.
  - destruct (walkDir ToLower ReadFile _ d1 s) as [[[| |e']|] s'];
      try reflexivity.
    apply IH.
Qed.

(** X25: an error of [os.ReadDir] ends the whole walk, not only the
    directory it came from.  Whatever the root lists after a directory
    that cannot be read, and that is not skipped, is left out: the
    compilation is that of the entries before it. *)
Theorem unreadable_directory_ends_the_walk (ToLower : string -> string)
    (ReadFile : string -> Result string) (g : Globals) (name n : string)
    (es pre post : list fs.Node) (e : string) :
  skipped ToLower n = false ->
  compiled ToLower ReadFile g
    (inl (fs.Dir name (pre ++ fs.Dir n es (Some e) :: post) None))
  = compiled ToLower ReadFile g (inl (fs.Dir name pre None)).
Proof.
  intros Hskip. unfold compiled, WalkDir. rewrite !walkDir_Dir.
  destruct (skipped ToLower name); [reflexivity|].
  match goal with
  | |- context [walkEntries _ _ ?path (pre ++ _) ?s0] =>
      pose proof (walkEntries_after_unreadable ToLower ReadFile path n es pre
                    post e s0 Hskip) as H;
      destruct (walkEntries ToLower ReadFile path
                  (pre ++ fs.Dir n es (Some e) :: post) s0) as [err1 s1];
      destruct (walkEntries ToLower ReadFile path pre s0) as [err2 s2]
  end.
  cbn [snd] in H. subst s2.
  now destruct err1 as [[| |?]|], err2 as [[| |?]|].
Qed.

Lemma unreadable_directory_ends_the_walk_witness :
  skipped Stub.asciiLower "private" = false
  /\ compiled Stub.asciiLower Stub.projectReadFile Stub.globals
       (inl (fs.Dir "project"
               ([ fs.File "README.md" (inl {| Size := 6 |});
                  fs.File "main.go" (inl {| Size := 12 |}) ]
                ++ fs.Dir "private" [] (Some "permission denied")
                   :: [ fs.File "zz.txt" (inl {| Size := 2 |}) ])
               None))
     = compiled Stub.asciiLower Stub.projectReadFile Stub.globals
         (inl (fs.Dir "project"
                 [ fs.File "README.md" (inl {| Size := 6 |});
                   fs.File "main.go" (inl {| Size := 12 |}) ]
                 None)).
Proof.
  split; [reflexivity|].
  apply (unreadable_directory_ends_the_walk Stub.asciiLower
           Stub.projectReadFile Stub.globals "project" "private").
  reflexivity.
Defined.

(** X26: [cacheModel] is set from the [-model] flag in every mode but
    one.  With [-cache] and no [-cache-id], it is set by
    [BuildAndGetCache], and only when the upload succeeds; after a
    failed upload the server runs without a cache and without the flag:
    a request of the OpenAI adapter for a model that is not a [gemini-]
    one goes to [DefaultModel], where a server started without [-cache]
    would send it to the model of the flag. *)
Theorem failed_build_forgets_the_model_flag (ToLower : string -> string)
    (ReadFile : string -> Result string)
    (Caches_Create : string -> string -> Result string)
    (cachePath modelName reqModel : string) (g : Globals)
    (rootNode : Result fs.Node) :
  cacheModel g = "" -> modelName <> "" ->
  strings.HasPrefix reqModel "gemini-" = false ->
  mapOpenAIModel
    (cacheSetup ToLower ReadFile Caches_Create "" cachePath modelName g
       rootNode) reqModel
  = if String.eqb cachePath "" then UseModel modelName
    else
      match Caches_Create ("models/" ++ modelName)
              (Builder_String
                 (padded (contentBuilder
                            (compiled ToLower ReadFile g rootNode)))) with
      | inl _ => UseModel modelName
      | inr _ => UseModel DefaultModel
      end.
Proof.
  intros Hg Hmodel Hreq. apply String.eqb_neq in Hmodel.
  unfold cacheSetup, mapOpenAIModel, BuildAndGetCache. rewrite Hreq.
  cbn [String.eqb negb].
  destruct (String.eqb cachePath ""); cbn [negb cacheModel].
  - now rewrite Hmodel.
  - destruct (Caches_Create _ _); cbn [cacheModel].
    + now rewrite Hmodel.
    + now rewrite Hg.
Qed.

Lemma failed_build_forgets_the_model_flag_witness :
  cacheModel Stub.atStart = "" /\ "gemini-1.5-pro" <> ""
  /\ strings.HasPrefix "gpt-4" "gemini-" = false
  /\ mapOpenAIModel
       (cacheSetup Stub.asciiLower Stub.projectReadFile Stub.cacheNone ""
          "." "gemini-1.5-pro" Stub.atStart (inl Stub.project)) "gpt-4"
     = UseModel DefaultModel.
Proof.
  split; [reflexivity|]. split; [discriminate|]. split; [reflexivity|].
  exact (failed_build_forgets_the_model_flag Stub.asciiLower
           Stub.projectReadFile Stub.cacheNone "." "gemini-1.5-pro" "gpt-4"
           Stub.atStart (inl Stub.project) eq_refl
           ltac:(discriminate) eq_refl).
Defined.

(** ** The Gemini stream *)

Lemma prefix_empty (s : string) : String.prefix "" s = true.
Proof. now destruct s. Qed.

Lemma splitFrom_skip (a rest sep : string) :
  strings2.splitFrom (a ++ rest) sep (String.length a)
  = strings2.splitFrom rest sep 0.
Proof.
  induction a as [|c a IH]; [reflexivity|].
  rewrite append_cons. cbn [String.length strings2.splitFrom]. exact IH.
Qed.

Lemma splitFrom_nonempty (s sep : string) (skip : nat) :
  strings2.splitFrom s sep skip <> [].
Proof.
  revert skip. induction s as [|c s IH]; intros skip; [discriminate|].
  cbn [strings2.splitFrom]. destruct skip as [|skip]; [|apply IH].
  destruct (String.prefix sep (String c s)); [discriminate|].
  now destruct (strings2.splitFrom s sep 0).
Qed.

(** An occurrence of the separator at the head of the text. *)
Lemma Split_at_separator (c : ascii) (sep rest : string) :
  strings2.Split (String c sep ++ rest) (String c sep)
  = "" :: strings2.Split rest (String c sep).
Proof.
  unfold strings2.Split. rewrite append_cons.
  cbn [strings2.splitFrom].
  rewrite <- append_cons, prefix_append.
  cbn [String.length Nat.sub]. rewrite ?Nat.sub_0_r.
  now rewrite splitFrom_skip.
Qed.

(** No occurrence at the head: the first byte goes to the first piece. *)
Lemma Split_no_separator (c : ascii) (s sep : string) :
  String.prefix sep (String c s) = false ->
  strings2.Split (String c s) sep
  = String c (hd "" (strings2.Split s sep)) :: tl (strings2.Split s sep).
Proof.
  unfold strings2.Split. intros H. cbn [strings2.splitFrom]. rewrite H.
  pose proof (splitFrom_nonempty s sep 0).
  now destruct (strings2.splitFrom s sep 0).
Qed.

Lemma Split_route (rest : string) :
  strings2.Split ("/v1beta/models/" ++ rest) "/models/"
  = "/v1beta" :: strings2.Split rest "/models/".
Proof.
  change ("/v1beta/models/" ++ rest)
    with (String "/" (String "v" (String "1" (String "b" (String "e"
           (String "t" (String "a" ("/models/" ++ rest)))))))).
  repeat (rewrite Split_no_separator by reflexivity; cbn [hd tl]).
  now rewrite (Split_at_separator "/" "models/" rest).
Qed.

(** A separator that begins in [a] and does not hold the byte [x] ends
    before [x]. *)
Lemma prefix_before_byte (sep a b : string) (x : ascii) :
  existsb (Ascii.eqb x) (list_ascii_of_string sep) = false ->
  String.prefix sep (a ++ String x b) = true ->
  String.prefix sep a = true.
Proof.
  revert a. induction sep as [|c sep IH]; intros a Hx H.
  - apply prefix_empty.
  - cbn [list_ascii_of_string existsb] in Hx.
    apply orb_false_elim in Hx. destruct Hx as [Hc Hx].
    destruct a as [|y a].
    + change ("" ++ String x b) with (String x b) in H.
      cbn [String.prefix] in H.
      destruct (Ascii.ascii_dec c x) as [->|]; [|discriminate].
      now rewrite Ascii.eqb_refl in Hc.
    + rewrite append_cons in H. cbn [String.prefix] in H |- *.
      destruct (Ascii.ascii_dec c y); [|discriminate].
      now apply IH.
Qed.

(** The first piece of a text with a colon after [m], when no occurrence
    of the separator lies in [m] and the separator has no colon. *)
Lemma Split_head_before_colon (m rest sep : string) :
  existsb (Ascii.eqb ":") (list_ascii_of_string sep) = false ->
  sep <> "" ->
  strings.Contains m sep = false ->
  hd "" (strings2.Split (m ++ String ":" rest) sep)
  = m ++ String ":" (hd "" (strings2.Split rest sep)).
Proof.
  intros Hsep Hne. induction m as [|c m IH]; intros Hm.
  - change ("" ++ String ":" rest) with (String ":" rest).
    rewrite Split_no_separator; [reflexivity|].
    destruct sep as [|y sep]; [congruence|].
    cbn [list_ascii_of_string existsb] in Hsep.
    apply orb_false_elim in Hsep. destruct Hsep as [Hy _].
    cbn [String.prefix]. destruct (Ascii.ascii_dec y ":") as [->|];
      [discriminate Hy | reflexivity].
  - cbn [strings.Contains] in Hm. apply orb_false_elim in Hm.
    destruct Hm as [Hpre Hm]. rewrite append_cons.
    rewrite Split_no_separator.
    + cbn [hd]. now rewrite (IH Hm).
    + destruct (String.prefix sep (String c (m ++ String ":" rest))) eqn:E;
        [|reflexivity].
      rewrite <- append_cons in E.
      apply (prefix_before_byte sep (String c m) rest ":" Hsep) in E.
      congruence.
Qed.

(** The first piece is the text before the first separator byte. *)
Lemma Split_colon_head (m rest : string) :
  strings.Contains m ":" = false ->
  hd "" (strings2.Split (m ++ String ":" rest) ":") = m.
Proof.
  induction m as [|c m IH]; intros Hm.
  - change ("" ++ String ":" rest) with (String ":" rest).
    unfold strings2.Split. cbn [strings2.splitFrom String.prefix].
    destruct (Ascii.ascii_dec ":" ":"); [|congruence].
    now rewrite prefix_empty.
  - cbn [strings.Contains] in Hm. apply orb_false_elim in Hm.
    destruct Hm as [Hpre Hm]. rewrite append_cons.
    rewrite Split_no_separator.
    + cbn [hd]. now rewrite (IH Hm).
    + cbn [String.prefix] in Hpre |- *.
      destruct (Ascii.ascii_dec ":" c); [|reflexivity].
      now rewrite prefix_empty in Hpre.
Qed.

Lemma Contains_at (a s sub : string) :
  String.prefix sub s = true -> strings.Contains (a ++ s) sub = true.
Proof.
  intros H. induction a as [|c a IH].
  - change ("" ++ s) with s. destruct s; cbn [strings.Contains];
      now rewrite H.
  - rewrite append_cons. cbn [strings.Contains]. rewrite IH.
    apply orb_true_r.
Qed.

(** X27: the streaming route names its model in the URL.  For a path
    [/v1beta/models/<m>:<action>] whose [<m>] has no colon and no
    [/models/] in it, [handleStream] takes [<m>] as the model, and
    [DefaultModel] when [<m>] is empty; and [handleOfficialAPI] sends the
    path to [handleStream] when the action begins with
    [streamGenerateContent]. *)
Theorem stream_url_names_the_model (m action : string) :
  strings.Contains m ":" = false ->
  strings.Contains m "/models/" = false ->
  let path := "/v1beta/models/" ++ m ++ ":" ++ action in
  streamModel path = (if String.eqb m "" then DefaultModel else m)
  /\ (strings.HasPrefix action "streamGenerateContent" = true ->
      handleOfficialAPI path = true).
Proof.
  intros Hcolon Hsep. cbv zeta. split.
  - unfold streamModel.
    assert (Hroute : strings.Contains
                       ("/v1beta/models/" ++ m ++ ":" ++ action) "/models/"
                     = true)
      by exact (Contains_at "/v1beta" ("/models/" ++ m ++ ":" ++ action)
                  "/models/" (prefix_append _ _)).
    rewrite Hroute.
    rewrite Split_route.
    change (":" ++ action) with (String ":" action).
    pose proof (Split_head_before_colon m action "/models/" eq_refl
                  ltac:(discriminate) Hsep) as Hhd.
    destruct (strings2.Split (m ++ String ":" action) "/models/")
      as [|piece pieces] eqn:E;
      [now apply splitFrom_nonempty in E|].
    cbn [hd] in Hhd. subst piece. cbn [length nth Nat.ltb Nat.leb].
    rewrite Split_colon_head by exact Hcolon.
    now destruct (String.eqb m "").
  - intros Haction. unfold handleOfficialAPI.
    change ("/v1beta/models/" ++ m ++ ":" ++ action)
      with ("/v1beta/models/" ++ m ++ String ":" action).
    rewrite <- append_assoc. apply Contains_at.
    cbn [String.prefix]. destruct (Ascii.ascii_dec ":" ":"); [|congruence].
    exact Haction.
Qed.

Lemma stream_url_names_the_model_witness :
  strings.Contains "gemini-1.5-pro" ":" = false
  /\ strings.Contains "gemini-1.5-pro" "/models/" = false
  /\ streamModel ("/v1beta/models/" ++ "gemini-1.5-pro" ++ ":"
                  ++ "streamGenerateContent")
     = "gemini-1.5-pro"
  /\ (strings.HasPrefix "streamGenerateContent" "streamGenerateContent" = true ->
      handleOfficialAPI ("/v1beta/models/" ++ "gemini-1.5-pro" ++ ":"
                         ++ "streamGenerateContent") = true).
Proof.
  split; [reflexivity|]. split; [reflexivity|].
  exact (stream_url_names_the_model "gemini-1.5-pro" "streamGenerateContent"
           eq_refl eq_refl).
Defined.

(** X28: the chat of [handleStream] is created for the model of the
    URL with no history and no tool, and with a cache whenever the
    request names one or the server has one: the model is not compared
    with the model of the cache.  So whenever [handleChat] would attach a
    cache for a request with the same override, [handleStream] attaches
    the same one, and it attaches the server's cache also where
    [handleChat] leaves it out for a model of another family. *)
Theorem stream_attaches_the_cache_to_any_model (up : genai.Upstream)
    (SendMessageStream : genai.Chat -> list genai.Part ->
                         list (Result genai.GenerateContentResponse))
    (g : Globals) (canFlush : bool) (path : string)
    (contents : list (gmap string json.Value)) (cachedContent : string)
    (chat : genai.Chat) :
  gs_chat (handleStream up SendMessageStream g canFlush path contents
             cachedContent) = Some chat ->
  genai.chat_model chat = streamModel path
  /\ genai.chat_history chat = []
  /\ genai.Tools (genai.chat_config chat) = []
  /\ (genai.CachedContent (genai.chat_config chat) = ""
      <-> cachedContent = "" /\ cacheName g = "")
  /\ forall req : ChatRequest,
       CacheID req = cachedContent ->
       CachedContent_of g req <> "" ->
       genai.CachedContent (genai.chat_config chat) = CachedContent_of g req.
Proof.
  unfold handleStream, genai.Chats_Create.
  destruct canFlush; cbn [negb]; [|discriminate].
  destruct (genai.up_Create up _ _ _); [discriminate|].
  destruct (streamChunks _ _) as [frames fullResponse].
  cbn [gs_chat]. intros [= <-].
  cbn [genai.chat_model genai.chat_history genai.chat_config streamConfig
       genai.Tools genai.CachedContent].
  split; [reflexivity|]. split; [reflexivity|]. split; [reflexivity|].
  split.
  - destruct (String.eqb cachedContent "") eqn:E.
    + apply String.eqb_eq in E. tauto.
    + apply String.eqb_neq in E. split; [congruence | tauto].
  - intros req Hreq Hcid. unfold CachedContent_of in *.
    destruct (negb (String.eqb (activeCID g req) "") && negb (UseAgentic req)
              && negb (UseSearch req)); [|congruence].
    unfold activeCID in *. rewrite Hreq in *.
    destruct (String.eqb cachedContent ""); cbn [negb] in *; [|reflexivity].
    destruct (negb (String.eqb (cacheName g) "")); [|congruence].
    now destruct (negb (strings.Contains (Model req) "image") && _).
Qed.

Lemma stream_attaches_the_cache_to_any_model_witness :
  match
    gs_chat (handleStream Stub.plain Stub.cutStream Stub.cachedGlobals true
               "/v1beta/models/gemini-1.5-pro:streamGenerateContent"
               [Stub.textTurn "user" "hi"] "")
  with
  | Some chat =>
      genai.chat_model chat = "gemini-1.5-pro"
      /\ genai.CachedContent (genai.chat_config chat)
         = "cachedContents/abc123"
      /\ decide_cache Stub.cachedGlobals
           {| SessionID := ""; Model := "gemini-1.5-pro"; Message := "hi";
              CacheID := ""; UseSearch := false; UseAgentic := false |}
         = OmitCache
  | None => False
  end.
Proof.
  destruct (gs_chat _) as [chat|] eqn:E; [|vm_compute in E; discriminate E].
  pose proof (stream_attaches_the_cache_to_any_model _ _ _ _ _ _ _ _ E)
    as (Hmodel & _ & _ & _ & _).
  split; [rewrite Hmodel; reflexivity|].
  vm_compute in E. injection E as <-. split; reflexivity.
Defined.

Lemma streamChunks_shape (items : list (Result genai.GenerateContentResponse))
    (acc : string) :
  exists resps tail,
    (streamChunks items acc).1
    = (map (fun r => GeminiChunk (genai.ResponseText r)) resps ++ tail)%list
    /\ (streamChunks items acc).2
       = acc ++ foldr (fun r rest => genai.ResponseText r ++ rest) "" resps
    /\ (tail = [] /\ items = map inl resps
        \/ exists e rest, tail = [GeminiError e]
                          /\ items = (map inl resps ++ inr e :: rest)%list).
Proof.
  revert acc. induction items as [|[resp|e] items IH]; intros acc.
  - exists [], []. cbn. rewrite append_empty_r. repeat split. now left.
  - destruct (IH (acc ++ genai.ResponseText resp))
      as (resps & tail & Hf & Hfull & Htail).
    cbn [streamChunks].
    destruct (streamChunks items (acc ++ genai.ResponseText resp))
      as [frames fullResponse].
    cbn [fst snd] in *. exists (resp :: resps), tail. split.
    + cbn [map app]. now rewrite Hf.
    + split; [cbn [foldr]; now rewrite Hfull, append_assoc|].
      destruct Htail as [[-> ->] | (e & rest & -> & ->)]; [now left|].
      right. now exists e, rest.
  - exists [], [GeminiError e]. cbn [streamChunks fst snd map app foldr].
    rewrite append_empty_r. repeat split. right. now exists e, items.
Qed.

(** X29: the frames of [handleStream].  Without a chat there is either
    no frame (the writer cannot flush) or the one error frame of a failed
    creation.  With a chat there is one chunk for every response the
    iterator yields before its first error, with the text of the
    response, empty or not; then the error frame if the iterator failed,
    and nothing of what it would have yielded after; no closing frame is
    written.  [fullResponse] is the texts of the chunks, joined. *)
Theorem gemini_stream_frames (up : genai.Upstream)
    (SendMessageStream : genai.Chat -> list genai.Part ->
                         list (Result genai.GenerateContentResponse))
    (g : Globals) (canFlush : bool) (path : string)
    (contents : list (gmap string json.Value)) (cachedContent : string) :
  let out :=
    handleStream up SendMessageStream g canFlush path contents
      cachedContent in
  match gs_chat out with
  | None =>
      gs_fullResponse out = ""
      /\ (gs_frames out = [] /\ canFlush = false
          \/ exists e, gs_frames out = [GeminiError e] /\ gs_status out = None)
  | Some chat =>
      gs_status out = None
      /\ exists resps tail,
           gs_frames out
           = (map (fun r => GeminiChunk (genai.ResponseText r)) resps
              ++ tail)%list
           /\ gs_fullResponse out
              = foldr (fun r rest => genai.ResponseText r ++ rest) "" resps
           /\ (tail = []
               /\ SendMessageStream chat
                    [genai.TextPart (streamUserMsg contents)]
                  = map inl resps
               \/ exists e rest,
                    tail = [GeminiError e]
                    /\ SendMessageStream chat
                         [genai.TextPart (streamUserMsg contents)]
                       = (map inl resps ++ inr e :: rest)%list)
  end.
Proof.
  cbv zeta. unfold handleStream, genai.Chats_Create.
  destruct canFlush; cbn [negb].
  2:{ cbn. split; [reflexivity|]. now left. }
  destruct (genai.up_Create up _ _ _) as [err|].
  { cbn. split; [reflexivity|]. right. now exists err. }
  match goal with
  | |- context [streamChunks ?items ""] =>
      destruct (streamChunks_shape items "")
        as (resps & tail & Hf & Hfull & Htail);
      destruct (streamChunks items "") as [frames fullResponse]
  end.
  cbn [fst snd] in Hf, Hfull.
  cbn [gs_chat gs_status gs_frames gs_fullResponse].
  split; [reflexivity|]. exists resps, tail.
  split; [exact Hf|]. split; [exact Hfull|]. exact Htail.
Qed.

Lemma streamUserMsg_app (pre post : list (gmap string json.Value)) :
  streamUserMsg (pre ++ post)
  = fold_left (fun userMsg content =>
                 match userText content with
                 | Some text => text
                 | None => userMsg
                 end) post (streamUserMsg pre).
Proof. unfold streamUserMsg. apply fold_left_app. Qed.

Lemma streamUserMsg_last (pre post : list (gmap string json.Value))
    (c : gmap string json.Value) (text : string) :
  userText c = Some text ->
  Forall (fun c' => userText c' = None) post ->
  streamUserMsg (pre ++ c :: post) = text.
Proof.
  intros Hc Hpost. rewrite streamUserMsg_app. cbn [fold_left]. rewrite Hc.
  induction Hpost as [|c' post Hc' _ IH]; [reflexivity|].
  cbn [fold_left]. now rewrite Hc'.
Qed.

(** X30: of the [contents] of a request, [handleStream] uses one text:
    that of the last element with the role [user] whose first part is a
    text.  The elements before it, and the model turns and the user
    turns that begin with something else after it, change nothing: the
    answer is that to a request with this element alone. *)
Theorem stream_sends_the_last_user_text (up : genai.Upstream)
    (SendMessageStream : genai.Chat -> list genai.Part ->
                         list (Result genai.GenerateContentResponse))
    (g : Globals) (canFlush : bool) (path : string)
    (pre post : list (gmap string json.Value)) (c : gmap string json.Value)
    (text cachedContent : string) :
  userText c = Some text ->
  Forall (fun c' => userText c' = None) post ->
  streamUserMsg (pre ++ c :: post) = text
  /\ handleStream up SendMessageStream g canFlush path (pre ++ c :: post)
       cachedContent
     = handleStream up SendMessageStream g canFlush path [c] cachedContent.
Proof.
  intros Hc Hpost.
  pose proof (streamUserMsg_last pre post c text Hc Hpost) as H1.
  pose proof (streamUserMsg_last [] [] c text Hc ltac:(constructor)) as H2.
  cbn [app] in H2. split; [exact H1|].
  unfold handleStream. now rewrite H1, H2.
Qed.

Lemma stream_sends_the_last_user_text_witness :
  userText (Stub.textTurn "user" "hi") = Some "hi"
  /\ Forall (fun c' => userText c' = None)
       [Stub.textTurn "model" "hello"; Stub.pictureTurn]
  /\ streamUserMsg ([Stub.textTurn "user" "first"]
                    ++ Stub.textTurn "user" "hi"
                       :: [Stub.textTurn "model" "hello"; Stub.pictureTurn])
     = "hi"
  /\ handleStream Stub.plain Stub.cutStream Stub.cachedGlobals true "/x"
       ([Stub.textTurn "user" "first"]
        ++ Stub.textTurn "user" "hi"
           :: [Stub.textTurn "model" "hello"; Stub.pictureTurn]) ""
     = handleStream Stub.plain Stub.cutStream Stub.cachedGlobals true "/x"
         [Stub.textTurn "user" "hi"] "".
Proof.
  assert (H1 : userText (Stub.textTurn "user" "hi") = Some "hi")
    by (vm_compute; reflexivity).
  assert (H2 : Forall (fun c' => userText c' = None)
                 [Stub.textTurn "model" "hello"; Stub.pictureTurn])
    by (repeat constructor; vm_compute; reflexivity).
  split; [exact H1|]. split; [exact H2|].
  exact (stream_sends_the_last_user_text Stub.plain Stub.cutStream
           Stub.cachedGlobals true "/x" [Stub.textTurn "user" "first"]
           [Stub.textTurn "model" "hello"; Stub.pictureTurn]
           (Stub.textTurn "user" "hi") "hi" "" H1 H2).
Defined.
